(** * PXA27x quick-capture camera host: DMA descriptor chains and capture
      state machine

    Shallow embedding of the descriptor-chain engine of
    [drivers/media/video/pxa_camera.c]: the chain builder
    ([calculate_dma_sglen], [pxa_init_dma_channel]), the chain linker
    ([pxa_dma_add_tail_buf]), the capture start/stop sequences and the two
    interrupt handlers ([pxa_camera_irq], [pxa_camera_dma_irq]).

    C [int] and [u32] values are integers of [Z] with the wrap-around written
    out ([to_int], [to_u32]).  Objects reached through pointers (video
    buffers, DMA descriptors, device registers) live in finite maps keyed by
    their address. *)

From Stdlib Require Import ZArith Lia List.
From stdpp Require Import base option gmap list.

Open Scope Z_scope.

(** ** C integers *)

Module CInt.

Definition INT_MAX : Z := 2 ^ 31 - 1.

(** Conversion to a 32-bit signed [int] (two's complement wrap-around). *)
Definition to_int (z : Z) : Z := (z + 2 ^ 31) mod 2 ^ 32 - 2 ^ 31.

(** Conversion to [u32]. *)
Definition to_u32 (z : Z) : Z := z mod 2 ^ 32.

Definition int_add (a b : Z) : Z := to_int (a + b).
Definition int_sub (a b : Z) : Z := to_int (a - b).
Definition int_mul (a b : Z) : Z := to_int (a * b).

(** [/] on [int] truncates towards zero. *)
Definition int_div (a b : Z) : Z := to_int (Z.quot a b).

(** [#define roundup(x, y) ((((x) + ((y) - 1)) / (y)) * (y))] *)
Definition roundup (x y : Z) : Z :=
  int_mul (int_div (int_add x (int_sub y 1)) y) y.

End CInt.
Import CInt.

(** ** Outcomes of code that can stop the kernel *)

(** [Done a]: the function returned; [BUG]: a [BUG_ON] fired; [Oops]: a
    pointer that is [NULL] or dangling was dereferenced. *)
Inductive result (A : Type) : Type :=
| Done (a : A)
| BUG
| Oops.
Arguments Done {A} a.
Arguments BUG {A}.
Arguments Oops {A}.

Definition bind {A B : Type} (r : result A) (k : A -> result B) : result B :=
  match r with
  | Done a => k a
  | BUG => BUG
  | Oops => Oops
  end.

Notation "x <- c1 ;; c2" := (bind c1 (fun x => c2))
  (at level 100, c1 at next level, right associativity).

(** ** Constants of [<mach/dma.h>]

    The header that declares the DMA controller's register layout is not
    among the sources at hand, so the constants the driver takes from it are
    parameters of the development.  [pxa27x] below gives the values of the
    PXA27x.  The allocator of descriptor blocks, [dma_alloc_coherent], is
    not among the sources either: what it stores through its [handle]
    argument when it returns [NULL] is a parameter too. *)
Record mach_dma : Type := {
  DCMD_INCTRGADDR : Z;
  DCMD_FLOWSRC : Z;
  DCMD_BURST8 : Z;
  DCMD_ENDIRQEN : Z;
  DCMD_LENGTH : Z;
  DDADR_STOP : Z;
  DCSR_RUN : Z;
  DCSR_BUSERR : Z;
  DCSR_STARTINTR : Z;
  DCSR_ENDINTR : Z;
  (** [sizeof(struct pxa_dma_desc)] *)
  sizeof_pxa_dma_desc : Z;
  (** what a failed [dma_alloc_coherent(dev, size, handle, flag)] leaves in
      [*handle], from what [*handle] held at the call *)
  dma_alloc_failed : Z -> Z
}.

Definition pxa27x : mach_dma := {|
  DCMD_INCTRGADDR := 2 ^ 30;
  DCMD_FLOWSRC := 2 ^ 29;
  DCMD_BURST8 := 2 ^ 16;
  DCMD_ENDIRQEN := 2 ^ 21;
  DCMD_LENGTH := 8191;
  DDADR_STOP := 1;
  DCSR_RUN := 2 ^ 31;
  DCSR_BUSERR := 1;
  DCSR_STARTINTR := 2;
  DCSR_ENDINTR := 4;
  sizeof_pxa_dma_desc := 16;
  dma_alloc_failed := fun handle => handle
|}.

(** ** Camera interface registers and bits (from the driver itself) *)

Definition CICR0 : Z := 0x0000.
Definition CISR : Z := 0x0014.
Definition CIFR : Z := 0x0018.
Definition CIBR0 : Z := 0x0028.
Definition CIBR1 : Z := 0x0030.
Definition CIBR2 : Z := 0x0038.

Definition CICR0_ENB : Z := Z.shiftl 1 28.
Definition CICR0_EOFM : Z := Z.shiftl 1 1.

Definition CISR_EOF : Z := Z.shiftl 1 3.
Definition CISR_IFO_2 : Z := Z.shiftl 1 2.
Definition CISR_IFO_1 : Z := Z.shiftl 1 1.
Definition CISR_IFO_0 : Z := Z.shiftl 1 0.

Definition CIFR_RESET_F : Z := Z.shiftl 1 3.

(** [enum pxa_camera_active_dma] *)
Definition DMA_Y : Z := 0x1.
Definition DMA_U : Z := 0x2.
Definition DMA_V : Z := 0x4.

Definition ENOMEM : Z := 12.

Global Arguments CICR0 : simpl never.
Global Arguments CISR : simpl never.
Global Arguments CIFR : simpl never.
Global Arguments CICR0_ENB : simpl never.
Global Arguments CICR0_EOFM : simpl never.
Global Arguments CISR_EOF : simpl never.
Global Arguments CISR_IFO_0 : simpl never.
Global Arguments CISR_IFO_1 : simpl never.
Global Arguments CISR_IFO_2 : simpl never.
Global Arguments CIFR_RESET_F : simpl never.
Global Arguments DMA_Y : simpl never.
Global Arguments DMA_U : simpl never.
Global Arguments DMA_V : simpl never.

(** ** Data *)

(** One entry of a DMA-mapped scatterlist: [sg_dma_address], [sg_dma_len]. *)
Record scatterlist : Type := {
  sg_dma_address : Z;
  sg_dma_len : Z
}.

(** A [struct scatterlist *] is the list of the entries from the one it
    points to up to the end of the table; [NULL] is the empty list, and
    [sg_next] of the last entry is [NULL]. *)
Definition sg_next (sg : list scatterlist) : result (list scatterlist) :=
  match sg with
  | [] => Oops
  | _ :: rest => Done rest
  end.

(** [struct pxa_dma_desc]: the four words the DMA engine fetches. *)
Record pxa_dma_desc : Type := {
  ddadr : Z;
  dsadr : Z;
  dtadr : Z;
  dcmd : Z
}.

Global Instance pxa_dma_desc_inhabited : Inhabited pxa_dma_desc :=
  populate {| ddadr := 0; dsadr := 0; dtadr := 0; dcmd := 0 |}.

Definition set_ddadr (v : Z) (d : pxa_dma_desc) : pxa_dma_desc :=
  {| ddadr := v; dsadr := dsadr d; dtadr := dtadr d; dcmd := dcmd d |}.

Definition set_dcmd (v : Z) (d : pxa_dma_desc) : pxa_dma_desc :=
  {| ddadr := ddadr d; dsadr := dsadr d; dtadr := dtadr d; dcmd := v |}.

(** Coherent descriptor memory, by bus address.  The CPU pointer
    [sg_cpu + i] and the bus address [sg_dma + i * sizeof(struct
    pxa_dma_desc)] name the same descriptor; the model uses the bus address
    for both. *)
Abbreviation desc_mem := (gmap Z pxa_dma_desc).

(** [struct pxa_cam_dma]; [sg_cpu] is [None] for [NULL]. *)
Record pxa_cam_dma : Type := {
  sg_dma : Z;
  sg_cpu : option Z;
  sg_size : Z;
  sglen : Z
}.

Global Instance pxa_cam_dma_inhabited : Inhabited pxa_cam_dma :=
  populate {| sg_dma := 0; sg_cpu := None; sg_size := 0; sglen := 0 |}.

(** ** The chain builder *)

Section ChainBuilder.

Variable M : mach_dma.

(** Bus address of descriptor [i] of the array at [base]. *)
Definition desc_addr (base i : Z) : Z :=
  to_u32 (base + i * sizeof_pxa_dma_desc M).

(** The [for_each_sg] loop of [calculate_dma_sglen]: [n] iterations are
    left, [sg] is the loop pointer, [i] the loop index.  Returns [i] and
    [size] at the exit of the loop. *)
Fixpoint calculate_dma_sglen_loop (n : nat) (sg : list scatterlist)
    (i offset size : Z) : result (Z * Z) :=
  match n with
  | O => Done (i, size)
  | S n' =>
      match sg with
      | [] => Oops
      | s :: rest =>
          let dma_len := to_int (sg_dma_len s) in
          (* PXA27x Developer's Manual 27.4.4.1: round up to 8 bytes *)
          let xfer_len := roundup (Z.min (int_sub dma_len offset) size) 8 in
          let size := Z.max 0 (int_sub size xfer_len) in
          if size =? 0 then Done (i, size)
          else calculate_dma_sglen_loop n' rest (int_add i 1) 0 size
      end
  end.

Definition calculate_dma_sglen (sglist : list scatterlist)
    (sglen sg_first_ofs size : Z) : result Z :=
  e <- calculate_dma_sglen_loop (Z.to_nat sglen) sglist 0
                                sg_first_ofs size ;;
  let '(i, size) := e in
  (* BUG_ON(size != 0) *)
  if size =? 0 then Done (int_add i 1) else BUG.

(** State of the second loop, the one of [pxa_init_dma_channel], at its
    exit.  The loop is the one of a build without [DEBUG]. *)
Record init_loop_exit : Type := {
  exit_sg : list scatterlist;
  exit_dma_len : Z;
  exit_xfer_len : Z;
  exit_size : Z;
  exit_mem : desc_mem
}.

Fixpoint pxa_init_dma_channel_loop (res_start cibr base : Z) (n : nat)
    (sg : list scatterlist) (i offset size dma_len xfer_len : Z)
    (mem : desc_mem) : result init_loop_exit :=
  match n with
  | O => Done {| exit_sg := sg; exit_dma_len := dma_len;
                 exit_xfer_len := xfer_len; exit_size := size;
                 exit_mem := mem |}
  | S n' =>
      match sg with
      | [] => Oops
      | s :: rest =>
          let dma_len := to_int (sg_dma_len s) in
          let xfer_len := roundup (Z.min (int_sub dma_len offset) size) 8 in
          let size := Z.max 0 (int_sub size xfer_len) in
          let d := {|
            dsadr := to_u32 (res_start + cibr);
            dtadr := to_u32 (sg_dma_address s + offset);
            dcmd := to_u32 (Z.lor (Z.lor (Z.lor (DCMD_FLOWSRC M)
                                                (DCMD_BURST8 M))
                                         (DCMD_INCTRGADDR M)) xfer_len);
            ddadr := desc_addr base (i + 1) |} in
          let mem := <[desc_addr base i := d]> mem in
          if size =? 0 then
            Done {| exit_sg := sg; exit_dma_len := dma_len;
                    exit_xfer_len := xfer_len; exit_size := size;
                    exit_mem := mem |}
          else
            pxa_init_dma_channel_loop res_start cibr base n' rest
              (int_add i 1) 0 size dma_len xfer_len mem
      end
  end.

(** The cursor handed from one plane to the next: [*sg_first] and
    [*sg_first_ofs]. *)
Record sg_cursor : Type := {
  sg_first : list scatterlist;
  sg_first_ofs : Z
}.

(** What [pxa_init_dma_channel] leaves behind: its return value, the
    channel's [struct pxa_cam_dma], descriptor memory and the cursor. *)
Record init_out : Type := {
  out_ret : Z;
  out_dma : pxa_cam_dma;
  out_mem : desc_mem;
  out_cursor : sg_cursor
}.

(** [pxa_init_dma_channel].  [res_start] is [pcdev->res->start],
    [dma_sglen] is [dma->sglen], [pxa_dma] is [buf->dmas[channel]] and
    [alloc] is the answer of [dma_alloc_coherent] to this call: [None] for
    [NULL], else the bus address of the block.  The call is handed
    [&pxa_dma->sg_dma]: a block's bus address is stored there, and a failed
    call leaves there what [dma_alloc_failed] says.  [dma_free_coherent] of
    the previous block does not change the contents of descriptor memory. *)
Definition pxa_init_dma_channel (res_start : Z) (alloc : option Z)
    (pxa_dma : pxa_cam_dma) (mem : desc_mem) (dma_sglen cibr size : Z)
    (cur : sg_cursor) : result init_out :=
  n <- calculate_dma_sglen (sg_first cur) dma_sglen
                           (sg_first_ofs cur) size ;;
  let sg_size := to_u32 (to_u32 (int_add n 1) * sizeof_pxa_dma_desc M) in
  match alloc with
  | None =>
      Done {| out_ret := - ENOMEM;
              out_dma := {| sg_dma := dma_alloc_failed M (sg_dma pxa_dma);
                            sg_cpu := None;
                            sg_size := sg_size; sglen := sglen pxa_dma |};
              out_mem := mem; out_cursor := cur |}
  | Some base =>
      e <- pxa_init_dma_channel_loop res_start cibr base (Z.to_nat n)
             (sg_first cur) 0 (sg_first_ofs cur) size 0 0 mem ;;
      let last := desc_addr base n in
      let mem := exit_mem e in
      let mem := <[last := set_ddadr (DDADR_STOP M) (mem !!! last)]> mem in
      let mem := <[last := set_dcmd
                     (to_u32 (Z.lor (Z.lor (DCMD_FLOWSRC M) (DCMD_BURST8 M))
                                    (DCMD_ENDIRQEN M)))
                     (mem !!! last)]> mem in
      let pxa_dma' := {| sg_dma := base; sg_cpu := Some base;
                         sg_size := sg_size; sglen := n |} in
      (*
       * Handle 1 special case :
       *  - in 3 planes (YUV422P format), we might finish with xfer_len
       *    equal to dma_len (end on PAGE boundary).
       *)
      if exit_dma_len e <=? exit_xfer_len e then
        nxt <- sg_next (exit_sg e) ;;
        Done {| out_ret := 0; out_dma := pxa_dma'; out_mem := mem;
                out_cursor :=
                  {| sg_first := nxt;
                     sg_first_ofs :=
                       int_sub (exit_xfer_len e) (exit_dma_len e) |} |}
      else
        Done {| out_ret := 0; out_dma := pxa_dma'; out_mem := mem;
                out_cursor := {| sg_first := exit_sg e;
                                 sg_first_ofs := exit_xfer_len e |} |}
  end.

End ChainBuilder.

(** ** Video buffers and the device *)

(** [vb.state]; the states of [<media/videobuf-core.h>] the driver names. *)
Inductive videobuf_state : Type :=
| VIDEOBUF_NEEDS_INIT
| VIDEOBUF_PREPARED
| VIDEOBUF_QUEUED
| VIDEOBUF_ACTIVE
| VIDEOBUF_DONE.

(** [struct pxa_buffer] with the fields of its [struct videobuf_buffer vb]
    the core writes.  [vb_done] counts the [wake_up(&vb->done)] calls. *)
Record pxa_buffer : Type := {
  vb_state : videobuf_state;
  vb_ts : Z;
  vb_field_count : Z;
  vb_done : nat;
  dmas : list pxa_cam_dma;
  inwork : Z;
  active_dma : Z
}.

Global Instance pxa_buffer_inhabited : Inhabited pxa_buffer :=
  populate {| vb_state := VIDEOBUF_NEEDS_INIT; vb_ts := 0;
              vb_field_count := 0; vb_done := 0%nat; dmas := [];
              inwork := 0; active_dma := 0 |}.

Definition set_active_dma (v : Z) (b : pxa_buffer) : pxa_buffer :=
  {| vb_state := vb_state b; vb_ts := vb_ts b;
     vb_field_count := vb_field_count b; vb_done := vb_done b;
     dmas := dmas b; inwork := inwork b; active_dma := v |}.

Definition set_vb_state (v : videobuf_state) (b : pxa_buffer) : pxa_buffer :=
  {| vb_state := v; vb_ts := vb_ts b;
     vb_field_count := vb_field_count b; vb_done := vb_done b;
     dmas := dmas b; inwork := inwork b; active_dma := active_dma b |}.

(** The buffer after [pxa_camera_wakeup] has marked it: state, time stamp,
    field count and one more wake-up of the waiters on [vb->done]. *)
Definition mark_done (now : Z) (b : pxa_buffer) : pxa_buffer :=
  {| vb_state := VIDEOBUF_DONE; vb_ts := now;
     vb_field_count := to_u32 (vb_field_count b + 1);
     vb_done := S (vb_done b);
     dmas := dmas b; inwork := inwork b; active_dma := active_dma b |}.

(** The device: [struct pxa_camera_dev], the objects its pointers reach and
    the registers it drives.

    - [capture] is the list headed by [pcdev->capture], first entry first;
      its elements and [active] are addresses of [struct pxa_buffer]s;
    - [dma_chans] and [sg_tail] are the arrays of three; an index of 3 or
      more (undefined in C) reads the zero object and writes nothing;
    - [bufs] and [descs] are memory: every address holds an object, the
      zero object where nothing was written;
    - [DCSR] and [DDADR] are the DMA controller's registers by channel
      number, [cam] the camera interface's by offset from [pcdev->base]; a
      read returns what the register holds, a write stores the word;
    - [tod] is what [do_gettimeofday] returns;
    - [capture_head] is the address [list_first_entry(&pcdev->capture,
      struct pxa_buffer, vb.queue)] yields while the list is empty: the one
      of the [struct pxa_buffer] whose [vb.queue] would be the list head
      [pcdev->capture] itself.  It is the address of no buffer; what is
      read and written there is kept in [bufs] like any other address. *)
Record machine : Type := {
  channels : Z;
  dma_chans : list Z;
  capture : list Z;
  active : option Z;
  sg_tail : list (option Z);
  bufs : gmap Z pxa_buffer;
  descs : desc_mem;
  DCSR : gmap Z Z;
  DDADR : gmap Z Z;
  cam : gmap Z Z;
  tod : Z;
  capture_head : Z
}.

Definition with_capture (v : list Z) (s : machine) : machine :=
  {| channels := channels s; dma_chans := dma_chans s; capture := v;
     active := active s; sg_tail := sg_tail s; bufs := bufs s;
     descs := descs s; DCSR := DCSR s; DDADR := DDADR s; cam := cam s;
     tod := tod s; capture_head := capture_head s |}.

Definition with_active (v : option Z) (s : machine) : machine :=
  {| channels := channels s; dma_chans := dma_chans s; capture := capture s;
     active := v; sg_tail := sg_tail s; bufs := bufs s;
     descs := descs s; DCSR := DCSR s; DDADR := DDADR s; cam := cam s;
     tod := tod s; capture_head := capture_head s |}.

Definition with_sg_tail (v : list (option Z)) (s : machine) : machine :=
  {| channels := channels s; dma_chans := dma_chans s; capture := capture s;
     active := active s; sg_tail := v; bufs := bufs s;
     descs := descs s; DCSR := DCSR s; DDADR := DDADR s; cam := cam s;
     tod := tod s; capture_head := capture_head s |}.

Definition with_bufs (v : gmap Z pxa_buffer) (s : machine) : machine :=
  {| channels := channels s; dma_chans := dma_chans s; capture := capture s;
     active := active s; sg_tail := sg_tail s; bufs := v;
     descs := descs s; DCSR := DCSR s; DDADR := DDADR s; cam := cam s;
     tod := tod s; capture_head := capture_head s |}.

Definition with_descs (v : desc_mem) (s : machine) : machine :=
  {| channels := channels s; dma_chans := dma_chans s; capture := capture s;
     active := active s; sg_tail := sg_tail s; bufs := bufs s;
     descs := v; DCSR := DCSR s; DDADR := DDADR s; cam := cam s;
     tod := tod s; capture_head := capture_head s |}.

Definition with_DCSR (v : gmap Z Z) (s : machine) : machine :=
  {| channels := channels s; dma_chans := dma_chans s; capture := capture s;
     active := active s; sg_tail := sg_tail s; bufs := bufs s;
     descs := descs s; DCSR := v; DDADR := DDADR s; cam := cam s;
     tod := tod s; capture_head := capture_head s |}.

Definition with_DDADR (v : gmap Z Z) (s : machine) : machine :=
  {| channels := channels s; dma_chans := dma_chans s; capture := capture s;
     active := active s; sg_tail := sg_tail s; bufs := bufs s;
     descs := descs s; DCSR := DCSR s; DDADR := v; cam := cam s;
     tod := tod s; capture_head := capture_head s |}.

Definition with_cam (v : gmap Z Z) (s : machine) : machine :=
  {| channels := channels s; dma_chans := dma_chans s; capture := capture s;
     active := active s; sg_tail := sg_tail s; bufs := bufs s;
     descs := descs s; DCSR := DCSR s; DDADR := DDADR s; cam := v;
     tod := tod s; capture_head := capture_head s |}.

(** [__raw_readl(pcdev->base + reg)] and [__raw_writel(v, pcdev->base + reg)] *)
Definition readl (s : machine) (reg : Z) : Z := cam s !!! reg.
Definition writel (v reg : Z) (s : machine) : machine :=
  with_cam (<[reg := to_u32 v]> (cam s)) s.

(** [for (i = 0; i < pcdev->channels; i++) body] *)
Definition for_channels (body : nat -> machine -> machine) (s : machine)
  : machine :=
  foldl (fun s i => body i s) s (seq 0 (Z.to_nat (channels s))).

Fixpoint for_channels_from (body : nat -> machine -> result machine)
    (n i : nat) (s : machine) : result machine :=
  match n with
  | O => Done s
  | S n' => s' <- body i s ;; for_channels_from body n' (S i) s'
  end.

(** [list_is_last(pcdev->capture.next, &pcdev->capture)]: the first entry's
    [next] is the head again; on an empty list [capture.next] is the head
    itself, whose [next] is the head. *)
Definition first_is_last (q : list Z) : bool :=
  match q with
  | _ :: _ :: _ => false
  | _ => true
  end.

Definition bit_set (w mask : Z) : bool := negb (Z.land w mask =? 0).

Section Capture.

Variable M : mach_dma.

Definition pxa_videobuf_set_actdma (buf : Z) (s : machine) : machine :=
  let a := DMA_Y in
  let a := if channels s =? 3 then Z.lor a (Z.lor DMA_U DMA_V) else a in
  with_bufs (<[buf := set_active_dma a (bufs s !!! buf)]> (bufs s)) s.

(** [pxa_dma_start_channels]; [pcdev->active] is dereferenced. *)
Definition pxa_dma_start_channels (s : machine) : result machine :=
  match active s with
  | None => Oops
  | Some act =>
      Done (for_channels (fun i s =>
              let ch := dma_chans s !!! i in
              let s := with_DDADR
                         (<[ch := sg_dma (dmas (bufs s !!! act) !!! i)]>
                            (DDADR s)) s in
              with_DCSR (<[ch := DCSR_RUN M]> (DCSR s)) s) s)
  end.

Definition pxa_dma_stop_channels (s : machine) : machine :=
  for_channels (fun i s =>
    with_DCSR (<[dma_chans s !!! i := 0]> (DCSR s)) s) s.

(** One turn of the loop of [pxa_dma_add_tail_buf]. *)
Definition add_tail_channel (buf : Z) (i : nat) (s : machine)
  : result machine :=
  let d := dmas (bufs s !!! buf) !!! i in
  match sg_cpu d with
  | None => Oops
  | Some cpu =>
      let buf_last_desc := desc_addr M cpu (sglen d) in
      let mem := descs s in
      let mem := <[buf_last_desc :=
                     set_ddadr (DDADR_STOP M) (mem !!! buf_last_desc)]> mem in
      let mem :=
        match sg_tail s !!! i with
        | Some tail =>
            (* Link the new buffer to the old tail *)
            <[tail := set_ddadr (sg_dma d) (mem !!! tail)]> mem
        | None => mem
        end in
      (* Update the channel tail *)
      Done (with_sg_tail (<[i := Some buf_last_desc]> (sg_tail s))
              (with_descs mem s))
  end.

Definition pxa_dma_add_tail_buf (buf : Z) (s : machine) : result machine :=
  for_channels_from (add_tail_channel buf) (Z.to_nat (channels s)) 0 s.

Definition pxa_camera_start_capture (s : machine) : machine :=
  (* Reset the FIFOs *)
  let cifr := Z.lor (readl s CIFR) CIFR_RESET_F in
  let s := writel cifr CIFR s in
  (* Enable End-Of-Frame Interrupt *)
  let cicr0 := Z.lor (readl s CICR0) CICR0_ENB in
  let cicr0 := Z.land cicr0 (Z.lnot CICR0_EOFM) in
  writel cicr0 CICR0 s.

Definition pxa_camera_stop_capture (s : machine) : machine :=
  let s := pxa_dma_stop_channels s in
  let cicr0 := Z.land (readl s CICR0) (Z.lnot CICR0_ENB) in
  let s := writel cicr0 CICR0 s in
  with_active None s.

Definition pxa_videobuf_queue (buf : Z) (s : machine) : result machine :=
  let s := with_capture (capture s ++ [buf]) s in
  let s := with_bufs (<[buf := set_vb_state VIDEOBUF_ACTIVE
                                 (bufs s !!! buf)]> (bufs s)) s in
  s <- pxa_dma_add_tail_buf buf s ;;
  match active s with
  | None => Done (pxa_camera_start_capture s)
  | Some _ => Done s
  end.

(** [pxa_camera_wakeup(pcdev, vb, buf)], [vb] being [&buf->vb]. *)
Definition pxa_camera_wakeup (buf : Z) (s : machine) : machine :=
  (* list_del_init(&vb->queue) *)
  let s := with_capture (remove Z.eq_dec buf (capture s)) s in
  let s := with_bufs (<[buf := mark_done (tod s) (bufs s !!! buf)]>
                        (bufs s)) s in
  match capture s with
  | [] =>
      let s := pxa_camera_stop_capture s in
      for_channels (fun i s =>
        with_sg_tail (<[i := None]> (sg_tail s)) s) s
  | next :: _ => with_active (Some next) s
  end.

Definition pxa_camera_check_link_miss (s : machine) : machine :=
  let is_dma_stopped :=
    foldl (fun stopped i =>
             if DDADR s !!! (dma_chans s !!! i) =? DDADR_STOP M
             then stopped else false)
          true (seq 0 (Z.to_nat (channels s))) in
  match active s with
  | Some _ => if is_dma_stopped then pxa_camera_start_capture s else s
  | None => s
  end.

Definition pxa_camera_dma_irq (channel act_dma : Z) (s : machine)
  : machine :=
  let status := DCSR s !!! channel in
  let s := with_DCSR (<[channel := status]> (DCSR s)) s in
  let camera_status := readl s CISR in
  let overrun := CISR_IFO_0 in
  let overrun := if channels s =? 3
                 then Z.lor overrun (Z.lor CISR_IFO_1 CISR_IFO_2)
                 else overrun in
  if bit_set status (DCSR_BUSERR M) then s
  else if negb (bit_set status
                  (Z.lor (DCSR_ENDINTR M) (DCSR_STARTINTR M))) then s
  else
    match active s with
    | None => s
    | Some buf =>
        if bit_set status (DCSR_ENDINTR M) then
          (*
           * It's normal if the last frame creates an overrun, as there
           * are no more DMA descriptors to fetch from QCI fifos
           *)
          if bit_set camera_status overrun
             && negb (first_is_last (capture s)) then
            pxa_camera_start_capture (pxa_camera_stop_capture s)
          else
            let b := bufs s !!! buf in
            let b := set_active_dma
                       (Z.land (active_dma b) (Z.lnot act_dma)) b in
            let s := with_bufs (<[buf := b]> (bufs s)) s in
            if active_dma b =? 0 then
              pxa_camera_check_link_miss (pxa_camera_wakeup buf s)
            else s
        else s
    end.

Inductive irqreturn : Type := IRQ_NONE | IRQ_HANDLED.

(** [list_first_entry(&pcdev->capture, struct pxa_buffer, vb.queue)]: the
    first queued buffer.  The macro of [<linux/list.h>] tests nothing: on an
    empty list [pcdev->capture.next] is the list head and the entry it
    yields is [capture_head]. *)
Definition list_first_entry (s : machine) : Z :=
  match capture s with
  | buf :: _ => buf
  | [] => capture_head s
  end.

(** [pxa_camera_irq].  The handler does not test the queue: at the end of
    a frame it makes the entry [list_first_entry] yields the active buffer
    and starts the channels on it, whether a buffer is queued or not. *)
Definition pxa_camera_irq (s : machine) : result (irqreturn * machine) :=
  let status := readl s CISR in
  if status =? 0 then Done (IRQ_NONE, s)
  else
    let s := writel status CISR s in
    if bit_set status CISR_EOF then
      let buf := list_first_entry s in
      let s := with_active (Some buf) s in
      let s := pxa_videobuf_set_actdma buf s in
      s <- pxa_dma_start_channels s ;;
      let cicr0 := Z.lor (readl s CICR0) CICR0_EOFM in
      Done (IRQ_HANDLED, writel cicr0 CICR0 s)
    else Done (IRQ_HANDLED, s).

End Capture.

(** ** Specification-side notions *)

(** Total number of bytes of a run of scatterlist entries. *)
Definition total_len (segs : list scatterlist) : Z :=
  foldr (fun s acc => sg_dma_len s + acc) 0 segs.

(** A scatterlist entry whose length is an [int] that [roundup] can round
    without overflow. *)
Definition seg_ok (s : scatterlist) : Prop :=
  0 <= sg_dma_len s <= INT_MAX - 7.

(** A cursor that points into its first segment. *)
Definition cursor_ok (sg : list scatterlist) (ofs : Z) : Prop :=
  0 <= ofs /\ forall s, head sg = Some s -> ofs <= sg_dma_len s.

(** "Rounded up to the next multiple of 8 bytes". *)
Definition round_up8 (x : Z) : Z := 8 * ((x + 7) / 8).

(** The transfer lengths of one channel, as the specification words them:
    walk the segments from the cursor, each length being the minimum of what
    is left of the segment and what is left to transfer, rounded up to 8,
    until nothing is left to transfer. *)
Fixpoint xfer_lens (segs : list scatterlist) (ofs bytes : Z) : list Z :=
  match segs with
  | [] => []
  | s :: rest =>
      let len := round_up8 (Z.min (sg_dma_len s - ofs) bytes) in
      if bytes - len <=? 0 then [len]
      else len :: xfer_lens rest 0 (bytes - len)
  end.

Definition sum_list (l : list Z) : Z := foldr Z.add 0 l.

(** What is left of segment [k] of the walk that starts at the cursor
    [(sg, ofs)]: the offset only counts in the first segment. *)
Definition seg_remaining (sg : list scatterlist) (ofs : Z) (k : nat) : Z :=
  match sg !! k with
  | Some s => sg_dma_len s - match k with O => ofs | S _ => 0 end
  | None => 0
  end.

(** The transfer length a descriptor carries in its command word. *)
Definition dcmd_len (M : mach_dma) (d : pxa_dma_desc) : Z :=
  Z.land (dcmd d) (DCMD_LENGTH M).

(** The data descriptors of a channel's chain, in order. *)
Definition chain_descs (M : mach_dma) (mem : desc_mem) (d : pxa_cam_dma)
  : list pxa_dma_desc :=
  map (fun k => mem !!! desc_addr M (sg_dma d) (Z.of_nat k))
      (seq 0 (Z.to_nat (sglen d))).

(** The flags of a data descriptor's command word. *)
Definition DCMD_DATA (M : mach_dma) : Z :=
  Z.lor (Z.lor (DCMD_FLOWSRC M) (DCMD_BURST8 M)) (DCMD_INCTRGADDR M).

(** The length field is the low bits of the command word and the flags the
    driver sets lie outside it. *)
Definition dcmd_layout_ok (M : mach_dma) : Prop :=
  (exists w, 0 <= w <= 32 /\ DCMD_LENGTH M = Z.ones w) /\
  Z.land (DCMD_DATA M) (DCMD_LENGTH M) = 0 /\
  Z.land (Z.lor (Z.lor (DCMD_FLOWSRC M) (DCMD_BURST8 M)) (DCMD_ENDIRQEN M))
         (DCMD_LENGTH M) = 0.

(** The address the DMA engine holds after following [k] links from
    descriptor [a]. *)
Fixpoint follow (mem : desc_mem) (k : nat) (a : Z) : Z :=
  match k with
  | O => a
  | S k' => follow mem k' (ddadr (mem !!! a))
  end.

(** The block [dma_alloc_coherent] returned for up to [n + 1] descriptors
    lies in the 32-bit bus address space. *)
Definition block_ok (M : mach_dma) (base n : Z) : Prop :=
  0 < sizeof_pxa_dma_desc M /\ 0 <= base /\
  base + (n + 1) * sizeof_pxa_dma_desc M <= 2 ^ 32.

(** The descriptor the builder writes for segment [s], taken from offset
    [ofs] for [x] bytes and linked to [next]. *)
Definition data_desc (M : mach_dma) (res_start cibr : Z) (s : scatterlist)
    (ofs x next : Z) : pxa_dma_desc :=
  {| ddadr := next;
     dsadr := to_u32 (res_start + cibr);
     dtadr := to_u32 (sg_dma_address s + ofs);
     dcmd := to_u32 (Z.lor (DCMD_DATA M) x) |}.

(** The command word of the descriptor that ends a chain. *)
Definition DCMD_END (M : mach_dma) : Z :=
  to_u32 (Z.lor (Z.lor (DCMD_FLOWSRC M) (DCMD_BURST8 M)) (DCMD_ENDIRQEN M)).

(** The cursor after a walk whose last descriptor transfers [x] bytes of
    segment number [last] of [sg]. *)
Definition next_cursor (sg : list scatterlist) (last : nat) (len x : Z)
  : sg_cursor :=
  if len <=? x
  then {| sg_first := drop (S last) sg; sg_first_ofs := x - len |}
  else {| sg_first := drop last sg; sg_first_ofs := x |}.

(** Descriptors [0 .. n - 1] of the array at [base] each link to the
    next one. *)
Definition chain_linked (M : mach_dma) (mem : desc_mem) (base n : Z) : Prop :=
  forall k, 0 <= k < n ->
    ddadr (mem !!! desc_addr M base k) = desc_addr M base (k + 1).

(** ** A sample frame

    A YUV422P frame of 8192 bytes in two pages: 4096 bytes of Y, then 2048
    of U and 2048 of V in the second page. *)
Definition page (addr : Z) : scatterlist :=
  {| sg_dma_address := addr; sg_dma_len := 4096 |}.

Definition frame_sglist : list scatterlist :=
  [page 0xa3000000; page 0xa3004000].

Definition no_dma : pxa_cam_dma :=
  {| sg_dma := 0; sg_cpu := None; sg_size := 0; sglen := 0 |}.

(** The cursor of the V plane: the second page, 2048 bytes in. *)
Definition v_cursor : sg_cursor :=
  {| sg_first := [page 0xa3004000]; sg_first_ofs := 2048 |}.

(** ** The capture state machine and its environment *)

(** What the hardware holds in its registers, and the time of day. *)
Record hw : Type := {
  hw_DCSR : gmap Z Z;
  hw_DDADR : gmap Z Z;
  hw_cam : gmap Z Z;
  hw_tod : Z
}.

(** The device after the hardware has changed its registers to [h]. *)
Definition set_hw (h : hw) (s : machine) : machine :=
  {| channels := channels s; dma_chans := dma_chans s; capture := capture s;
     active := active s; sg_tail := sg_tail s; bufs := bufs s;
     descs := descs s; DCSR := hw_DCSR h; DDADR := hw_DDADR h;
     cam := hw_cam h; tod := hw_tod h;
     capture_head := capture_head s |}.

(** The FIFO overrun bits the DMA interrupt handler looks at. *)
Definition overrun_mask (s : machine) : Z :=
  if channels s =? 3 then Z.lor CISR_IFO_0 (Z.lor CISR_IFO_1 CISR_IFO_2)
  else CISR_IFO_0.

(** The camera interface is enabled. *)
Definition enabled (s : machine) : Prop :=
  bit_set (readl s CICR0) CICR0_ENB = true.

(** Capture is armed: the interface is enabled and the end-of-frame
    interrupt is not masked. *)
Definition armed (s : machine) : Prop :=
  bit_set (readl s CICR0) CICR0_ENB = true /\
  bit_set (readl s CICR0) CICR0_EOFM = false.

(** Channel [i] of the device has its run bit set. *)
Definition channel_running (M : mach_dma) (s : machine) (i : nat) : Prop :=
  bit_set (DCSR s !!! (dma_chans s !!! i)) (DCSR_RUN M) = true.

Definition running (M : mach_dma) (s : machine) : Prop :=
  exists i : nat, (i < Z.to_nat (channels s))%nat /\ channel_running M s i.

(** All the channels of the device are stopped by software. *)
Definition all_stopped (s : machine) : Prop :=
  forall i : nat, (i < Z.to_nat (channels s))%nat ->
    DCSR s !!! (dma_chans s !!! i) = 0.

(** Every channel's descriptor pointer is at the stop marker. *)
Definition dma_stopped (M : mach_dma) (s : machine) : Prop :=
  forall i : nat, (i < Z.to_nat (channels s))%nat ->
    DDADR s !!! (dma_chans s !!! i) = DDADR_STOP M.

(** What the hardware may do on its own: it does not write the control
    register [CICR0] and it does not start a DMA channel. *)
Definition hw_may (M : mach_dma) (s : machine) (h : hw) : Prop :=
  hw_cam h !!! CICR0 = cam s !!! CICR0 /\
  forall ch, bit_set (hw_DCSR h !!! ch) (DCSR_RUN M) = true ->
             bit_set (DCSR s !!! ch) (DCSR_RUN M) = true.


(** One step of the capture state machine: a buffer is queued, the camera
    interface raises its interrupt, a DMA channel raises its interrupt, or
    the hardware changes its registers.

    Nothing in the driver says when the camera interface raises its
    interrupt: [irq_when] is what a statement assumes of the device at that
    moment.  With [any_time] it assumes nothing; with [enabled] the
    interface raises its interrupt only while [CICR0_ENB] is set. *)
Inductive step (M : mach_dma) (irq_when : machine -> Prop)
  : machine -> machine -> Prop :=
| step_queue s buf s' :
    ~ In buf (capture s) ->
    pxa_videobuf_queue M buf s = Done s' ->
    step M irq_when s s'
| step_camera_irq s r s' :
    irq_when s ->
    pxa_camera_irq M s = Done (r, s') ->
    step M irq_when s s'
| step_dma_irq s channel act_dma :
    step M irq_when s (pxa_camera_dma_irq M channel act_dma s)
| step_hw s h :
    hw_may M s h ->
    step M irq_when s (set_hw h s).

(** Idle: nothing queued, no active buffer, the interface disabled and no
    channel running. *)
Definition idle (M : mach_dma) (s : machine) : Prop :=
  capture s = [] /\ active s = None /\
  bit_set (readl s CICR0) CICR0_ENB = false /\
  ~ running M s.

(** The states the device reaches from idle, under the assumption
    [irq_when] on the camera interrupt. *)
Inductive reachable (M : mach_dma) (irq_when : machine -> Prop)
  : machine -> Prop :=
| reachable_idle s : idle M s -> reachable M irq_when s
| reachable_step s s' :
    reachable M irq_when s -> step M irq_when s s' ->
    reachable M irq_when s'.

(** The DMA interrupt of channel number [channel], raised when the
    hardware holds [h], is a plain completion: no bus error, the end
    interrupt is set and the overrun path is not taken (no overrun is
    reported, or the first queued buffer is the last one). *)
Definition dma_completion (M : mach_dma) (h : hw) (channel : Z) (s : machine)
  : Prop :=
  bit_set (hw_DCSR h !!! channel) (DCSR_BUSERR M) = false /\
  bit_set (hw_DCSR h !!! channel) (DCSR_ENDINTR M) = true /\
  bit_set (hw_cam h !!! CISR) (overrun_mask s)
    && negb (first_is_last (capture s)) = false.

(** Buffer [buf] is not done in [s']: it is the active buffer, it is
    queued, its state is still [VIDEOBUF_ACTIVE], some channel bit is left
    and its waiters have not been woken since [s0]. *)
Definition not_done (buf : Z) (s0 s' : machine) : Prop :=
  vb_state (bufs s' !!! buf) = VIDEOBUF_ACTIVE /\
  vb_done (bufs s' !!! buf) = vb_done (bufs s0 !!! buf) /\
  In buf (capture s') /\ active s' = Some buf /\
  active_dma (bufs s' !!! buf) <> 0.

(** Buffer [buf] is done in [s']: off the queue, in state
    [VIDEOBUF_DONE], no channel bit left, its waiters woken once since
    [s0]. *)
Definition marked_done (buf : Z) (s0 s' : machine) : Prop :=
  vb_state (bufs s' !!! buf) = VIDEOBUF_DONE /\
  vb_done (bufs s' !!! buf) = S (vb_done (bufs s0 !!! buf)) /\
  ~ In buf (capture s') /\
  active_dma (bufs s' !!! buf) = 0.

(** ** The chains of queued buffers *)

(** [buf->dmas[j]] *)
Definition chan_dma (s : machine) (buf : Z) (j : nat) : pxa_cam_dma :=
  dmas (bufs s !!! buf) !!! j.

(** Descriptor [k] of channel [j] of buffer [buf]. *)
Definition desc_of (M : mach_dma) (s : machine) (buf : Z) (j : nat) (k : Z)
  : Z :=
  desc_addr M (sg_dma (chan_dma s buf j)) k.

(** The descriptor after the data descriptors:
    [buf->dmas[j].sg_cpu + buf->dmas[j].sglen]. *)
Definition last_desc (M : mach_dma) (s : machine) (buf : Z) (j : nat) : Z :=
  desc_of M s buf j (sglen (chan_dma s buf j)).

(** The buffer went through [pxa_init_dma_channel] for each channel of the
    device. *)
Definition prepared (s : machine) (buf : Z) : Prop :=
  forall j : nat, (j < Z.to_nat (channels s))%nat ->
    sg_cpu (chan_dma s buf j) = Some (sg_dma (chan_dma s buf j)) /\
    0 <= sg_dma (chan_dma s buf j) < 2 ^ 32 /\
    0 <= sglen (chan_dma s buf j).

(** [(buf, j, k)] names a descriptor of one of the buffers [bs]. *)
Definition desc_index (s : machine) (bs : list Z) (buf : Z) (j : nat) (k : Z)
  : Prop :=
  In buf bs /\ (j < Z.to_nat (channels s))%nat /\
  0 <= k <= sglen (chan_dma s buf j).

(** The descriptor arrays of the buffers [bs] do not overlap: a descriptor
    has one name. *)
Definition separate (M : mach_dma) (s : machine) (bs : list Z) : Prop :=
  forall b j k b' j' k',
    desc_index s bs b j k -> desc_index s bs b' j' k' ->
    desc_of M s b j k = desc_of M s b' j' k' ->
    b = b' /\ j = j' /\ k = k'.

(** Address [a] is no descriptor of the buffers [bs]. *)
Definition outside (M : mach_dma) (s : machine) (bs : list Z) (a : Z) : Prop :=
  forall b j k, desc_index s bs b j k -> a <> desc_of M s b j k.

(** The state [s'] is what the turns [i .. i + n - 1] of the loop of
    [pxa_dma_add_tail_buf] make of [s]. *)
Definition linked_turns (M : mach_dma) (buf : Z) (n i : nat) (s s' : machine)
  : Prop :=
  let inr (j : nat) := (i <= j < i + n)%nat in
  bufs s' = bufs s /\ channels s' = channels s /\
  length (sg_tail s') = length (sg_tail s) /\
  (forall j, ~ inr j -> sg_tail s' !!! j = sg_tail s !!! j) /\
  (forall j, inr j -> (j < length (sg_tail s))%nat ->
     sg_tail s' !!! j = Some (last_desc M s buf j)) /\
  (forall a,
     (forall j, inr j -> a <> last_desc M s buf j /\ sg_tail s !!! j <> Some a) ->
     descs s' !!! a = descs s !!! a) /\
  (forall j, inr j ->
     (forall j', inr j' -> j' <> j ->
        last_desc M s buf j' <> last_desc M s buf j) ->
     (forall j', inr j' -> sg_tail s !!! j' <> Some (last_desc M s buf j)) ->
     ddadr (descs s' !!! last_desc M s buf j) = DDADR_STOP M) /\
  (forall j t, inr j -> sg_tail s !!! j = Some t ->
     (forall j', inr j' -> last_desc M s buf j' <> t) ->
     (forall j', inr j' -> j' <> j -> sg_tail s !!! j' <> Some t) ->
     ddadr (descs s' !!! t) = sg_dma (chan_dma s buf j)).

(** What a step keeps when it neither touches the queue nor starts or
    stops anything. *)
Definition same_run (s s' : machine) : Prop :=
  capture s' = capture s /\ channels s' = channels s /\
  dma_chans s' = dma_chans s /\
  cam s' !!! CICR0 = cam s !!! CICR0 /\
  forall ch, DCSR s' !!! ch = DCSR s !!! ch.

(** The camera interface is disabled and every channel stopped. *)
Definition quiet (s : machine) : Prop :=
  bit_set (readl s CICR0) CICR0_ENB = false /\ all_stopped s.

(** If the queue is empty the interface is disabled and no channel runs. *)
Definition queue_inv (M : mach_dma) (s : machine) : Prop :=
  capture s = [] ->
  bit_set (readl s CICR0) CICR0_ENB = false /\ ~ running M s.

(** ** A sample device

    One channel ([dma_chans[0]] is DMA channel 5), one prepared buffer at
    address 100, the camera interface disabled with every interrupt
    masked. *)
Definition idle0 : machine :=
  {| channels := 1; dma_chans := [5; 6; 7]; capture := []; active := None;
     sg_tail := [None; None; None];
     bufs := {[ 100 :=
       {| vb_state := VIDEOBUF_PREPARED; vb_ts := 0; vb_field_count := 0;
          vb_done := 0%nat;
          dmas := [ {| sg_dma := 0xa2000000; sg_cpu := Some 0xa2000000;
                       sg_size := 48; sglen := 2 |}; no_dma; no_dma ];
          inwork := 0; active_dma := DMA_Y |} ]};
     descs := ∅; DCSR := ∅; DDADR := ∅;
     cam := {[ CICR0 := 0x3ff ]}; tod := 0;
     capture_head := 60 |}.

(** The buffer is queued: capture is armed. *)
Definition queued0 : machine :=
  match pxa_videobuf_queue pxa27x 100 idle0 with
  | Done s => s
  | _ => idle0
  end.

(** The sensor reaches the end of a frame. *)
Definition eof0 : hw :=
  {| hw_DCSR := DCSR queued0; hw_DDADR := DDADR queued0;
     hw_cam := <[CISR := CISR_EOF]> (cam queued0); hw_tod := 1 |}.

(** The camera interrupt starts the channel. *)
Definition running0 : machine :=
  match pxa_camera_irq pxa27x (set_hw eof0 queued0) with
  | Done (_, s) => s
  | _ => queued0
  end.

(** ** Sample states of the device *)

Definition init_out_of (r : result init_out) : init_out :=
  match r with
  | Done out => out
  | _ => {| out_ret := - ENOMEM; out_dma := no_dma; out_mem := ∅;
            out_cursor := {| sg_first := []; sg_first_ofs := 0 |} |}
  end.

(** Two buffers of one plane of 8192 bytes each, built one after the other
    in descriptor memory. *)
Definition built_a : init_out :=
  init_out_of
    (pxa_init_dma_channel pxa27x 0x50000000 (Some 0xa2000000) no_dma ∅ 2
       CIBR0 8192 {| sg_first := frame_sglist; sg_first_ofs := 0 |}).

Definition built_b : init_out :=
  init_out_of
    (pxa_init_dma_channel pxa27x 0x50000000 (Some 0xa2001000) no_dma
       (out_mem built_a) 2 CIBR0 8192
       {| sg_first := [page 0xa3008000; page 0xa300c000];
          sg_first_ofs := 0 |}).

Definition buffer_of (st : videobuf_state) (d : pxa_cam_dma) (mask : Z)
  : pxa_buffer :=
  {| vb_state := st; vb_ts := 0; vb_field_count := 0; vb_done := 0%nat;
     dmas := [d; no_dma; no_dma]; inwork := 0; active_dma := mask |}.

(** Both buffers prepared, nothing queued yet. *)
Definition two0 : machine :=
  {| channels := 1; dma_chans := [5; 6; 7]; capture := []; active := None;
     sg_tail := [None; None; None];
     bufs := {[ 100 := buffer_of VIDEOBUF_PREPARED (out_dma built_a) DMA_Y;
                101 := buffer_of VIDEOBUF_PREPARED (out_dma built_b) DMA_Y ]};
     descs := out_mem built_b; DCSR := ∅; DDADR := ∅;
     cam := {[ CICR0 := 0x3ff ]}; tod := 0;
     capture_head := 60 |}.

(** Both buffers queued, the first one active; DMA channel 5 reports the
    end of a transfer.  [cisr] is what the camera interface reports and
    [ddadr5] where the channel's descriptor pointer stands. *)
Definition streaming (cisr ddadr5 : Z) : machine :=
  {| channels := 1; dma_chans := [5; 6; 7]; capture := [100; 101];
     active := Some 100;
     sg_tail := [Some 0xa2001020; None; None];
     bufs := {[ 100 := buffer_of VIDEOBUF_ACTIVE (out_dma built_a) DMA_Y;
                101 := buffer_of VIDEOBUF_ACTIVE (out_dma built_b) DMA_Y ]};
     descs := out_mem built_b;
     DCSR := {[ 5 := Z.lor (DCSR_RUN pxa27x) (DCSR_ENDINTR pxa27x) ]};
     DDADR := {[ 5 := ddadr5 ]};
     cam := {[ CICR0 := Z.lor CICR0_ENB 0x3ff; CISR := cisr ]}; tod := 7;
     capture_head := 60 |}.

(** A device with three channels and one active buffer whose three planes
    are in flight. *)
Definition three0 : machine :=
  {| channels := 3; dma_chans := [5; 6; 7]; capture := [100];
     active := Some 100;
     sg_tail := [None; None; None];
     bufs := {[ 100 := buffer_of VIDEOBUF_ACTIVE (out_dma built_a)
                         (Z.lor DMA_Y (Z.lor DMA_U DMA_V)) ]};
     descs := out_mem built_a;
     DCSR := ∅; DDADR := ∅;
     cam := {[ CICR0 := Z.lor CICR0_ENB 0x3ff ]}; tod := 0;
     capture_head := 60 |}.

(** The three channels have raised their end interrupt; no overrun. *)
Definition ended3 : hw :=
  {| hw_DCSR := {[ 5 := 4; 6 := 4; 7 := 4 ]}; hw_DDADR := ∅;
     hw_cam := {[ CICR0 := Z.lor CICR0_ENB 0x3ff ]}; hw_tod := 9 |}.

(** ** More specification-side notions *)

(** The bytes the walk of the scatterlist can take from the cursor on, each
    segment's share rounded up to 8. *)
Fixpoint rounded_total (sg : list scatterlist) (ofs : Z) : Z :=
  match sg with
  | [] => 0
  | s :: rest => round_up8 (sg_dma_len s - ofs) + rounded_total rest 0
  end.

(** What every step keeps of the queue and the active buffer: no buffer is
    queued twice, the active buffer is the first of the queue and the queued
    buffers are in state [VIDEOBUF_ACTIVE]. *)
Definition capture_inv (s : machine) : Prop :=
  NoDup (capture s) /\
  (forall b, active s = Some b -> head (capture s) = Some b) /\
  (forall b, In b (capture s) -> vb_state (bufs s !!! b) = VIDEOBUF_ACTIVE).

(** The channels of the device are distinct DMA channels. *)
Definition distinct_channels (s : machine) : Prop :=
  forall i j : nat,
    (i < Z.to_nat (channels s))%nat -> (j < Z.to_nat (channels s))%nat ->
    dma_chans s !!! i = dma_chans s !!! j -> i = j.

(** The channel of the sample device reaches the end of its chain, and the
    FIFO overruns. *)
Definition ended0 : hw :=
  {| hw_DCSR := {[ 5 := Z.lor (DCSR_RUN pxa27x) (DCSR_ENDINTR pxa27x) ]};
     hw_DDADR := {[ 5 := DDADR_STOP pxa27x ]};
     hw_cam := <[CISR := CISR_IFO_0]> (cam running0); hw_tod := 2 |}.

(** The first sample buffer linked into the chains of [two0]. *)
Definition linked0 : machine :=
  match pxa_dma_add_tail_buf pxa27x 100 two0 with
  | Done s => s
  | _ => two0
  end.

(** *** More sample inputs *)

(** A segment of 8192 bytes: one more than the 13 bits of the length field
    of [dcmd] hold on the PXA27x. *)
Definition long_segment : scatterlist :=
  {| sg_dma_address := 0xa3000000; sg_dma_len := 8192 |}.



(** Both buffers of [two0] queued, one after the other. *)
Definition queued2 : machine :=
  match (s <- pxa_videobuf_queue pxa27x 100 two0 ;;
         pxa_videobuf_queue pxa27x 101 s) with
  | Done s => s
  | _ => two0
  end.

(** The end of a frame with both buffers queued: channel 5 stands still at
    the stop marker, no overrun. *)
Definition eof2 : hw :=
  {| hw_DCSR := {[ 5 := 0 ]}; hw_DDADR := {[ 5 := DDADR_STOP pxa27x ]};
     hw_cam := {[ CICR0 := cam queued2 !!! CICR0; CISR := CISR_EOF;
                  CIFR := 0 ]};
     hw_tod := 1 |}.

(** The camera interrupt makes the first of the two active. *)
Definition running2 : machine :=
  match pxa_camera_irq pxa27x (set_hw eof2 queued2) with
  | Done (_, s) => s
  | _ => queued2
  end.

(** A device with three channels, two buffers queued and the first one
    active; channels 5 and 6 report the end of their transfers and the
    FIFO of the first plane has overrun. *)
Definition overrun3 : machine :=
  {| channels := 3; dma_chans := [5; 6; 7]; capture := [100; 101];
     active := Some 100;
     sg_tail := [Some 0xa2001020; None; None];
     bufs := {[ 100 := buffer_of VIDEOBUF_ACTIVE (out_dma built_a)
                         (Z.lor DMA_Y (Z.lor DMA_U DMA_V));
                101 := buffer_of VIDEOBUF_ACTIVE (out_dma built_b)
                         (Z.lor DMA_Y (Z.lor DMA_U DMA_V)) ]};
     descs := out_mem built_b;
     DCSR := {[ 5 := Z.lor (DCSR_RUN pxa27x) (DCSR_ENDINTR pxa27x);
                6 := Z.lor (DCSR_RUN pxa27x) (DCSR_ENDINTR pxa27x);
                7 := DCSR_RUN pxa27x ]};
     DDADR := {[ 5 := 0xa2000010; 6 := 0xa2000010; 7 := 0xa2000010 ]};
     cam := {[ CICR0 := Z.lor CICR0_ENB 0x3ff; CISR := CISR_IFO_0;
               CIFR := 0 ]};
     tod := 7; capture_head := 60 |}.

(** The interrupt of channel 5 restarts capture: no buffer is active. *)
Definition restarted3 : machine := pxa_camera_dma_irq pxa27x 5 DMA_Y overrun3.

(** Channel 6 still reports the end of its transfer. *)
Definition late3 : hw :=
  {| hw_DCSR := {[ 5 := 0; 6 := DCSR_ENDINTR pxa27x; 7 := 0 ]};
     hw_DDADR := DDADR restarted3; hw_cam := cam restarted3; hw_tod := 8 |}.

(** ** The rest of the driver: sizes, clocks, formats and power *)

Definition CICR1 : Z := 0x0004.
Definition CICR2 : Z := 0x0008.
Definition CICR3 : Z := 0x000C.
Definition CICR4 : Z := 0x0010.
Definition CITOR : Z := 0x001C.

Definition CICR4_PCLK_EN : Z := Z.shiftl 1 23.
Definition CICR4_PCP : Z := Z.shiftl 1 22.
Definition CICR4_HSP : Z := Z.shiftl 1 21.
Definition CICR4_VSP : Z := Z.shiftl 1 20.
Definition CICR4_MCLK_EN : Z := Z.shiftl 1 19.

Definition YUV422P_X_Y_ALIGN : Z := 4.

(** [#define YUV422P_SIZE_ALIGN YUV422P_X_Y_ALIGN * YUV422P_X_Y_ALIGN]; the
    macros it is handed to put their argument in parentheses. *)
Definition YUV422P_SIZE_ALIGN : Z := YUV422P_X_Y_ALIGN * YUV422P_X_Y_ALIGN.

Definition EIO : Z := 5.
Definition EBUSY : Z := 16.
Definition EINVAL : Z := 22.

Global Arguments CICR1 : simpl never.
Global Arguments CICR2 : simpl never.
Global Arguments CICR3 : simpl never.
Global Arguments CICR4 : simpl never.
Global Arguments CITOR : simpl never.

(** *** Constants of [<mach/camera.h>] and [<linux/videodev2.h>]

    Neither header is among the sources at hand: the platform flags, the
    pixel format codes and the two field orders the driver names are
    parameters of the development.  [pxa27x_camera] and [videodev2] give
    their values on the PXA27x and in the V4L2 interface. *)
Record mach_camera : Type := {
  PXA_CAMERA_MASTER : Z;
  PXA_CAMERA_DATAWIDTH_8 : Z;
  PXA_CAMERA_DATAWIDTH_9 : Z;
  PXA_CAMERA_DATAWIDTH_10 : Z;
  PXA_CAMERA_PCLK_EN : Z;
  PXA_CAMERA_MCLK_EN : Z;
  PXA_CAMERA_PCP : Z;
  PXA_CAMERA_HSP : Z;
  PXA_CAMERA_VSP : Z
}.

Definition pxa27x_camera : mach_camera := {|
  PXA_CAMERA_MASTER := 1;
  PXA_CAMERA_DATAWIDTH_8 := 8;
  PXA_CAMERA_DATAWIDTH_9 := 0x10;
  PXA_CAMERA_DATAWIDTH_10 := 0x20;
  PXA_CAMERA_PCLK_EN := 0x40;
  PXA_CAMERA_MCLK_EN := 0x80;
  PXA_CAMERA_PCP := 0x100;
  PXA_CAMERA_HSP := 0x200;
  PXA_CAMERA_VSP := 0x400
|}.

Record v4l2 : Type := {
  V4L2_PIX_FMT_YUV422P : Z;
  V4L2_PIX_FMT_UYVY : Z;
  V4L2_PIX_FMT_VYUY : Z;
  V4L2_PIX_FMT_YUYV : Z;
  V4L2_PIX_FMT_YVYU : Z;
  V4L2_PIX_FMT_RGB565 : Z;
  V4L2_PIX_FMT_RGB555 : Z;
  V4L2_FIELD_ANY : Z;
  V4L2_FIELD_NONE : Z
}.

Definition videodev2 : v4l2 := {|
  V4L2_PIX_FMT_YUV422P := 0x50323234;
  V4L2_PIX_FMT_UYVY := 0x59565955;
  V4L2_PIX_FMT_VYUY := 0x59555956;
  V4L2_PIX_FMT_YUYV := 0x56595559;
  V4L2_PIX_FMT_YVYU := 0x55595659;
  V4L2_PIX_FMT_RGB565 := 0x50424752;
  V4L2_PIX_FMT_RGB555 := 0x4f424752;
  V4L2_FIELD_ANY := 0;
  V4L2_FIELD_NONE := 1
|}.

(** The fields of [struct soc_camera_data_format] the driver reads. *)
Record soc_camera_data_format : Type := {
  depth : Z;
  fourcc : Z
}.

Global Instance soc_camera_data_format_inhabited
  : Inhabited soc_camera_data_format :=
  populate {| depth := 0; fourcc := 0 |}.

(** *** [pxa_videobuf_setup] *)

(** [static unsigned int vid_limit = 16;]: video memory limit, in Mb. *)
Definition vid_limit : Z := 16.

(** [while ( *size * *count > vid_limit * 1024 * 1024) ( *count)--;] in
    [unsigned int] arithmetic, by recursion on [*count]: a count of 0 ends
    the loop, since [*size * 0] is 0. *)
Fixpoint pxa_videobuf_setup_loop (size : Z) (count : nat) : Z :=
  match count with
  | O => 0
  | S n =>
      if to_u32 (size * Z.of_nat count)
         >? to_u32 (to_u32 (vid_limit * 1024) * 1024)
      then pxa_videobuf_setup_loop size n
      else Z.of_nat count
  end.

(** [pxa_videobuf_setup]: [current_fmt], [width] and [height] are the
    fields of [icd], [count] is [*count] at the call.  Returns the return
    value, [*count] and [*size]. *)
Definition pxa_videobuf_setup (current_fmt : option soc_camera_data_format)
    (width height count : Z) : result (Z * Z * Z) :=
  match current_fmt with
  | None => Oops
  | Some fmt =>
      let size :=
        to_u32 (roundup (int_mul (int_mul width height)
                                 (Z.shiftr (int_add (depth fmt) 7) 3)) 8) in
      let count := if count =? 0 then 32 else count in
      Done (0, pxa_videobuf_setup_loop size (Z.to_nat count), size)
  end.

(** *** Clocks *)

(** The fields of [struct pxa_camera_dev] that are no part of the capture
    state machine. *)
Record pxa_host : Type := {
  platform_flags : Z;
  mclk : Z;
  ciclk : Z;
  mclk_divisor : Z;
  save_cicr : list Z;
  host_icd : option Z
}.

Definition set_mclk (v : Z) (p : pxa_host) : pxa_host :=
  {| platform_flags := platform_flags p; mclk := v; ciclk := ciclk p;
     mclk_divisor := mclk_divisor p; save_cicr := save_cicr p;
     host_icd := host_icd p |}.

Definition set_ciclk (v : Z) (p : pxa_host) : pxa_host :=
  {| platform_flags := platform_flags p; mclk := mclk p; ciclk := v;
     mclk_divisor := mclk_divisor p; save_cicr := save_cicr p;
     host_icd := host_icd p |}.

Definition set_save_cicr (v : list Z) (p : pxa_host) : pxa_host :=
  {| platform_flags := platform_flags p; mclk := mclk p; ciclk := ciclk p;
     mclk_divisor := mclk_divisor p; save_cicr := v;
     host_icd := host_icd p |}.

Definition set_host_icd (v : option Z) (p : pxa_host) : pxa_host :=
  {| platform_flags := platform_flags p; mclk := mclk p; ciclk := ciclk p;
     mclk_divisor := mclk_divisor p; save_cicr := save_cicr p;
     host_icd := v |}.

(** [a / b] on [unsigned long], which is 32 bits wide on the PXA.  A
    division by zero is the Oops the comment in [mclk_get_divisor]
    announces. *)
Definition ulong_div (a b : Z) : result Z :=
  if b =? 0 then Oops else Done (a / b).

Section Platform.

Variable C : mach_camera.

(** [mclk_get_divisor]; [lcdclk] is what [clk_get_rate(pcdev->clk)]
    returns. *)
Definition mclk_get_divisor (lcdclk : Z) (p : pxa_host)
  : result (Z * pxa_host) :=
  let mclk0 := mclk p in
  let p := set_ciclk lcdclk p in
  (* mclk <= ciclk / 4 (27.4.2) *)
  let mclk0 := if mclk0 >? lcdclk / 4 then lcdclk / 4 else mclk0 in
  (* We verify mclk != 0, so if anyone breaks it, here comes their Oops *)
  q <- ulong_div (to_u32 (to_u32 (lcdclk + to_u32 (2 * mclk0)) - 1))
                 (to_u32 (2 * mclk0)) ;;
  let div := to_u32 (q - 1) in
  (* If we're not supplying MCLK, leave it at 0 *)
  p <- (if bit_set (platform_flags p) (PXA_CAMERA_MCLK_EN C)
        then m <- ulong_div lcdclk (to_u32 (2 * to_u32 (div + 1))) ;;
             Done (set_mclk m p)
        else Done p) ;;
  Done (div, p).

Definition recalculate_fifo_timeout (p : pxa_host) (pclk : Z) (s : machine)
  : result machine :=
  (* We want a timeout > 1 pixel time, not ">=" *)
  q <- ulong_div (ciclk p) pclk ;;
  let ciclk_per_pixel := to_u32 (q + 1) in
  Done (writel ciclk_per_pixel CITOR s).

(** [pxa_camera_activate]: what it writes to the camera interface.  The
    platform's [init] hook and [clk_enable] do not reach the registers of
    the model. *)
Definition pxa_camera_activate (p : pxa_host) (s : machine)
  : result machine :=
  let cicr4 := 0 in
  (* disable all interrupts *)
  let s := writel 0x3ff CICR0 s in
  let cicr4 := if bit_set (platform_flags p) (PXA_CAMERA_PCLK_EN C)
               then Z.lor cicr4 CICR4_PCLK_EN else cicr4 in
  let cicr4 := if bit_set (platform_flags p) (PXA_CAMERA_MCLK_EN C)
               then Z.lor cicr4 CICR4_MCLK_EN else cicr4 in
  let cicr4 := if bit_set (platform_flags p) (PXA_CAMERA_PCP C)
               then Z.lor cicr4 CICR4_PCP else cicr4 in
  let cicr4 := if bit_set (platform_flags p) (PXA_CAMERA_HSP C)
               then Z.lor cicr4 CICR4_HSP else cicr4 in
  let cicr4 := if bit_set (platform_flags p) (PXA_CAMERA_VSP C)
               then Z.lor cicr4 CICR4_VSP else cicr4 in
  let s := writel (Z.lor (mclk_divisor p) cicr4) CICR4 s in
  if bit_set (platform_flags p) (PXA_CAMERA_MCLK_EN C) then
    (* Initialise the timeout under the assumption pclk = mclk *)
    recalculate_fifo_timeout p (mclk p) s
  else
    (* "Safe default" - 13MHz *)
    recalculate_fifo_timeout p 13000000 s.

(** [pxa_camera_add_device]; [icd] is the address of the camera and
    [init] what the camera's [init] operation returns. *)
Definition pxa_camera_add_device (icd init : Z) (p : pxa_host) (s : machine)
  : result (Z * pxa_host * machine) :=
  match host_icd p with
  | Some _ => Done (- EBUSY, p, s)
  | None =>
      s <- pxa_camera_activate p s ;;
      let ret := init in
      let p := if ret =? 0 then set_host_icd (Some icd) p else p in
      Done (ret, p, s)
  end.

End Platform.

(** [pxa_camera_remove_device] *)
Definition pxa_camera_remove_device (icd : Z) (p : pxa_host) (s : machine)
  : result (pxa_host * machine) :=
  if negb (bool_decide (host_icd p = Some icd)) then BUG
  else
    (* disable capture, disable interrupts *)
    let s := writel 0x3ff CICR0 s in
    (* Stop DMA engine *)
    let s := with_DCSR (<[dma_chans s !!! 0%nat := 0]> (DCSR s)) s in
    let s := with_DCSR (<[dma_chans s !!! 1%nat := 0]> (DCSR s)) s in
    let s := with_DCSR (<[dma_chans s !!! 2%nat := 0]> (DCSR s)) s in
    Done (set_host_icd None p, s).

(** [pxa_camera_suspend]; [suspend] is what the camera's [suspend]
    operation returns, [None] when the camera has none. *)
Definition pxa_camera_suspend (suspend : option Z) (p : pxa_host)
    (s : machine) : Z * pxa_host :=
  let p := set_save_cicr [readl s CICR0; readl s CICR1; readl s CICR2;
                          readl s CICR3; readl s CICR4] p in
  let ret := match host_icd p, suspend with
             | Some _, Some r => r
             | _, _ => 0
             end in
  (ret, p).

(** [pxa_camera_resume]; [drcmr] is the DMA request map, [mapvld] the
    constant [DRCMR_MAPVLD] of [<mach/dma.h>] and [resume] what the camera's
    [resume] operation returns. *)
Definition pxa_camera_resume (mapvld : Z) (resume : option Z) (p : pxa_host)
    (drcmr : gmap Z Z) (s : machine) : Z * gmap Z Z * machine :=
  let drcmr := <[68 := Z.lor (dma_chans s !!! 0%nat) mapvld]> drcmr in
  let drcmr := <[69 := Z.lor (dma_chans s !!! 1%nat) mapvld]> drcmr in
  let drcmr := <[70 := Z.lor (dma_chans s !!! 2%nat) mapvld]> drcmr in
  let s := writel (Z.land (save_cicr p !!! 0%nat) (Z.lnot CICR0_ENB))
                  CICR0 s in
  let s := writel (save_cicr p !!! 1%nat) CICR1 s in
  let s := writel (save_cicr p !!! 2%nat) CICR2 s in
  let s := writel (save_cicr p !!! 3%nat) CICR3 s in
  let s := writel (save_cicr p !!! 4%nat) CICR4 s in
  let ret := match host_icd p, resume with
             | Some _, Some r => r
             | _, _ => 0
             end in
  (* Restart frame capture if active buffer exists *)
  if (ret =? 0) && bool_decide (active s <> None)
  then (ret, drcmr, pxa_camera_start_capture s)
  else (ret, drcmr, s).

(** *** Formats *)

(** [struct v4l2_pix_format]: the fields [pxa_camera_try_fmt] reads and
    writes, all [__u32]. *)
Record v4l2_pix_format : Type := {
  pix_width : Z;
  pix_height : Z;
  pix_pixelformat : Z;
  pix_field : Z;
  pix_bytesperline : Z;
  pix_sizeimage : Z
}.

Definition set_pixelformat (v : Z) (pix : v4l2_pix_format)
  : v4l2_pix_format :=
  {| pix_width := pix_width pix; pix_height := pix_height pix;
     pix_pixelformat := v; pix_field := pix_field pix;
     pix_bytesperline := pix_bytesperline pix;
     pix_sizeimage := pix_sizeimage pix |}.

Definition set_field (v : Z) (pix : v4l2_pix_format) : v4l2_pix_format :=
  {| pix_width := pix_width pix; pix_height := pix_height pix;
     pix_pixelformat := pix_pixelformat pix; pix_field := v;
     pix_bytesperline := pix_bytesperline pix;
     pix_sizeimage := pix_sizeimage pix |}.

(** [struct soc_camera_format_xlate] *)
Record soc_camera_format_xlate : Type := {
  cam_fmt : soc_camera_data_format;
  host_fmt : soc_camera_data_format;
  buswidth : Z
}.

(** The macros of [<linux/kernel.h>] the driver applies to a [__u32]:
    [ALIGN(x, a)] is [(x + (a - 1)) & ~(a - 1)] and [IS_ALIGNED(x, a)] is
    [(x & (a - 1)) == 0]; [DIV_ROUND_UP(n, d)] is [(n + d - 1) / d], here
    on [int]. *)
Definition ALIGN (x a : Z) : Z :=
  Z.land (to_u32 (x + (a - 1))) (Z.lnot (a - 1)).

Definition IS_ALIGNED (x a : Z) : bool := Z.land x (a - 1) =? 0.

Definition DIV_ROUND_UP (n d : Z) : Z := int_div (int_sub (int_add n d) 1) d.

Section Formats.

Variable V : v4l2.

(** [pxa_camera_try_fmt] from "limit to pxa hardware capabilities" up to
    the call of the camera: the format the camera is asked about, but for
    its pixel format code.  [host] is [xlate->host_fmt]. *)
Definition try_fmt_limits (host : soc_camera_data_format)
    (pix : v4l2_pix_format) : v4l2_pix_format :=
  (* limit to pxa hardware capabilities *)
  let h := pix_height pix in
  let h := if h <? 32 then 32 else h in
  let h := if h >? 2048 then 2048 else h in
  let w := pix_width pix in
  let w := if w <? 48 then 48 else w in
  let w := if w >? 2048 then 2048 else w in
  let w := Z.land w (Z.lnot 0x01) in
  (*
   * YUV422P planar format requires images size to be a 16 bytes
   * multiple. If not, zeros will be inserted between Y and U planes, and
   * U and V planes, and YUV422P standard would be violated.
   *)
  let h := if (fourcc host =? V4L2_PIX_FMT_YUV422P V)
              && negb (IS_ALIGNED (to_u32 (w * h)) YUV422P_SIZE_ALIGN)
           then ALIGN h YUV422P_X_Y_ALIGN else h in
  let w := if (fourcc host =? V4L2_PIX_FMT_YUV422P V)
              && negb (IS_ALIGNED (to_u32 (w * h)) YUV422P_SIZE_ALIGN)
           then ALIGN w YUV422P_X_Y_ALIGN else w in
  let bytesperline := to_u32 (w * DIV_ROUND_UP (depth host) 8) in
  {| pix_width := w; pix_height := h;
     pix_pixelformat := pix_pixelformat pix; pix_field := pix_field pix;
     pix_bytesperline := bytesperline;
     pix_sizeimage := to_u32 (h * bytesperline) |}.

(** [pxa_camera_try_fmt]: [xlate] is what [soc_camera_xlate_by_fourcc]
    finds for [pix->pixelformat] and [camera] the camera's [try_fmt]
    operation, which returns a value and may rewrite the format. *)
Definition pxa_camera_try_fmt (xlate : option soc_camera_format_xlate)
    (camera : v4l2_pix_format -> Z * v4l2_pix_format)
    (pix : v4l2_pix_format) : Z * v4l2_pix_format :=
  match xlate with
  | None => (- EINVAL, pix)
  | Some x =>
      let pix := try_fmt_limits (host_fmt x) pix in
      (* camera has to see its format, but the user the original one *)
      let pix := set_pixelformat (fourcc (cam_fmt x)) pix in
      (* limit to sensor capabilities *)
      let '(ret, pix) := camera pix in
      let pix := set_pixelformat (fourcc (host_fmt x)) pix in
      let field := pix_field pix in
      if field =? V4L2_FIELD_ANY V then
        (ret, set_field (V4L2_FIELD_NONE V) pix)
      else if negb (field =? V4L2_FIELD_NONE V) then (- EINVAL, pix)
      else (ret, pix)
  end.

End Formats.

(** A board that supplies the master clock and latches data on the pixel
    clock, eight data lines wide, with the camera interface as master. *)
Definition host0 : pxa_host :=
  {| platform_flags := Z.lor 0x80 (Z.lor 0x40 (Z.lor 8 1));
     mclk := 20000000;
     ciclk := 104000000; mclk_divisor := 2; save_cicr := [];
     host_icd := None |}.

(** *** [pxa_videobuf_prepare] and [free_buffer] *)

(** The fields of [struct videobuf_buffer] and [struct pxa_buffer] that
    only [pxa_videobuf_prepare] reads and writes.  [buf_fmt] is the pointer
    [buf->fmt]: the address of a format, [None] for [NULL]. *)
Record vb_geometry : Type := {
  buf_fmt : option Z;
  vb_width : Z;
  vb_height : Z;
  vb_field : Z;
  vb_size : Z;
  vb_baddr : Z;
  vb_bsize : Z
}.

(** What [pxa_videobuf_prepare] takes from its surroundings: the current
    format, width and height of the camera, the formats in memory by
    address, the return value of [videobuf_iolock] with the scatterlist and
    the number of its entries it leaves in [dma], [pcdev->res->start], the
    answers of [dma_alloc_coherent] to the calls for the three channels, and
    [in_interrupt()]. *)
Record prepare_env : Type := {
  icd_current_fmt : option Z;
  icd_width : Z;
  icd_height : Z;
  fmt_at : Z -> soc_camera_data_format;
  iolock_ret : Z;
  iolock_sglist : list scatterlist;
  iolock_sglen : Z;
  res_start : Z;
  alloc : nat -> option Z;
  in_interrupt : bool
}.

Definition set_dmas (v : list pxa_cam_dma) (b : pxa_buffer) : pxa_buffer :=
  {| vb_state := vb_state b; vb_ts := vb_ts b;
     vb_field_count := vb_field_count b; vb_done := vb_done b;
     dmas := v; inwork := inwork b; active_dma := active_dma b |}.

Definition set_inwork (v : Z) (b : pxa_buffer) : pxa_buffer :=
  {| vb_state := vb_state b; vb_ts := vb_ts b;
     vb_field_count := vb_field_count b; vb_done := vb_done b;
     dmas := dmas b; inwork := v; active_dma := active_dma b |}.

Definition set_sg_cpu (v : option Z) (d : pxa_cam_dma) : pxa_cam_dma :=
  {| sg_dma := sg_dma d; sg_cpu := v; sg_size := sg_size d;
     sglen := sglen d |}.

(** The buffer at address [buf] after [f] has been applied to it. *)
Definition update_buf (buf : Z) (f : pxa_buffer -> pxa_buffer) (s : machine)
  : machine :=
  with_bufs (<[buf := f (bufs s !!! buf)]> (bufs s)) s.

(** [dma_free_coherent(pcdev->dev, d.sg_size, d.sg_cpu, d.sg_dma)]: the
    call is recorded, by the bus address of the block, in the list of the
    blocks released so far. *)
Definition dma_free_coherent (d : pxa_cam_dma) (freed : list Z) : list Z :=
  freed ++ [sg_dma d].

(** One turn of the loop of [free_buffer]. *)
Definition free_buffer_channel (buf : Z) (st : machine * list Z) (i : nat)
  : machine * list Z :=
  let '(s, freed) := st in
  let d := dmas (bufs s !!! buf) !!! i in
  let freed := match sg_cpu d with
               | Some _ => dma_free_coherent d freed
               | None => freed
               end in
  (update_buf buf (fun b => set_dmas (<[i := set_sg_cpu None d]> (dmas b)) b)
     s, freed).

(** [free_buffer]: the release of the descriptor blocks.  What it does to
    the pages of the frame ([videobuf_waiton], [videobuf_dma_unmap],
    [videobuf_dma_free]) is no part of the model. *)
Definition free_buffer (interrupt : bool) (buf : Z) (s : machine)
    (freed : list Z) : result (machine * list Z) :=
  if interrupt then BUG
  else
    let '(s, freed) := foldl (free_buffer_channel buf) (s, freed)
                             (seq 0 3) in
    Done (update_buf buf (set_vb_state VIDEOBUF_NEEDS_INIT) s, freed).

Section Prepare.

Variable M : mach_dma.
Variable env : prepare_env.

(** The call [pxa_init_dma_channel(pcdev, buf, dma, i, cibr, size, &sg,
    &next_ofs)] in [pxa_videobuf_prepare], with the release of the
    channel's previous block that opens the function.  Returns the return
    value and the cursor. *)
Definition init_channel (buf : Z) (i : nat) (cibr size : Z)
    (cur : sg_cursor) (s : machine) (freed : list Z)
  : result (Z * sg_cursor * machine * list Z) :=
  let d := dmas (bufs s !!! buf) !!! i in
  let freed := match sg_cpu d with
               | Some _ => dma_free_coherent d freed
               | None => freed
               end in
  out <- pxa_init_dma_channel M (res_start env) (alloc env i) d (descs s)
           (iolock_sglen env) cibr size cur ;;
  let s := update_buf buf
             (fun b => set_dmas (<[i := out_dma out]> (dmas b)) b) s in
  Done (out_ret out, out_cursor out, with_descs (out_mem out) s, freed).

(** The exits of [pxa_videobuf_prepare]: the labels [out], [fail],
    [fail_u] and [fail_v]. *)
Definition prepare_out (ret : Z) (buf : Z) (g : vb_geometry) (s : machine)
    (freed : list Z) : result (Z * vb_geometry * machine * list Z) :=
  Done (ret, g, update_buf buf (set_inwork 0) s, freed).

Definition prepare_fail (ret : Z) (buf : Z) (g : vb_geometry) (s : machine)
    (freed : list Z) : result (Z * vb_geometry * machine * list Z) :=
  e <- free_buffer (in_interrupt env) buf s freed ;;
  let '(s, freed) := e in
  prepare_out ret buf g s freed.

Definition prepare_fail_u (ret : Z) (buf : Z) (g : vb_geometry) (s : machine)
    (freed : list Z) : result (Z * vb_geometry * machine * list Z) :=
  let freed := dma_free_coherent (dmas (bufs s !!! buf) !!! 0%nat) freed in
  prepare_fail ret buf g s freed.

Definition prepare_fail_v (ret : Z) (buf : Z) (g : vb_geometry) (s : machine)
    (freed : list Z) : result (Z * vb_geometry * machine * list Z) :=
  let freed := dma_free_coherent (dmas (bufs s !!! buf) !!! 1%nat) freed in
  prepare_fail_u ret buf g s freed.

(** The block of [pxa_videobuf_prepare] under
    [if (vb->state == VIDEOBUF_NEEDS_INIT)], with the rest of the function
    on each of its ways out. *)
Definition prepare_init (buf : Z) (g : vb_geometry) (s : machine)
    (freed : list Z) : result (Z * vb_geometry * machine * list Z) :=
  let size := to_int (vb_size g) in
  let ret := iolock_ret env in
  if negb (ret =? 0) then prepare_fail ret buf g s freed
  else
    let size_y := if channels s =? 3 then int_div size 2 else size in
    let size_u := if channels s =? 3 then int_div size 4 else 0 in
    let size_v := size_u in
    let cur := {| sg_first := iolock_sglist env; sg_first_ofs := 0 |} in
    (* init DMA for Y channel *)
    e <- init_channel buf 0 CIBR0 size_y cur s freed ;;
    let '(ret, cur, s, freed) := e in
    if negb (ret =? 0) then prepare_fail ret buf g s freed
    else
      (* init DMA for U channel *)
      e <- (if negb (size_u =? 0)
            then init_channel buf 1 CIBR1 size_u cur s freed
            else Done (ret, cur, s, freed)) ;;
      let '(ret, cur, s, freed) := e in
      if negb (ret =? 0) then prepare_fail_u ret buf g s freed
      else
        (* init DMA for V channel *)
        e <- (if negb (size_v =? 0)
              then init_channel buf 2 CIBR2 size_v cur s freed
              else Done (ret, cur, s, freed)) ;;
        let '(ret, cur, s, freed) := e in
        if negb (ret =? 0) then prepare_fail_v ret buf g s freed
        else
          let s := update_buf buf (set_vb_state VIDEOBUF_PREPARED) s in
          let s := update_buf buf (set_inwork 0) s in
          Done (0, g, pxa_videobuf_set_actdma buf s, freed).

(** [pxa_videobuf_prepare] on the buffer at address [buf], whose other
    fields are [g]; [freed] lists the blocks released so far.  The build
    is the one without [DEBUG]. *)
Definition pxa_videobuf_prepare (field : Z) (buf : Z) (g : vb_geometry)
    (s : machine) (freed : list Z)
  : result (Z * vb_geometry * machine * list Z) :=
  (* BUG_ON(NULL == icd->current_fmt) *)
  match icd_current_fmt env with
  | None => BUG
  | Some current_fmt =>
      let s := update_buf buf (set_inwork 1) s in
      let changed :=
        negb (bool_decide (buf_fmt g = Some current_fmt))
        || negb (vb_width g =? icd_width env)
        || negb (vb_height g =? icd_height env)
        || negb (vb_field g =? field) in
      let g := if changed then
                 {| buf_fmt := Some current_fmt;
                    vb_width := icd_width env; vb_height := icd_height env;
                    vb_field := field; vb_size := vb_size g;
                    vb_baddr := vb_baddr g; vb_bsize := vb_bsize g |}
               else g in
      let s := if changed
               then update_buf buf (set_vb_state VIDEOBUF_NEEDS_INIT) s
               else s in
      match buf_fmt g with
      | None => Oops
      | Some fmt =>
          let size :=
            to_u32 (to_u32 (vb_width g * vb_height g)
                    * to_u32 (Z.shiftr (int_add (depth (fmt_at env fmt)) 7)
                                       3)) in
          let g := {| buf_fmt := buf_fmt g; vb_width := vb_width g;
                      vb_height := vb_height g; vb_field := vb_field g;
                      vb_size := size; vb_baddr := vb_baddr g;
                      vb_bsize := vb_bsize g |} in
          if negb (vb_baddr g =? 0) && (vb_bsize g <? vb_size g) then
            prepare_out (- EINVAL) buf g s freed
          else
            match vb_state (bufs s !!! buf) with
            | VIDEOBUF_NEEDS_INIT => prepare_init buf g s freed
            | _ =>
                let s := update_buf buf (set_inwork 0) s in
                Done (0, g, pxa_videobuf_set_actdma buf s, freed)
            end
      end
  end.

End Prepare.

(** The blocks a buffer holds: the bus addresses of the channels whose
    [sg_cpu] is not [NULL]. *)
Definition held (l : list pxa_cam_dma) : list Z :=
  flat_map (fun d => match sg_cpu d with
                     | Some _ => [sg_dma d]
                     | None => []
                     end) l.

(** The buffer holds no block, is in state [VIDEOBUF_NEEDS_INIT] and is
    not in work. *)
Definition released (s : machine) (buf : Z) : Prop :=
  vb_state (bufs s !!! buf) = VIDEOBUF_NEEDS_INIT /\
  inwork (bufs s !!! buf) = 0 /\
  held (dmas (bufs s !!! buf)) = [] /\
  length (dmas (bufs s !!! buf)) = 3%nat.

(** *** Sample frames for [pxa_videobuf_prepare]

    A camera of 64 by 64 pixels of 16 bits, its frame in two pages; the
    allocator has two descriptor blocks to give. *)
Definition env0 : prepare_env :=
  {| icd_current_fmt := Some 200; icd_width := 64; icd_height := 64;
     fmt_at := fun _ => {| depth := 16;
                           fourcc := V4L2_PIX_FMT_YUV422P videodev2 |};
     iolock_ret := 0; iolock_sglist := frame_sglist; iolock_sglen := 2;
     res_start := 0x50000000;
     alloc := fun i => match i with
                       | O => Some 0xa2000000
                       | S O => Some 0xa2001000
                       | _ => None
                       end;
     in_interrupt := false |}.

(** The same camera when no descriptor block can be had. *)
Definition env_nomem : prepare_env :=
  {| icd_current_fmt := Some 200; icd_width := 64; icd_height := 64;
     fmt_at := fmt_at env0;
     iolock_ret := 0; iolock_sglist := frame_sglist; iolock_sglen := 2;
     res_start := 0x50000000; alloc := fun _ => None;
     in_interrupt := false |}.

Definition geometry0 (baddr bsize : Z) : vb_geometry :=
  {| buf_fmt := Some 200; vb_width := 64; vb_height := 64; vb_field := 1;
     vb_size := 8192; vb_baddr := baddr; vb_bsize := bsize |}.

(** A device of [n] channels with one buffer that was never prepared. *)
Definition fresh (n : Z) : machine :=
  {| channels := n; dma_chans := [5; 6; 7]; capture := []; active := None;
     sg_tail := [None; None; None];
     bufs := {[ 100 := buffer_of VIDEOBUF_NEEDS_INIT no_dma 0 ]};
     descs := ∅; DCSR := ∅; DDADR := ∅;
     cam := {[ CICR0 := 0x3ff ]}; tod := 0;
     capture_head := 60 |}.

(** The three planes of the sample frame, as the builder makes them. *)
Definition plane_y : init_out :=
  init_out_of
    (pxa_init_dma_channel pxa27x 0x50000000 (Some 0xa2000000) no_dma ∅ 2
       CIBR0 4096 {| sg_first := frame_sglist; sg_first_ofs := 0 |}).

Definition plane_u : init_out :=
  init_out_of
    (pxa_init_dma_channel pxa27x 0x50000000 (Some 0xa2001000) no_dma
       (out_mem plane_y) 2 CIBR1 2048 (out_cursor plane_y)).

Definition plane_v : init_out :=
  init_out_of
    (pxa_init_dma_channel pxa27x 0x50000000 None no_dma
       (out_mem plane_u) 2 CIBR2 2048 (out_cursor plane_u)).

(** What [pxa_videobuf_prepare] returns when no block can be had. *)
Definition failed0 : Z * vb_geometry * machine * list Z :=
  match pxa_videobuf_prepare pxa27x env_nomem 1 100 (geometry0 0 0)
          (fresh 1) [] with
  | Done r => r
  | _ => (0, geometry0 0 0, fresh 1, [])
  end.

(** *** Bus parameters and format translations *)

(** The constants of [<media/soc_camera.h>] the driver names, and the
    inline function [soc_camera_bus_param_compatible] of that header, which
    is not among the sources at hand either. *)
Record socam : Type := {
  SOCAM_MASTER : Z;
  SOCAM_SLAVE : Z;
  SOCAM_HSYNC_ACTIVE_HIGH : Z;
  SOCAM_HSYNC_ACTIVE_LOW : Z;
  SOCAM_VSYNC_ACTIVE_HIGH : Z;
  SOCAM_VSYNC_ACTIVE_LOW : Z;
  SOCAM_DATA_ACTIVE_HIGH : Z;
  SOCAM_PCLK_SAMPLE_RISING : Z;
  SOCAM_PCLK_SAMPLE_FALLING : Z;
  SOCAM_DATAWIDTH_8 : Z;
  SOCAM_DATAWIDTH_9 : Z;
  SOCAM_DATAWIDTH_10 : Z;
  SOCAM_DATAWIDTH_MASK : Z;
  SOCAM_SENSE_PCLK_CHANGED : Z;
  soc_camera_bus_param_compatible : Z -> Z -> Z
}.

(** The flags as the kernel of the driver's time numbers them; two sets of
    flags are compatible when they share a flag of every kind. *)
Definition soc_camera : socam := {|
  SOCAM_MASTER := Z.shiftl 1 0;
  SOCAM_SLAVE := Z.shiftl 1 1;
  SOCAM_HSYNC_ACTIVE_HIGH := Z.shiftl 1 2;
  SOCAM_HSYNC_ACTIVE_LOW := Z.shiftl 1 3;
  SOCAM_VSYNC_ACTIVE_HIGH := Z.shiftl 1 4;
  SOCAM_VSYNC_ACTIVE_LOW := Z.shiftl 1 5;
  SOCAM_DATA_ACTIVE_HIGH := Z.shiftl 1 14;
  SOCAM_PCLK_SAMPLE_RISING := Z.shiftl 1 12;
  SOCAM_PCLK_SAMPLE_FALLING := Z.shiftl 1 13;
  SOCAM_DATAWIDTH_8 := Z.shiftl 1 7;
  SOCAM_DATAWIDTH_9 := Z.shiftl 1 8;
  SOCAM_DATAWIDTH_10 := Z.shiftl 1 9;
  SOCAM_DATAWIDTH_MASK := 0xfc0;
  SOCAM_SENSE_PCLK_CHANGED := Z.shiftl 1 0;
  soc_camera_bus_param_compatible := fun camera_flags bus_flags =>
    let common := Z.land camera_flags bus_flags in
    if (Z.land common 0xc =? 0) || (Z.land common 0x30 =? 0)
       || (Z.land common 0x3000 =? 0) || (Z.land common 0x3 =? 0)
       || (Z.land common 0xfc0 =? 0)
    then 0 else common
|}.

Definition CICR0_DMAEN : Z := Z.shiftl 1 31.
Definition CICR0_SL_CAP_EN : Z := Z.shiftl 1 29.
Definition CICR0_TOM : Z := Z.shiftl 1 9.
Definition CICR0_RDAVM : Z := Z.shiftl 1 8.
Definition CICR0_FEM : Z := Z.shiftl 1 7.
Definition CICR0_EOLM : Z := Z.shiftl 1 6.
Definition CICR0_PERRM : Z := Z.shiftl 1 5.
Definition CICR0_QDM : Z := Z.shiftl 1 4.
Definition CICR0_CDM : Z := Z.shiftl 1 3.
Definition CICR0_SOFM : Z := Z.shiftl 1 2.
Definition CICR0_FOM : Z := Z.shiftl 1 0.
Definition CICR0_SIM_MP : Z := Z.shiftl 0 24.
Definition CICR0_SIM_SP : Z := Z.shiftl 1 24.

Definition CICR0_IRQ_MASK : Z :=
  Z.lor (Z.lor (Z.lor (Z.lor (Z.lor (Z.lor (Z.lor (Z.lor (Z.lor
    CICR0_TOM CICR0_RDAVM) CICR0_FEM) CICR0_EOLM) CICR0_PERRM) CICR0_QDM)
    CICR0_CDM) CICR0_SOFM) CICR0_EOFM) CICR0_FOM.

Definition CICR1_TBIT : Z := Z.shiftl 1 31.
Definition CICR1_RGBT_CONV : Z := Z.shiftl 0x3 29.
Definition CICR1_PPL : Z := Z.shiftl 0x7ff 15.
Definition CICR1_YCBCR_F : Z := Z.shiftl 1 10.
Definition CICR1_RGB_BPP : Z := Z.shiftl 0x7 7.
Definition CICR1_COLOR_SP : Z := Z.shiftl 0x3 3.
Definition CICR3_BFW : Z := Z.shiftl 0xff 24.
Definition CICR3_LPF : Z := Z.shiftl 0x7ff 0.

Definition CICR1_PPL_VAL (x : Z) : Z := Z.land (Z.shiftl x 15) CICR1_PPL.
Definition CICR1_COLOR_SP_VAL (x : Z) : Z :=
  Z.land (Z.shiftl x 3) CICR1_COLOR_SP.
Definition CICR1_RGB_BPP_VAL (x : Z) : Z :=
  Z.land (Z.shiftl x 7) CICR1_RGB_BPP.
Definition CICR1_RGBT_CONV_VAL (x : Z) : Z :=
  Z.land (Z.shiftl x 29) CICR1_RGBT_CONV.
Definition CICR3_BFW_VAL (x : Z) : Z := Z.land (Z.shiftl x 24) CICR3_BFW.
Definition CICR3_LPF_VAL (x : Z) : Z := Z.land (Z.shiftl x 0) CICR3_LPF.

Definition with_channels (v : Z) (s : machine) : machine :=
  {| channels := v; dma_chans := dma_chans s; capture := capture s;
     active := active s; sg_tail := sg_tail s; bufs := bufs s;
     descs := descs s; DCSR := DCSR s; DDADR := DDADR s; cam := cam s;
     tod := tod s; capture_head := capture_head s |}.

(** The fields of [struct soc_camera_device] that
    [pxa_camera_set_bus_param] reads, with what the camera's
    [query_bus_param] returns and its [set_bus_param] operation. *)
Record bus_camera : Type := {
  cam_buswidth : Z;
  cam_width : Z;
  cam_height : Z;
  cam_y_skip_top : Z;
  query_bus_param : Z;
  set_bus_param : Z -> Z
}.

(** [struct soc_camera_sense] *)
Record soc_camera_sense : Type := {
  sense_flags : Z;
  master_clock : Z;
  pixel_clock_max : Z;
  pixel_clock : Z
}.

Section BusParam.

Variable C : mach_camera.
Variable SF : socam.
Variable V : v4l2.

(** [test_platform_param]: the return value and [*flags]. *)
Definition test_platform_param (p : pxa_host) (width : Z) : Z * Z :=
  (*
   * Platform specified synchronization and pixel clock polarities are
   * only a recommendation and are only used during probing. The PXA270
   * quick capture interface supports both.
   *)
  let flags :=
    Z.lor (Z.lor (Z.lor (Z.lor (Z.lor (Z.lor (Z.lor
      (if bit_set (platform_flags p) (PXA_CAMERA_MASTER C)
       then SOCAM_MASTER SF else SOCAM_SLAVE SF)
      (SOCAM_HSYNC_ACTIVE_HIGH SF))
      (SOCAM_HSYNC_ACTIVE_LOW SF))
      (SOCAM_VSYNC_ACTIVE_HIGH SF))
      (SOCAM_VSYNC_ACTIVE_LOW SF))
      (SOCAM_DATA_ACTIVE_HIGH SF))
      (SOCAM_PCLK_SAMPLE_RISING SF))
      (SOCAM_PCLK_SAMPLE_FALLING SF) in
  (* If requested data width is supported by the platform, use it *)
  if width =? 10 then
    if negb (bit_set (platform_flags p) (PXA_CAMERA_DATAWIDTH_10 C))
    then (- EINVAL, flags)
    else (0, Z.lor flags (SOCAM_DATAWIDTH_10 SF))
  else if width =? 9 then
    if negb (bit_set (platform_flags p) (PXA_CAMERA_DATAWIDTH_9 C))
    then (- EINVAL, flags)
    else (0, Z.lor flags (SOCAM_DATAWIDTH_9 SF))
  else if width =? 8 then
    if negb (bit_set (platform_flags p) (PXA_CAMERA_DATAWIDTH_8 C))
    then (- EINVAL, flags)
    else (0, Z.lor flags (SOCAM_DATAWIDTH_8 SF))
  else (- EINVAL, flags).

(** [pxa_camera_try_bus_param]; [camera_flags] is what the camera's
    [query_bus_param] returns, [width] the [unsigned char] argument. *)
Definition pxa_camera_try_bus_param (p : pxa_host) (camera_flags width : Z)
  : Z :=
  let '(ret, bus_flags) := test_platform_param p width in
  if ret <? 0 then ret
  else if negb (soc_camera_bus_param_compatible SF camera_flags bus_flags
                =? 0)
       then 0 else - EINVAL.

(** [static const struct soc_camera_data_format pxa_camera_formats[]] *)
Definition pxa_camera_formats : list soc_camera_data_format :=
  [ {| depth := 16; fourcc := V4L2_PIX_FMT_YUV422P V |} ].

Definition buswidth_supported (p : pxa_host) (d : Z) : bool :=
  if d =? 8 then bit_set (platform_flags p) (PXA_CAMERA_DATAWIDTH_8 C)
  else if d =? 9 then bit_set (platform_flags p) (PXA_CAMERA_DATAWIDTH_9 C)
  else if d =? 10 then
    bit_set (platform_flags p) (PXA_CAMERA_DATAWIDTH_10 C)
  else false.

(** The formats that reach the host packed, on eight data lines. *)
Definition packed (code : Z) : bool :=
  (code =? V4L2_PIX_FMT_UYVY V) || (code =? V4L2_PIX_FMT_VYUY V)
  || (code =? V4L2_PIX_FMT_YUYV V) || (code =? V4L2_PIX_FMT_YVYU V)
  || (code =? V4L2_PIX_FMT_RGB565 V) || (code =? V4L2_PIX_FMT_RGB555 V).

Definition required_buswidth (fmt : soc_camera_data_format) : Z :=
  if packed (fourcc fmt) then 8 else depth fmt.

(** [pxa_camera_get_formats] for the camera format [fmt], which is
    [icd->formats[idx]].  [fill] tells whether [xlate] is not [NULL];
    returns the number of formats and the entries written to [xlate]. *)
Definition pxa_camera_get_formats (p : pxa_host) (camera_flags : Z)
    (fmt : soc_camera_data_format) (fill : bool)
  : Z * list soc_camera_format_xlate :=
  let width := required_buswidth fmt in
  if negb (buswidth_supported p width) then (0, [])
  else
    let ret := pxa_camera_try_bus_param p camera_flags (width mod 256) in
    if ret <? 0 then (0, [])
    else
      let formats := 0 in
      let xlate := [] in
      let entry host w :=
        {| host_fmt := host; cam_fmt := fmt; buswidth := w |} in
      if fourcc fmt =? V4L2_PIX_FMT_UYVY V then
        let formats := int_add formats 1 in
        let xlate := if fill
                     then xlate ++ [entry (pxa_camera_formats !!! 0%nat)
                                          width]
                     else xlate in
        let formats := int_add formats 1 in
        let xlate := if fill then xlate ++ [entry fmt width] else xlate in
        (formats, xlate)
      else if packed (fourcc fmt) then
        let formats := int_add formats 1 in
        let xlate := if fill then xlate ++ [entry fmt width] else xlate in
        (formats, xlate)
      else
        (* Generic pass-through *)
        let formats := int_add formats 1 in
        let xlate := if fill then xlate ++ [entry fmt (depth fmt)]
                     else xlate in
        (formats, xlate).

(** [pxa_camera_set_bus_param] *)
Definition pxa_camera_set_bus_param (icd : bus_camera) (pixfmt : Z)
    (p : pxa_host) (s : machine) : Z * machine :=
  let cicr4 := 0 in
  let '(ret, bus_flags) := test_platform_param p (cam_buswidth icd) in
  if ret <? 0 then (ret, s)
  else
    let camera_flags := query_bus_param icd in
    let common_flags :=
      soc_camera_bus_param_compatible SF camera_flags bus_flags in
    if common_flags =? 0 then (- EINVAL, s)
    else
      let s := with_channels 1 s in
      (* Make choises, based on platform preferences *)
      let common_flags :=
        if bit_set common_flags (SOCAM_HSYNC_ACTIVE_HIGH SF)
           && bit_set common_flags (SOCAM_HSYNC_ACTIVE_LOW SF)
        then if bit_set (platform_flags p) (PXA_CAMERA_HSP C)
             then to_u32 (Z.land common_flags
                            (Z.lnot (SOCAM_HSYNC_ACTIVE_HIGH SF)))
             else to_u32 (Z.land common_flags
                            (Z.lnot (SOCAM_HSYNC_ACTIVE_LOW SF)))
        else common_flags in
      let common_flags :=
        if bit_set common_flags (SOCAM_VSYNC_ACTIVE_HIGH SF)
           && bit_set common_flags (SOCAM_VSYNC_ACTIVE_LOW SF)
        then if bit_set (platform_flags p) (PXA_CAMERA_VSP C)
             then to_u32 (Z.land common_flags
                            (Z.lnot (SOCAM_VSYNC_ACTIVE_HIGH SF)))
             else to_u32 (Z.land common_flags
                            (Z.lnot (SOCAM_VSYNC_ACTIVE_LOW SF)))
        else common_flags in
      let common_flags :=
        if bit_set common_flags (SOCAM_PCLK_SAMPLE_RISING SF)
           && bit_set common_flags (SOCAM_PCLK_SAMPLE_FALLING SF)
        then if bit_set (platform_flags p) (PXA_CAMERA_PCP C)
             then to_u32 (Z.land common_flags
                            (Z.lnot (SOCAM_PCLK_SAMPLE_RISING SF)))
             else to_u32 (Z.land common_flags
                            (Z.lnot (SOCAM_PCLK_SAMPLE_FALLING SF)))
        else common_flags in
      let ret := set_bus_param icd common_flags in
      if ret <? 0 then (ret, s)
      else
        (* Datawidth is now guaranteed to be equal to one of the three
         * values.  We fix bit-per-pixel equal to data-width... *)
        let width_flag := Z.land common_flags (SOCAM_DATAWIDTH_MASK SF) in
        let '(dw, bpp) :=
          if width_flag =? SOCAM_DATAWIDTH_10 SF then (4, 0x40)
          else if width_flag =? SOCAM_DATAWIDTH_9 SF then (3, 0x20)
          else (2, 0) in
        let cicr4 := if bit_set (platform_flags p) (PXA_CAMERA_PCLK_EN C)
                     then Z.lor cicr4 CICR4_PCLK_EN else cicr4 in
        let cicr4 := if bit_set (platform_flags p) (PXA_CAMERA_MCLK_EN C)
                     then Z.lor cicr4 CICR4_MCLK_EN else cicr4 in
        let cicr4 := if bit_set common_flags (SOCAM_PCLK_SAMPLE_FALLING SF)
                     then Z.lor cicr4 CICR4_PCP else cicr4 in
        let cicr4 := if bit_set common_flags (SOCAM_HSYNC_ACTIVE_LOW SF)
                     then Z.lor cicr4 CICR4_HSP else cicr4 in
        let cicr4 := if bit_set common_flags (SOCAM_VSYNC_ACTIVE_LOW SF)
                     then Z.lor cicr4 CICR4_VSP else cicr4 in
        let cicr0 := readl s CICR0 in
        let s := if bit_set cicr0 CICR0_ENB
                 then writel (Z.land cicr0 (Z.lnot CICR0_ENB)) CICR0 s
                 else s in
        let cicr1 :=
          to_u32 (Z.lor (Z.lor (CICR1_PPL_VAL (int_sub (cam_width icd) 1))
                               bpp) dw) in
        let '(s, cicr1) :=
          if pixfmt =? V4L2_PIX_FMT_YUV422P V then
            (with_channels 3 s,
             Z.lor (Z.lor cicr1 CICR1_YCBCR_F) (CICR1_COLOR_SP_VAL 2))
          else if (pixfmt =? V4L2_PIX_FMT_UYVY V)
                  || (pixfmt =? V4L2_PIX_FMT_VYUY V)
                  || (pixfmt =? V4L2_PIX_FMT_YUYV V)
                  || (pixfmt =? V4L2_PIX_FMT_YVYU V) then
            (s, Z.lor cicr1 (CICR1_COLOR_SP_VAL 2))
          else if pixfmt =? V4L2_PIX_FMT_RGB555 V then
            (s, Z.lor cicr1
                  (Z.lor (Z.lor (Z.lor (CICR1_RGB_BPP_VAL 1)
                                       (CICR1_RGBT_CONV_VAL 2))
                                CICR1_TBIT)
                         (CICR1_COLOR_SP_VAL 1)))
          else if pixfmt =? V4L2_PIX_FMT_RGB565 V then
            (s, Z.lor cicr1 (Z.lor (CICR1_COLOR_SP_VAL 1)
                                   (CICR1_RGB_BPP_VAL 2)))
          else (s, cicr1) in
        let cicr2 := 0 in
        let cicr3 :=
          Z.lor (CICR3_LPF_VAL (int_sub (cam_height icd) 1))
                (CICR3_BFW_VAL (Z.min 255 (cam_y_skip_top icd))) in
        let cicr4 := Z.lor cicr4 (mclk_divisor p) in
        let s := writel cicr1 CICR1 s in
        let s := writel cicr2 CICR2 s in
        let s := writel cicr3 CICR3 s in
        let s := writel cicr4 CICR4 s in
        (* CIF interrupts are not used, only DMA *)
        let cicr0 :=
          Z.lor (Z.land cicr0 CICR0_ENB)
                (if bit_set (platform_flags p) (PXA_CAMERA_MASTER C)
                 then CICR0_SIM_MP
                 else Z.lor CICR0_SL_CAP_EN CICR0_SIM_SP) in
        let cicr0 := Z.lor cicr0 (Z.lor CICR0_DMAEN CICR0_IRQ_MASK) in
        (0, writel cicr0 CICR0 s).

(** [pxa_camera_set_crop].  [op] is the camera's [set_crop] on the
    rectangle asked for: it sees [icd->sense], which is [NULL] or points to
    the local [sense], returns a value and leaves [sense] as it wrote it.
    An early [return] is the first component of the pair the middle part
    yields. *)
Definition pxa_camera_set_crop
    (op : option soc_camera_sense -> Z * soc_camera_sense) (p : pxa_host)
    (s : machine) : result (Z * machine) :=
  let sense := {| sense_flags := 0; master_clock := mclk p;
                  pixel_clock_max := ciclk p / 4; pixel_clock := 0 |} in
  (* If PCLK is used to latch data from the sensor, check sense *)
  let '(ret, sense) :=
    if bit_set (platform_flags p) (PXA_CAMERA_PCLK_EN C)
    then op (Some sense) else ((op None).1, sense) in
  e <- (if ret <? 0 then Done (None, s)
        else if bit_set (sense_flags sense) (SOCAM_SENSE_PCLK_CHANGED SF)
        then
          if pixel_clock sense >? pixel_clock_max sense
          then Done (Some (- EIO), s)
          else s <- recalculate_fifo_timeout p (pixel_clock sense) s ;;
               Done (None, s)
        else Done (None, s)) ;;
  let '(early, s) := e in
  match early with
  | Some err => Done (err, s)
  | None => Done (ret, s)
  end.

(** [pxa_camera_set_fmt]; [xlate] is what [soc_camera_xlate_by_fourcc]
    finds, [op] the camera's [set_fmt] on the pixel format code it is given,
    and [current] the pair of [icd->buswidth] and [icd->current_fmt]. *)
Definition pxa_camera_set_fmt (xlate : option soc_camera_format_xlate)
    (op : Z -> option soc_camera_sense -> Z * soc_camera_sense)
    (p : pxa_host) (current : Z * option soc_camera_data_format)
    (s : machine)
  : result (Z * (Z * option soc_camera_data_format) * machine) :=
  let sense := {| sense_flags := 0; master_clock := mclk p;
                  pixel_clock_max := ciclk p / 4; pixel_clock := 0 |} in
  match xlate with
  | None => Done (- EINVAL, current, s)
  | Some x =>
      (* If PCLK is used to latch data from the sensor, check sense *)
      let '(ret, sense) :=
        if bit_set (platform_flags p) (PXA_CAMERA_PCLK_EN C)
        then op (fourcc (cam_fmt x)) (Some sense)
        else ((op (fourcc (cam_fmt x)) None).1, sense) in
      e <- (if ret <? 0 then Done (None, s)
            else if bit_set (sense_flags sense) (SOCAM_SENSE_PCLK_CHANGED SF)
            then
              if pixel_clock sense >? pixel_clock_max sense
              then Done (Some (- EIO), s)
              else s <- recalculate_fifo_timeout p (pixel_clock sense) s ;;
                   Done (None, s)
            else Done (None, s)) ;;
      let '(early, s) := e in
      match early with
      | Some err => Done (err, current, s)
      | None =>
          let current := if ret =? 0 then (buswidth x, Some (host_fmt x))
                         else current in
          Done (ret, current, s)
      end
  end.

End BusParam.

(** A camera that sends UYVY on eight data lines, and the buses it can
    drive: master, both polarities of every signal. *)
Definition uyvy : soc_camera_data_format :=
  {| depth := 16; fourcc := V4L2_PIX_FMT_UYVY videodev2 |}.

Definition camera0 : bus_camera :=
  {| cam_buswidth := 8; cam_width := 64; cam_height := 64;
     cam_y_skip_top := 0; query_bus_param := 0x70bd;
     set_bus_param := fun _ => 0 |}.

(** A camera that raises its pixel clock to [pclk] when it is asked for a
    format or a rectangle, and tells so if it is given a [sense]. *)
Definition camera_clock (pclk : Z)
    (sense : option soc_camera_sense) : Z * soc_camera_sense :=
  match sense with
  | Some v => (0, {| sense_flags := 1; master_clock := master_clock v;
                     pixel_clock_max := pixel_clock_max v;
                     pixel_clock := pclk |})
  | None => (0, {| sense_flags := 0; master_clock := 0;
                   pixel_clock_max := 0; pixel_clock := 0 |})
  end.

(** A request for 53 by 37 pixels of planar YUV422. *)
Definition odd_pix : v4l2_pix_format :=
  {| pix_width := 53; pix_height := 37;
     pix_pixelformat := V4L2_PIX_FMT_YUV422P videodev2; pix_field := 0;
     pix_bytesperline := 0; pix_sizeimage := 0 |}.

(** ** Proofs *)

Section Arith.

Lemma to_int_small z : - 2 ^ 31 <= z < 2 ^ 31 -> to_int z = z.
Proof.
  intros H. unfold to_int.
  rewrite Z.mod_small by lia. lia.
Qed.

Lemma to_u32_small z : 0 <= z < 2 ^ 32 -> to_u32 z = z.
Proof. intros H. unfold to_u32. now rewrite Z.mod_small. Qed.

Lemma roundup_8 x :
  0 <= x <= INT_MAX - 7 -> roundup x 8 = 8 * ((x + 7) / 8).
Proof.
  unfold INT_MAX. intros H.
  unfold roundup, int_mul, int_div, int_add, int_sub.
  rewrite (to_int_small (8 - 1)) by lia.
  rewrite (to_int_small (x + _)) by lia.
  rewrite Z.quot_div_nonneg by lia.
  assert (0 <= (x + (8 - 1)) / 8 <= x + 7).
  { split; [apply Z.div_pos; lia|].
    apply Z.div_le_upper_bound; lia. }
  assert ((x + (8 - 1)) / 8 * 8 <= x + 7).
  { rewrite Z.mul_comm. apply Z.mul_div_le. lia. }
  rewrite (to_int_small ((x + (8 - 1)) / 8)) by lia.
  rewrite to_int_small by lia.
  replace (8 - 1) with 7 by lia. lia.
Qed.

Lemma roundup_8_bounds x :
  0 <= x <= INT_MAX - 7 ->
  x <= roundup x 8 <= x + 7 /\ roundup x 8 mod 8 = 0.
Proof.
  intros H. rewrite roundup_8 by assumption.
  pose proof (Z.div_mod (x + 7) 8 ltac:(lia)) as E.
  pose proof (Z.mod_pos_bound (x + 7) 8 ltac:(lia)) as B.
  split; [lia|].
  rewrite Z.mul_comm. apply Z.mod_mul. lia.
Qed.

End Arith.

Section BuilderProofs.

Variable M : mach_dma.

Lemma round_up8_bounds x : x <= round_up8 x <= x + 7.
Proof.
  unfold round_up8.
  pose proof (Z.div_mod (x + 7) 8 ltac:(lia)).
  pose proof (Z.mod_pos_bound (x + 7) 8 ltac:(lia)). lia.
Qed.

Lemma total_len_nonneg segs : Forall seg_ok segs -> 0 <= total_len segs.
Proof.
  intros H. induction H as [|s l Hs _ IH]; simpl; [lia|].
  unfold seg_ok in Hs. lia.
Qed.

(** One turn of either loop, without the wrap-around. *)
Lemma turn_arith s ofs size :
  seg_ok s -> 0 <= ofs <= sg_dma_len s -> 0 <= size <= INT_MAX ->
  let x := round_up8 (Z.min (sg_dma_len s - ofs) size) in
  to_int (sg_dma_len s) = sg_dma_len s /\
  roundup (Z.min (int_sub (to_int (sg_dma_len s)) ofs) size) 8 = x /\
  int_sub size x = size - x /\
  0 <= x <= INT_MAX.
Proof.
  intros Hs Ho Hz x. unfold seg_ok, INT_MAX in *.
  assert (E1 : to_int (sg_dma_len s) = sg_dma_len s)
    by (apply to_int_small; lia).
  rewrite E1. unfold int_sub at 1.
  rewrite (to_int_small (sg_dma_len s - ofs)) by lia.
  pose proof (round_up8_bounds (Z.min (sg_dma_len s - ofs) size)) as B.
  fold x in B.
  rewrite roundup_8 by (unfold INT_MAX; lia).
  fold (round_up8 (Z.min (sg_dma_len s - ofs) size)). fold x.
  repeat split; try lia.
  unfold int_sub. apply to_int_small. lia.
Qed.

Lemma calculate_dma_sglen_loop_spec n : forall sg i ofs size,
  (0 < n)%nat -> sg <> [] ->
  Forall seg_ok (take n sg) -> cursor_ok sg ofs ->
  0 <= size <= INT_MAX ->
  size <= total_len (take n sg) - ofs ->
  0 <= i -> i + Z.of_nat n <= INT_MAX ->
  let L := xfer_lens sg ofs size in
  (1 <= length L <= n)%nat /\
  calculate_dma_sglen_loop n sg i ofs size
    = Done (i + Z.of_nat (length L) - 1, 0).
Proof.
  induction n as [|n IH]; intros sg i ofs size Hn Hsg Hok Hcur Hsz Hcov Hi Hin;
    [lia|].
  destruct sg as [|s rest]; [congruence|].
  rewrite firstn_cons in Hok, Hcov.
  apply Forall_cons in Hok as [Hs Hok].
  destruct Hcur as [Ho0 Ho]. specialize (Ho s eq_refl).
  destruct (turn_arith s ofs size Hs (conj Ho0 Ho) Hsz) as (E1 & E2 & E3 & Hx).
  simpl. rewrite E2, E3.
  set (x := round_up8 (Z.min (sg_dma_len s - ofs) size)) in *.
  pose proof (round_up8_bounds (Z.min (sg_dma_len s - ofs) size)) as B.
  fold x in B. simpl in Hcov.
  destruct (size - x <=? 0) eqn:Hle.
  - apply Z.leb_le in Hle.
    replace (Z.max 0 (size - x)) with 0 by lia. simpl.
    split; [lia|]. f_equal. f_equal. lia.
  - apply Z.leb_gt in Hle.
    replace (Z.max 0 (size - x)) with (size - x) by lia.
    destruct (size - x =? 0) eqn:Hz; [apply Z.eqb_eq in Hz; lia|].
    assert (Hcov' : size - x <= total_len (take n rest) - 0) by lia.
    assert (Hn' : (0 < n)%nat).
    { destruct n; [|lia]. simpl in Hcov'. lia. }
    assert (Hrest : rest <> []).
    { intros ->. rewrite firstn_nil in Hcov'. simpl in Hcov'. lia. }
    assert (Hcur' : cursor_ok rest 0).
    { split; [lia|]. intros s' Hs'. destruct rest as [|s'' r]; [discriminate|].
      injection Hs' as <-. destruct n; [lia|].
      rewrite firstn_cons in Hok. apply Forall_cons in Hok as [Hs'' _].
      unfold seg_ok in Hs''. lia. }
    unfold int_add. rewrite to_int_small by (unfold INT_MAX in *; lia).
    destruct (IH rest (i + 1) 0 (size - x) Hn' Hrest Hok Hcur'
                ltac:(lia) Hcov' ltac:(lia) ltac:(lia)) as [HL Hc].
    rewrite Hc. simpl length. split; [lia|].
    f_equal. f_equal. lia.
Qed.

Lemma xfer_lens_sum n : forall sg ofs size,
  (0 < n)%nat -> sg <> [] ->
  Forall seg_ok (take n sg) -> cursor_ok sg ofs ->
  0 <= size <= INT_MAX ->
  size <= total_len (take n sg) - ofs ->
  size <= sum_list (xfer_lens sg ofs size) <= size + 7.
Proof.
  induction n as [|n IH]; intros sg ofs size Hn Hsg Hok Hcur Hsz Hcov; [lia|].
  destruct sg as [|s rest]; [congruence|].
  rewrite firstn_cons in Hok, Hcov.
  apply Forall_cons in Hok as [Hs Hok].
  destruct Hcur as [Ho0 Ho]. specialize (Ho s eq_refl).
  simpl in *.
  pose proof (round_up8_bounds (Z.min (sg_dma_len s - ofs) size)) as B.
  set (x := round_up8 (Z.min (sg_dma_len s - ofs) size)) in *.
  destruct (size - x <=? 0) eqn:Hle.
  - apply Z.leb_le in Hle. simpl. lia.
  - apply Z.leb_gt in Hle.
    assert (Hcov' : size - x <= total_len (take n rest) - 0) by lia.
    assert (Hn' : (0 < n)%nat).
    { destruct n; [|lia]. simpl in Hcov'. lia. }
    assert (Hrest : rest <> []).
    { intros ->. rewrite firstn_nil in Hcov'. simpl in Hcov'. lia. }
    assert (Hcur' : cursor_ok rest 0).
    { split; [lia|]. intros s' Hs'. destruct rest as [|s'' r]; [discriminate|].
      injection Hs' as <-. destruct n; [lia|].
      rewrite firstn_cons in Hok. apply Forall_cons in Hok as [Hs'' _].
      unfold seg_ok in Hs''. lia. }
    unfold seg_ok, INT_MAX in *.
    specialize (IH rest 0 (size - x) Hn' Hrest Hok Hcur' ltac:(lia) Hcov').
    simpl. lia.
Qed.

Lemma xfer_lens_nth : forall sg ofs size (k : nat) x,
  xfer_lens sg ofs size !! k = Some x ->
  x = round_up8 (Z.min (seg_remaining sg ofs k)
                       (size - sum_list (take k (xfer_lens sg ofs size)))).
Proof.
  induction sg as [|s rest IH]; intros ofs size k x Hk; [discriminate|].
  simpl in Hk |- *.
  set (x0 := round_up8 (Z.min (sg_dma_len s - ofs) size)) in *.
  destruct k as [|k].
  - assert (x = x0) as ->.
    { destruct (size - x0 <=? 0); simpl in Hk; congruence. }
    unfold seg_remaining. simpl.
    unfold x0. f_equal. f_equal. lia.
  - destruct (size - x0 <=? 0); simpl in Hk; [discriminate|].
    rewrite (IH _ _ _ _ Hk). simpl.
    f_equal. f_equal.
    + unfold seg_remaining. simpl. destruct (rest !! k); [|reflexivity].
      destruct k; lia.
    + lia.
Qed.

Lemma desc_addr_small base n k :
  block_ok M base n -> 0 <= k <= n ->
  desc_addr M base k = base + k * sizeof_pxa_dma_desc M.
Proof.
  intros (Hsz & Hb & Hn) Hk. unfold desc_addr. apply to_u32_small. nia.
Qed.

Lemma pxa_init_dma_channel_loop_spec res_start cibr base n :
  forall sg i ofs size dl xl mem,
  (0 < n)%nat -> sg <> [] ->
  Forall seg_ok (take n sg) -> cursor_ok sg ofs ->
  0 <= size <= INT_MAX ->
  size <= total_len (take n sg) - ofs ->
  0 <= i -> i + Z.of_nat n <= INT_MAX ->
  block_ok M base (i + Z.of_nat n) ->
  let L := xfer_lens sg ofs size in
  let sz := sizeof_pxa_dma_desc M in
  exists e,
    pxa_init_dma_channel_loop M res_start cibr base (length L) sg i ofs
      size dl xl mem = Done e /\
    exit_size e = 0 /\
    (exists s, sg !! (length L - 1)%nat = Some s /\
               exit_dma_len e = sg_dma_len s /\
               exit_sg e = drop (length L - 1) sg /\ seg_ok s) /\
    (L !! (length L - 1)%nat = Some (exit_xfer_len e) /\
     0 <= exit_xfer_len e <= INT_MAX) /\
    (forall (k : nat) s x, sg !! k = Some s -> L !! k = Some x ->
       exit_mem e !! (base + (i + Z.of_nat k) * sz)
       = Some (data_desc M res_start cibr s
                 (match k with O => ofs | S _ => 0 end) x
                 (base + (i + Z.of_nat k + 1) * sz))) /\
    (forall a, (forall k : nat, (k < length L)%nat ->
                  a <> base + (i + Z.of_nat k) * sz) ->
       exit_mem e !! a = mem !! a).
Proof.
  induction n as [|n IH];
    intros sg i ofs size dl xl mem Hn Hsg Hok Hcur Hsz Hcov Hi Hin Hblk L sz;
    [lia|].
  destruct sg as [|s rest]; [congruence|].
  rewrite firstn_cons in Hok, Hcov.
  apply Forall_cons in Hok as [Hs Hok].
  destruct Hcur as [Ho0 Ho]. specialize (Ho s eq_refl).
  destruct (turn_arith s ofs size Hs (conj Ho0 Ho) Hsz) as (E1 & E2 & E3 & Hx).
  pose proof (round_up8_bounds (Z.min (sg_dma_len s - ofs) size)) as B.
  subst L. cbn [xfer_lens].
  change (total_len (s :: take n rest))
    with (sg_dma_len s + total_len (take n rest)) in Hcov.
  set (x := round_up8 (Z.min (sg_dma_len s - ofs) size)) in *.
  assert (Ha0 : desc_addr M base i = base + i * sz)
    by (apply (desc_addr_small _ _ _ Hblk); lia).
  assert (Ha1 : desc_addr M base (i + 1) = base + (i + 1) * sz)
    by (apply (desc_addr_small _ _ _ Hblk); lia).
  destruct (size - x <=? 0) eqn:Hle.
  - apply Z.leb_le in Hle.
    cbn [length pxa_init_dma_channel_loop]. rewrite E2, E1, E3.
    replace (Z.max 0 (size - x)) with 0 by lia. cbn [Z.eqb].
    eexists. split; [reflexivity|]. cbn.
    split; [reflexivity|]. split; [eauto|]. split; [split; [reflexivity|lia]|].
    rewrite Ha0, Ha1. split.
    + intros k s' x' Hs' Hx'. destruct k; [|discriminate].
      injection Hs' as <-. injection Hx' as <-.
      rewrite Z.add_0_r. rewrite lookup_insert_eq. reflexivity.
    + intros a Ha. apply lookup_insert_ne.
      specialize (Ha 0%nat ltac:(lia)). rewrite Z.add_0_r in Ha. congruence.
  - apply Z.leb_gt in Hle.
    assert (Hcov' : size - x <= total_len (take n rest) - 0) by lia.
    assert (Hn' : (0 < n)%nat).
    { destruct n; [|lia]. simpl in Hcov'. lia. }
    assert (Hrest : rest <> []).
    { intros ->. rewrite firstn_nil in Hcov'. simpl in Hcov'. lia. }
    assert (Hcur' : cursor_ok rest 0).
    { split; [lia|]. intros s' Hs'. destruct rest as [|s'' r]; [discriminate|].
      injection Hs' as <-. destruct n; [lia|].
      rewrite firstn_cons in Hok. apply Forall_cons in Hok as [Hs'' _].
      unfold seg_ok in Hs''. lia. }
    cbn [length pxa_init_dma_channel_loop]. rewrite E2, E1, E3.
    replace (Z.max 0 (size - x)) with (size - x) by lia.
    destruct (size - x =? 0) eqn:Hz; [apply Z.eqb_eq in Hz; lia|].
    unfold int_add. rewrite to_int_small by (unfold INT_MAX in *; lia).
    rewrite Ha0, Ha1.
    assert (Hblk' : block_ok M base (i + 1 + Z.of_nat n)).
    { replace (i + 1 + Z.of_nat n) with (i + Z.of_nat (S n)) by lia.
      exact Hblk. }
    edestruct (IH rest (i + 1) 0 (size - x) (sg_dma_len s) x) 
      as (e & He & Hz0 & (sl & Hsl & Hdl & Hsg' & Hsok) & Hxl & Hmem & Hfr);
      try eassumption; try lia.
    fold sz in Hmem, Hfr.
    exists e. split; [exact He|]. split; [exact Hz0|].
    assert (HL' : (1 <= length (xfer_lens rest 0 (size - x)))%nat).
    { destruct (calculate_dma_sglen_loop_spec n rest (i + 1) 0 (size - x))
        as [HL _]; try assumption; lia. }
    set (L' := xfer_lens rest 0 (size - x)) in *.
    replace (S (length L') - 1)%nat with (S (length L' - 1)) by lia.
    split; [exists sl; auto|]. split; [exact Hxl|]. split.
    + intros k s' x' Hs' Hx'. destruct k as [|k].
      * injection Hs' as <-. injection Hx' as <-.
        rewrite Z.add_0_r. rewrite Hfr.
        -- rewrite lookup_insert_eq. reflexivity.
        -- intros k Hk. destruct Hblk as (Hsz0 & _). fold sz in Hsz0. nia.
      * cbn in Hs', Hx'.
        specialize (Hmem k s' x' Hs' Hx').
        replace (i + Z.of_nat (S k)) with (i + 1 + Z.of_nat k) by lia.
        rewrite Hmem. f_equal. destruct k; reflexivity.
    + intros a Ha. rewrite Hfr.
      * apply lookup_insert_ne. specialize (Ha 0%nat ltac:(simpl; lia)).
        rewrite Z.add_0_r in Ha. congruence.
      * intros k Hk. specialize (Ha (S k) ltac:(simpl; lia)).
        replace (i + Z.of_nat (S k)) with (i + 1 + Z.of_nat k) in Ha by lia.
        exact Ha.
Qed.

Lemma xfer_lens_length_le : forall sg ofs size,
  (length (xfer_lens sg ofs size) <= length sg)%nat.
Proof.
  induction sg as [|s rest IH]; intros ofs size; simpl; [lia|].
  destruct (_ <=? 0); simpl; [lia|].
  specialize (IH 0 (size - round_up8 (Z.min (sg_dma_len s - ofs) size))).
  lia.
Qed.

(** What a successful run of the builder leaves behind. *)
Lemma pxa_init_dma_channel_spec res_start base pxa_dma mem dma_sglen cibr
    size cur :
  0 < dma_sglen <= INT_MAX ->
  sg_first cur <> [] ->
  Forall seg_ok (take (Z.to_nat dma_sglen) (sg_first cur)) ->
  cursor_ok (sg_first cur) (sg_first_ofs cur) ->
  0 <= size <= INT_MAX ->
  size <= total_len (take (Z.to_nat dma_sglen) (sg_first cur))
          - sg_first_ofs cur ->
  block_ok M base dma_sglen ->
  let sg := sg_first cur in
  let ofs := sg_first_ofs cur in
  let L := xfer_lens sg ofs size in
  let n := Z.of_nat (length L) in
  let sz := sizeof_pxa_dma_desc M in
  exists out,
    pxa_init_dma_channel M res_start (Some base) pxa_dma mem dma_sglen
      cibr size cur = Done out /\
    out_ret out = 0 /\
    sg_dma (out_dma out) = base /\ sg_cpu (out_dma out) = Some base /\
    sglen (out_dma out) = n /\
    1 <= n <= dma_sglen /\
    (forall (k : nat) s x, sg !! k = Some s -> L !! k = Some x ->
       out_mem out !! (base + Z.of_nat k * sz)
       = Some (data_desc M res_start cibr s
                 (match k with O => ofs | S _ => 0 end) x
                 (base + (Z.of_nat k + 1) * sz))) /\
    (exists d, out_mem out !! (base + n * sz) = Some d /\
               ddadr d = DDADR_STOP M /\ dcmd d = DCMD_END M) /\
    (forall a, (forall k : nat, (k <= length L)%nat ->
                  a <> base + Z.of_nat k * sz) ->
       out_mem out !! a = mem !! a) /\
    (exists s x, sg !! (length L - 1)%nat = Some s /\
                 L !! (length L - 1)%nat = Some x /\
                 out_cursor out
                 = next_cursor sg (length L - 1) (sg_dma_len s) x).
Proof.
  intros Hn Hsg Hok Hcur Hsz Hcov Hblk sg ofs L n sz.
  destruct (calculate_dma_sglen_loop_spec (Z.to_nat dma_sglen) sg 0 ofs size)
    as [HL Hcalc]; try assumption; try lia.
  fold L in HL, Hcalc.
  assert (Hblk' : block_ok M base (0 + Z.of_nat (Z.to_nat dma_sglen))).
  { replace (0 + Z.of_nat (Z.to_nat dma_sglen)) with dma_sglen by lia.
    exact Hblk. }
  destruct (pxa_init_dma_channel_loop_spec res_start cibr base
              (Z.to_nat dma_sglen) sg 0 ofs size 0 0 mem)
    as (e & He & Hz0 & (sl & Hsl & Hdl & Hsg' & Hsok) & [Hxl Hxr] & Hmem & Hfr);
    try assumption; try lia.
  fold L sz in He, Hsl, Hsg', Hxl, Hmem, Hfr.
  assert (En : int_add (0 + Z.of_nat (length L) - 1) 1 = n).
  { unfold int_add. rewrite to_int_small by (unfold INT_MAX in *; lia).
    subst n; lia. }
  unfold pxa_init_dma_channel, calculate_dma_sglen.
  fold sg ofs. rewrite Hcalc. cbn [bind Z.eqb]. rewrite En.
  replace (Z.to_nat n) with (length L) by (subst n; lia).
  rewrite He. cbn [bind].
  assert (Hlast : desc_addr M base n = base + n * sz)
    by (apply (desc_addr_small _ _ _ Hblk); lia).
  rewrite Hlast.
  assert (Hdrop : drop (length L - 1) sg = sl :: drop (S (length L - 1)) sg)
    by (apply drop_S; exact Hsl).
  rewrite Hsg', Hdrop, Hdl. cbn [sg_next bind].
  unfold int_sub. rewrite (to_int_small (exit_xfer_len e - sg_dma_len sl))
    by (unfold seg_ok, INT_MAX in *; lia).
  set (last := base + n * sz).
  set (mem1 := <[last := set_ddadr (DDADR_STOP M) (exit_mem e !!! last)]>
                 (exit_mem e)).
  set (mem2 := <[last := set_dcmd _ (mem1 !!! last)]> mem1).
  assert (Hsz0 : 0 < sz) by (destruct Hblk as (? & _); assumption).
  assert (Hother : forall a, a <> last -> mem2 !! a = exit_mem e !! a).
  { intros a Ha. unfold mem2, mem1.
    rewrite !lookup_insert_ne by congruence. reflexivity. }
  assert (Hdata : forall (k : nat) s x, sg !! k = Some s -> L !! k = Some x ->
            mem2 !! (base + Z.of_nat k * sz)
            = Some (data_desc M res_start cibr s
                      (match k with O => ofs | S _ => 0 end) x
                      (base + (Z.of_nat k + 1) * sz))).
  { intros k s x Hs Hx.
    assert (k < length L)%nat by (apply lookup_lt_Some in Hx; exact Hx).
    rewrite Hother by (unfold last; subst n; nia).
    specialize (Hmem k s x Hs Hx). rewrite Z.add_0_l in Hmem. exact Hmem. }
  assert (Hend : exists d, mem2 !! last = Some d /\
                   ddadr d = DDADR_STOP M /\ dcmd d = DCMD_END M).
  { eexists. split; [unfold mem2; apply lookup_insert_eq|].
    unfold mem1. rewrite lookup_total_insert_eq. split; reflexivity. }
  assert (Hframe : forall a, (forall k : nat, (k <= length L)%nat ->
                       a <> base + Z.of_nat k * sz) ->
                     mem2 !! a = mem !! a).
  { intros a Ha. rewrite Hother by (apply (Ha (length L)); lia).
    apply Hfr. intros k Hk. rewrite Z.add_0_l. apply Ha. lia. }
  assert (Hcurs : forall c, c = next_cursor sg (length L - 1) (sg_dma_len sl)
                                  (exit_xfer_len e) ->
            exists s x, sg !! (length L - 1)%nat = Some s /\
                 L !! (length L - 1)%nat = Some x /\
                 c = next_cursor sg (length L - 1) (sg_dma_len s) x)
    by (intros c ->; eauto).
  unfold next_cursor in Hcurs.
  destruct (sg_dma_len sl <=? exit_xfer_len e);
    (eexists; split; [reflexivity|]; cbn;
     repeat (split; [first [reflexivity | lia | assumption]|]);
     apply Hcurs; rewrite ?Hdrop; reflexivity).
Qed.

Lemma xfer_lens_range n : forall sg ofs size (k : nat) s x,
  (0 < n)%nat -> sg <> [] ->
  Forall seg_ok (take n sg) -> cursor_ok sg ofs ->
  0 <= size <= INT_MAX ->
  size <= total_len (take n sg) - ofs ->
  sg !! k = Some s -> xfer_lens sg ofs size !! k = Some x ->
  0 <= x <= round_up8 (sg_dma_len s).
Proof.
  induction n as [|n IH];
    intros sg ofs size k s x Hn Hsg Hok Hcur Hsz Hcov Hs Hx; [lia|].
  destruct sg as [|s0 rest]; [congruence|].
  rewrite firstn_cons in Hok, Hcov.
  apply Forall_cons in Hok as [Hs0 Hok].
  destruct Hcur as [Ho0 Ho]. specialize (Ho s0 eq_refl).
  change (total_len (s0 :: take n rest))
    with (sg_dma_len s0 + total_len (take n rest)) in Hcov.
  cbn [xfer_lens] in Hx.
  pose proof (round_up8_bounds (Z.min (sg_dma_len s0 - ofs) size)) as B.
  assert (Hmono : round_up8 (Z.min (sg_dma_len s0 - ofs) size)
                  <= round_up8 (sg_dma_len s0)).
  { unfold round_up8. apply Z.mul_le_mono_nonneg_l; [lia|].
    apply Z.div_le_mono; lia. }
  set (x0 := round_up8 (Z.min (sg_dma_len s0 - ofs) size)) in *.
  destruct k as [|k].
  - injection Hs as <-.
    assert (x = x0) as ->
      by (destruct (size - x0 <=? 0); simpl in Hx; congruence).
    unfold seg_ok in Hs0. lia.
  - destruct (size - x0 <=? 0) eqn:Hle; simpl in Hx; [discriminate|].
    apply Z.leb_gt in Hle. simpl in Hs.
    assert (Hcov' : size - x0 <= total_len (take n rest) - 0) by lia.
    assert (Hn' : (0 < n)%nat).
    { destruct n; [|lia]. simpl in Hcov'. lia. }
    assert (Hrest : rest <> []).
    { intros ->. rewrite firstn_nil in Hcov'. simpl in Hcov'. lia. }
    assert (Hcur' : cursor_ok rest 0).
    { split; [lia|]. intros s' Hs'. destruct rest as [|s'' r]; [discriminate|].
      injection Hs' as <-. destruct n; [lia|].
      rewrite firstn_cons in Hok. apply Forall_cons in Hok as [Hs'' _].
      unfold seg_ok in Hs''. lia. }
    unfold seg_ok, INT_MAX in *.
    apply (IH rest 0 (size - x0) k s x); try assumption. lia.
Qed.

Lemma dcmd_len_field flags x :
  (exists w, 0 <= w <= 32 /\ DCMD_LENGTH M = Z.ones w) ->
  Z.land flags (DCMD_LENGTH M) = 0 ->
  0 <= x <= DCMD_LENGTH M ->
  Z.land (to_u32 (Z.lor flags x)) (DCMD_LENGTH M) = x.
Proof.
  intros (w & Hw & Hlen) Hfl Hx. rewrite Hlen in *.
  unfold to_u32. rewrite Z.land_ones by lia.
  rewrite Z.mod_mod_divide.
  - rewrite <- Z.land_ones by lia.
    rewrite Z.land_lor_distr_l, Hfl, Z.lor_0_l.
    rewrite Z.land_ones by lia. apply Z.mod_small.
    rewrite Z.ones_equiv in Hx. lia.
  - exists (2 ^ (32 - w)). rewrite <- Z.pow_add_r by lia. f_equal. lia.
Qed.

Lemma follow_linked mem base n :
  chain_linked M mem base n ->
  forall (k : nat) j, 0 <= j -> j + Z.of_nat k <= n ->
    follow mem k (desc_addr M base j) = desc_addr M base (j + Z.of_nat k).
Proof.
  intros Hl. induction k as [|k IH]; intros j Hj Hjk.
  - simpl. f_equal. lia.
  - cbn [follow]. rewrite Hl by lia. rewrite IH by lia. f_equal. lia.
Qed.

Lemma follow_succ mem (k : nat) a :
  follow mem (S k) a = ddadr (mem !!! follow mem k a).
Proof.
  revert a. induction k as [|k IH]; intros a; [reflexivity|].
  change (follow mem (S (S k)) a)
    with (follow mem (S k) (ddadr (mem !!! a))).
  rewrite IH. reflexivity.
Qed.

Lemma follow_stop mem base n :
  chain_linked M mem base n ->
  0 <= n ->
  ddadr (mem !!! desc_addr M base n) = DDADR_STOP M ->
  follow mem (Z.to_nat n + 1) (desc_addr M base 0) = DDADR_STOP M.
Proof.
  intros Hl Hn Hstop.
  replace (Z.to_nat n + 1)%nat with (S (Z.to_nat n)) by lia.
  rewrite follow_succ, (follow_linked mem base n Hl) by lia.
  replace (0 + Z.of_nat (Z.to_nat n)) with n by lia. exact Hstop.
Qed.

(** C9: when the [sglen] segments reachable from the start cursor hold at
    least [size] bytes, the walk of [calculate_dma_sglen] brings the
    remaining size to exactly 0 at some segment [i < sglen], so that
    [BUG_ON(size != 0)] does not fire and the function returns [i + 1], a
    count between 1 and the number of segments. *)
Theorem calculate_dma_sglen_covered sglist sglen ofs size :
  0 < sglen <= INT_MAX ->
  sglist <> [] ->
  Forall seg_ok (take (Z.to_nat sglen) sglist) ->
  cursor_ok sglist ofs ->
  0 <= size <= INT_MAX ->
  size <= total_len (take (Z.to_nat sglen) sglist) - ofs ->
  exists i,
    calculate_dma_sglen_loop (Z.to_nat sglen) sglist 0 ofs size
      = Done (i, 0) /\
    calculate_dma_sglen sglist sglen ofs size = Done (i + 1) /\
    0 <= i < sglen /\
    1 <= i + 1 <= Z.min sglen (Z.of_nat (length sglist)).
Proof.
  intros Hn Hsg Hok Hcur Hsz Hcov.
  destruct (calculate_dma_sglen_loop_spec (Z.to_nat sglen) sglist 0 ofs size)
    as [HL Hcalc]; try assumption; try lia.
  pose proof (xfer_lens_length_le sglist ofs size) as Hle.
  set (L := xfer_lens sglist ofs size) in *.
  exists (Z.of_nat (length L) - 1).
  replace (0 + Z.of_nat (length L) - 1) with (Z.of_nat (length L) - 1)
    in Hcalc by lia.
  split; [exact Hcalc|].
  unfold calculate_dma_sglen. rewrite Hcalc. cbn [bind Z.eqb].
  unfold int_add. rewrite to_int_small by (unfold INT_MAX in *; lia).
  repeat split; lia.
Qed.

(** C1, as amended: a call of the chain builder for [size > 0] bytes over
    segments that cover the request, each of them short enough for the
    length field of [dcmd] once rounded up to 8, returns 0 and builds
    descriptors whose length fields sum to at least [size] and at most
    [size + 7]; the length of
    descriptor [k] is the minimum of what is left of segment [k] and of the
    bytes still to transfer, rounded up to the next multiple of 8; the
    descriptor that ends the chain carries length 0. *)
Theorem pxa_init_dma_channel_lengths res_start base pxa_dma mem dma_sglen
    cibr size cur :
  dcmd_layout_ok M ->
  0 < size <= INT_MAX ->
  0 < dma_sglen <= INT_MAX ->
  Forall (fun s => seg_ok s /\ round_up8 (sg_dma_len s) <= DCMD_LENGTH M)
         (take (Z.to_nat dma_sglen) (sg_first cur)) ->
  cursor_ok (sg_first cur) (sg_first_ofs cur) ->
  size <= total_len (take (Z.to_nat dma_sglen) (sg_first cur))
          - sg_first_ofs cur ->
  block_ok M base dma_sglen ->
  exists out,
    pxa_init_dma_channel M res_start (Some base) pxa_dma mem dma_sglen
      cibr size cur = Done out /\
    out_ret out = 0 /\
    let lens := map (dcmd_len M)
                    (chain_descs M (out_mem out) (out_dma out)) in
    Z.of_nat (length lens) = sglen (out_dma out) /\
    size <= sum_list lens <= size + 7 /\
    (forall (k : nat) len, lens !! k = Some len ->
       len = round_up8
               (Z.min (seg_remaining (sg_first cur) (sg_first_ofs cur) k)
                      (size - sum_list (take k lens)))) /\
    dcmd_len M (out_mem out !!! desc_addr M (sg_dma (out_dma out))
                                   (sglen (out_dma out))) = 0.
Proof.
  intros (Hw & Hdata & Hend) Hsz Hn Hok Hcur Hcov Hblk.
  assert (Hok' : Forall seg_ok (take (Z.to_nat dma_sglen) (sg_first cur)))
    by (eapply Forall_impl; [exact Hok|]; intros s [H _]; exact H).
  assert (Hsg : sg_first cur <> []).
  { intros E. rewrite E in Hcov. rewrite firstn_nil in Hcov.
    destruct Hcur as [? _]. simpl in Hcov. lia. }
  destruct (pxa_init_dma_channel_spec res_start base pxa_dma mem dma_sglen
              cibr size cur)
    as (out & Hrun & Hret & Hdma & _ & Hlen & Hrange & Hmem & Hstop & _);
    try assumption; try lia.
  set (sg := sg_first cur) in *. set (ofs := sg_first_ofs cur) in *.
  set (L := xfer_lens sg ofs size) in *.
  exists out. split; [exact Hrun|]. split; [exact Hret|].
  assert (HLle := xfer_lens_length_le sg ofs size). fold L in HLle.
  assert (Hlens : map (dcmd_len M)
                    (chain_descs M (out_mem out) (out_dma out)) = L).
  { apply list_eq. intros k. unfold chain_descs.
    rewrite Hlen, Hdma, Nat2Z.id.
    change (map (dcmd_len M)) with (fmap (M:=list) (dcmd_len M)).
    change (map (fun k => out_mem out !!! desc_addr M base (Z.of_nat k)))
      with (fmap (M:=list)
              (fun k => out_mem out !!! desc_addr M base (Z.of_nat k))).
    rewrite !list_lookup_fmap.
    destruct (decide (k < length L)%nat) as [Hk|Hk].
    - rewrite lookup_seq_lt by exact Hk. cbn.
      destruct (lookup_lt_is_Some_2 L k Hk) as [x Hx].
      destruct (lookup_lt_is_Some_2 sg k ltac:(lia)) as [s Hs].
      rewrite (desc_addr_small base dma_sglen) by (assumption || lia).
      rewrite (lookup_total_correct _ _ _ (Hmem k s x Hs Hx)).
      rewrite Hx. f_equal. unfold dcmd_len, data_desc. cbn.
      apply dcmd_len_field; try assumption.
      assert (Hs' : seg_ok s /\ round_up8 (sg_dma_len s) <= DCMD_LENGTH M).
      { apply (Forall_lookup_1 _ _ k _ Hok).
        apply lookup_take_Some. split; [exact Hs|lia]. }
      pose proof (xfer_lens_range (Z.to_nat dma_sglen) sg ofs size k s x)
        as Hr.
      specialize (Hr ltac:(lia) Hsg Hok' Hcur ltac:(lia) Hcov Hs Hx). lia.
    - rewrite lookup_seq_ge by lia. cbn.
      symmetry. apply lookup_ge_None. lia. }
  cbv zeta. rewrite Hlens.
  split; [lia|]. split.
  { apply (xfer_lens_sum (Z.to_nat dma_sglen)); try assumption; lia. }
  split; [apply xfer_lens_nth|].
  rewrite Hdma, Hlen.
  rewrite (desc_addr_small base dma_sglen) by (assumption || lia).
  destruct Hstop as (d & Hd & _ & Hcmd).
  rewrite (lookup_total_correct _ _ _ Hd). unfold dcmd_len. rewrite Hcmd.
  unfold DCMD_END.
  rewrite <- (Z.lor_0_r (Z.lor (Z.lor _ _) _)).
  apply dcmd_len_field; try assumption.
  destruct Hw as (w & Hw & ->). rewrite Z.ones_equiv.
  pose proof (Z.pow_pos_nonneg 2 w ltac:(lia) ltac:(lia)). lia.
Qed.

(** C4: in a chain built by [pxa_init_dma_channel] descriptor [i] links
    to descriptor [i + 1], the descriptor after the [sglen] data
    descriptors links to [DDADR_STOP], and from the head of the chain the
    stop marker is reached after exactly [sglen + 1] hops, one per
    descriptor, and not before. *)
Theorem pxa_init_dma_channel_chain_stops res_start base pxa_dma mem
    dma_sglen cibr size cur :
  0 < dma_sglen <= INT_MAX ->
  sg_first cur <> [] ->
  Forall seg_ok (take (Z.to_nat dma_sglen) (sg_first cur)) ->
  cursor_ok (sg_first cur) (sg_first_ofs cur) ->
  0 <= size <= INT_MAX ->
  size <= total_len (take (Z.to_nat dma_sglen) (sg_first cur))
          - sg_first_ofs cur ->
  block_ok M base dma_sglen ->
  (forall k, 0 <= k <= dma_sglen -> desc_addr M base k <> DDADR_STOP M) ->
  exists out,
    pxa_init_dma_channel M res_start (Some base) pxa_dma mem dma_sglen
      cibr size cur = Done out /\
    out_ret out = 0 /\
    let head := sg_dma (out_dma out) in
    let n := sglen (out_dma out) in
    1 <= n <= dma_sglen /\
    chain_linked M (out_mem out) head n /\
    ddadr (out_mem out !!! desc_addr M head n) = DDADR_STOP M /\
    follow (out_mem out) (Z.to_nat n + 1) head = DDADR_STOP M /\
    forall k : nat, (k <= Z.to_nat n)%nat ->
      follow (out_mem out) k head = desc_addr M head (Z.of_nat k) /\
      follow (out_mem out) k head <> DDADR_STOP M.
Proof.
  intros Hn Hsg Hok Hcur Hsz Hcov Hblk Hnostop.
  destruct (pxa_init_dma_channel_spec res_start base pxa_dma mem dma_sglen
              cibr size cur)
    as (out & Hrun & Hret & Hdma & _ & Hlen & Hrange & Hmem & Hstop & _);
    try assumption.
  set (sg := sg_first cur) in *. set (ofs := sg_first_ofs cur) in *.
  set (L := xfer_lens sg ofs size) in *.
  assert (HLle := xfer_lens_length_le sg ofs size). fold L in HLle.
  exists out. split; [exact Hrun|]. split; [exact Hret|].
  cbv zeta. rewrite Hdma, Hlen.
  assert (Hhead : desc_addr M base 0 = base).
  { rewrite (desc_addr_small base dma_sglen) by (assumption || lia). lia. }
  assert (Hlinked : chain_linked M (out_mem out) base (Z.of_nat (length L))).
  { intros k Hk.
    destruct (lookup_lt_is_Some_2 L (Z.to_nat k) ltac:(lia)) as [x Hx].
    destruct (lookup_lt_is_Some_2 sg (Z.to_nat k) ltac:(lia)) as [s Hs].
    specialize (Hmem _ _ _ Hs Hx). rewrite Z2Nat.id in Hmem by lia.
    rewrite !(desc_addr_small base dma_sglen) by (assumption || lia).
    rewrite (lookup_total_correct _ _ _ Hmem). reflexivity. }
  assert (Hlast : ddadr (out_mem out !!! desc_addr M base
                                           (Z.of_nat (length L)))
                  = DDADR_STOP M).
  { rewrite (desc_addr_small base dma_sglen) by (assumption || lia).
    destruct Hstop as (d & Hd & Hdd & _).
    rewrite (lookup_total_correct _ _ _ Hd). exact Hdd. }
  split; [exact Hrange|]. split; [exact Hlinked|]. split; [exact Hlast|].
  split.
  - rewrite <- Hhead at 1. apply follow_stop; [exact Hlinked|lia|exact Hlast].
  - intros k Hk.
    assert (E : follow (out_mem out) k base
                = desc_addr M base (Z.of_nat k)).
    { rewrite <- Hhead at 1.
      rewrite (follow_linked _ _ _ Hlinked) by lia. f_equal. }
    split; [exact E|]. rewrite E. apply Hnostop. lia.
Qed.

(** The boundary rule in general.  When the last descriptor transfers
    exactly what is left of its segment, the builder hands over the
    following segment at offset 0 if that descriptor starts at offset 0 of
    its segment; if the whole plane lies in one segment that it entered at an
    offset above 0, the builder hands back that same segment, at an offset
    equal to the transfer length. *)
Lemma pxa_init_dma_channel_boundary res_start base pxa_dma mem dma_sglen
    cibr size cur :
  0 < dma_sglen <= INT_MAX ->
  sg_first cur <> [] ->
  Forall seg_ok (take (Z.to_nat dma_sglen) (sg_first cur)) ->
  cursor_ok (sg_first cur) (sg_first_ofs cur) ->
  0 <= size <= INT_MAX ->
  size <= total_len (take (Z.to_nat dma_sglen) (sg_first cur))
          - sg_first_ofs cur ->
  block_ok M base dma_sglen ->
  let sg := sg_first cur in
  let ofs := sg_first_ofs cur in
  let L := xfer_lens sg ofs size in
  let last := (length L - 1)%nat in
  L !! last = Some (seg_remaining sg ofs last) ->
  exists out,
    pxa_init_dma_channel M res_start (Some base) pxa_dma mem dma_sglen
      cibr size cur = Done out /\
    out_cursor out
    = if (last =? 0)%nat && (0 <? ofs)
      then {| sg_first := sg; sg_first_ofs := seg_remaining sg ofs last |}
      else {| sg_first := drop (S last) sg; sg_first_ofs := 0 |}.
Proof.
  intros Hn Hsg Hok Hcur Hsz Hcov Hblk sg ofs L last Hb.
  destruct (pxa_init_dma_channel_spec res_start base pxa_dma mem dma_sglen
              cibr size cur)
    as (out & Hrun & _ & _ & _ & _ & _ & _ & _ & _ & (s & x & Hs & Hx & Hc));
    try assumption.
  fold sg ofs L last in Hs, Hx, Hc.
  exists out. split; [exact Hrun|]. rewrite Hc.
  rewrite Hb in Hx. injection Hx as <-.
  unfold seg_remaining, next_cursor. rewrite Hs.
  destruct Hcur as [Ho0 _]. fold ofs in Ho0.
  destruct last as [|l]; cbn [Nat.eqb andb].
  - destruct (0 <? ofs) eqn:Hpos.
    + apply Z.ltb_lt in Hpos.
      destruct (sg_dma_len s <=? sg_dma_len s - ofs) eqn:Hle;
        [apply Z.leb_le in Hle; lia|].
      reflexivity.
    + apply Z.ltb_ge in Hpos. assert (ofs = 0) as -> by lia.
      rewrite Z.sub_0_r, Z.leb_refl. f_equal. lia.
  - rewrite Z.sub_0_r, Z.leb_refl. f_equal. lia.
Qed.

End BuilderProofs.

(** C2, at a plane that ends exactly on the end of its segment after
    starting inside it: the V plane of the sample frame starts 2048 bytes
    into the second page and transfers the 2048 bytes left of it in one
    descriptor.  [pxa_init_dma_channel] compares the transfer length with the
    whole length of the segment, so it hands back the same segment at offset
    2048, the offset the plane started from, and not the following segment
    at offset 0. *)
Theorem pxa_init_dma_channel_boundary_inside_segment :
  exists out,
    pxa_init_dma_channel pxa27x 0x50000000 (Some 0xa2000000) no_dma ∅ 2
      CIBR2 2048 v_cursor = Done out /\
    out_ret out = 0 /\
    map (dcmd_len pxa27x) (chain_descs pxa27x (out_mem out) (out_dma out))
      = [2048] /\
    seg_remaining (sg_first v_cursor) (sg_first_ofs v_cursor) 0 = 2048 /\
    out_cursor out = v_cursor /\
    out_cursor out <> {| sg_first := []; sg_first_ofs := 0 |}.
Proof.
  eexists. split; [vm_compute; reflexivity|].
  repeat split; try (vm_compute; reflexivity).
  vm_compute. discriminate.
Qed.

(** The cursor [v_cursor] is the one the V plane of the sample frame gets:
    the Y plane (4096 bytes) fills the first page and hands over the second
    page at offset 0, the U plane (2048 bytes) hands over the second page at
    offset 2048. *)
Example v_cursor_after_y_and_u :
  let y := init_out_of
             (pxa_init_dma_channel pxa27x 0x50000000 (Some 0xa2000000)
                no_dma ∅ 2 CIBR0 4096
                {| sg_first := frame_sglist; sg_first_ofs := 0 |}) in
  let u := init_out_of
             (pxa_init_dma_channel pxa27x 0x50000000 (Some 0xa2000100)
                no_dma (out_mem y) 2 CIBR1 2048 (out_cursor y)) in
  out_cursor y = {| sg_first := [page 0xa3004000]; sg_first_ofs := 0 |} /\
  out_cursor u = v_cursor.
Proof. split; vm_compute; reflexivity. Qed.

(** A frame with planes of 4096, 2048 and 2048 bytes over segments of
    2048 bytes: two descriptors for Y, one for U, one for V; each plane ends
    on the end of a segment it entered at offset 0 and hands over the next
    segment at offset 0. *)
Example planes_over_2048_byte_segments :
  let seg a := {| sg_dma_address := a; sg_dma_len := 2048 |} in
  let sgl := [seg 0xa3000000; seg 0xa3000800; seg 0xa3001000;
              seg 0xa3001800] in
  let y := init_out_of
             (pxa_init_dma_channel pxa27x 0x50000000 (Some 0xa2000000)
                no_dma ∅ 4 CIBR0 4096
                {| sg_first := sgl; sg_first_ofs := 0 |}) in
  let u := init_out_of
             (pxa_init_dma_channel pxa27x 0x50000000 (Some 0xa2000100)
                no_dma (out_mem y) 4 CIBR1 2048 (out_cursor y)) in
  let v := init_out_of
             (pxa_init_dma_channel pxa27x 0x50000000 (Some 0xa2000200)
                no_dma (out_mem u) 4 CIBR2 2048 (out_cursor u)) in
  (sglen (out_dma y), sglen (out_dma u), sglen (out_dma v)) = (2, 1, 1) /\
  map (dcmd_len pxa27x) (chain_descs pxa27x (out_mem v) (out_dma y))
    = [2048; 2048] /\
  out_cursor y = {| sg_first := drop 2 sgl; sg_first_ofs := 0 |} /\
  out_cursor u = {| sg_first := drop 3 sgl; sg_first_ofs := 0 |} /\
  out_cursor v = {| sg_first := []; sg_first_ofs := 0 |}.
Proof. repeat split; vm_compute; reflexivity. Qed.

(** *** The builder on the sample frame *)

Ltac sample_side :=
  match goal with
  | |- dcmd_layout_ok _ =>
      split; [exists 13; split; [lia | reflexivity] | split; reflexivity]
  | |- block_ok _ _ _ => unfold block_ok; simpl; lia
  | |- cursor_ok _ _ =>
      split; [simpl; lia | intros ? [= <-]; simpl; lia]
  | |- Forall _ _ =>
      simpl; repeat (constructor || split); vm_compute; discriminate
  | |- _ <> [] => discriminate
  | |- _ => unfold INT_MAX, frame_sglist, page, total_len; simpl; lia
  end.

Lemma calculate_dma_sglen_covered_witness :
  exists i,
    calculate_dma_sglen_loop (Z.to_nat 2) frame_sglist 0 0 4100
      = Done (i, 0) /\
    calculate_dma_sglen frame_sglist 2 0 4100 = Done (i + 1) /\
    0 <= i < 2 /\
    1 <= i + 1 <= Z.min 2 (Z.of_nat (length frame_sglist)).
Proof.
  apply (calculate_dma_sglen_covered frame_sglist 2 0 4100); sample_side.
Defined.

Lemma pxa_init_dma_channel_lengths_witness :
  exists out,
    pxa_init_dma_channel pxa27x 0x50000000 (Some 0xa2000000) no_dma ∅ 2
      CIBR0 4100 {| sg_first := frame_sglist; sg_first_ofs := 0 |}
      = Done out /\
    out_ret out = 0 /\
    let lens := map (dcmd_len pxa27x)
                    (chain_descs pxa27x (out_mem out) (out_dma out)) in
    Z.of_nat (length lens) = sglen (out_dma out) /\
    4100 <= sum_list lens <= 4100 + 7 /\
    (forall (k : nat) len, lens !! k = Some len ->
       len = round_up8
               (Z.min (seg_remaining frame_sglist 0 k)
                      (4100 - sum_list (take k lens)))) /\
    dcmd_len pxa27x (out_mem out !!! desc_addr pxa27x (sg_dma (out_dma out))
                                       (sglen (out_dma out))) = 0.
Proof.
  apply (pxa_init_dma_channel_lengths pxa27x 0x50000000 0xa2000000 no_dma ∅
           2 CIBR0 4100 {| sg_first := frame_sglist; sg_first_ofs := 0 |});
    sample_side.
Defined.

(** C1 as it is worded fails on a segment longer than the length field of
    [dcmd]: one segment of 8192 bytes covers a request of 8192 bytes, the
    builder returns 0, and the length field of the one data descriptor it
    builds reads 0, the length having gone to bit 13 of the command
    word. *)
Lemma pxa_init_dma_channel_lengths_counterexample :
  let cur := {| sg_first := [long_segment]; sg_first_ofs := 0 |} in
  8192 <= total_len (take 1 (sg_first cur)) - sg_first_ofs cur /\
  exists out,
    pxa_init_dma_channel pxa27x 0x50000000 (Some 0xa2000000) no_dma ∅ 1
      CIBR0 8192 cur = Done out /\
    out_ret out = 0 /\
    sglen (out_dma out) = 1 /\
    dcmd (out_mem out !!! 0xa2000000)
      = Z.lor (DCMD_DATA pxa27x) 8192 /\
    map (dcmd_len pxa27x) (chain_descs pxa27x (out_mem out) (out_dma out))
      = [0] /\
    sum_list (map (dcmd_len pxa27x)
                  (chain_descs pxa27x (out_mem out) (out_dma out))) < 8192.
Proof.
  split; [vm_compute; discriminate|].
  eexists. split; [vm_compute; reflexivity|].
  repeat split; vm_compute; reflexivity.
Qed.

Lemma pxa_init_dma_channel_chain_stops_witness :
  exists out,
    pxa_init_dma_channel pxa27x 0x50000000 (Some 0xa2000000) no_dma ∅ 2
      CIBR0 4100 {| sg_first := frame_sglist; sg_first_ofs := 0 |}
      = Done out /\
    out_ret out = 0 /\
    let head := sg_dma (out_dma out) in
    let n := sglen (out_dma out) in
    1 <= n <= 2 /\
    chain_linked pxa27x (out_mem out) head n /\
    ddadr (out_mem out !!! desc_addr pxa27x head n) = DDADR_STOP pxa27x /\
    follow (out_mem out) (Z.to_nat n + 1) head = DDADR_STOP pxa27x /\
    forall k : nat, (k <= Z.to_nat n)%nat ->
      follow (out_mem out) k head = desc_addr pxa27x head (Z.of_nat k) /\
      follow (out_mem out) k head <> DDADR_STOP pxa27x.
Proof.
  apply (pxa_init_dma_channel_chain_stops pxa27x 0x50000000 0xa2000000
           no_dma ∅ 2 CIBR0 4100
           {| sg_first := frame_sglist; sg_first_ofs := 0 |});
    try sample_side.
  intros k Hk. unfold desc_addr, to_u32. simpl.
  rewrite Z.mod_small by lia. lia.
Defined.

(** *** Bits *)

Section Bits.

Lemma land_clear_test x m : Z.land (to_u32 (Z.land x (Z.lnot m))) m = 0.
Proof.
  unfold to_u32. rewrite <- Z.land_ones by lia.
  apply Z.bits_inj'. intros n Hn.
  rewrite !Z.land_spec, Z.lnot_spec, Z.bits_0 by lia.
  destruct (Z.testbit m n); simpl;
    rewrite ?andb_false_r, ?andb_false_l; reflexivity.
Qed.

Lemma bit_set_cleared x m : bit_set (to_u32 (Z.land x (Z.lnot m))) m = false.
Proof. unfold bit_set. rewrite land_clear_test. reflexivity. Qed.

Lemma testbit_bit_set y n :
  0 <= n -> Z.testbit y n = true -> bit_set y (Z.shiftl 1 n) = true.
Proof.
  intros Hn Hy. unfold bit_set.
  destruct (Z.land y (Z.shiftl 1 n) =? 0) eqn:E; [|reflexivity].
  apply Z.eqb_eq in E.
  assert (Z.testbit (Z.land y (Z.shiftl 1 n)) n = true).
  { rewrite Z.land_spec, Hy, Z.shiftl_1_l, Z.pow2_bits_true by lia.
    reflexivity. }
  rewrite E, Z.bits_0 in H. discriminate.
Qed.

Lemma bit_set_lor x a b : bit_set x a = true -> bit_set x (Z.lor a b) = true.
Proof.
  unfold bit_set. intros H.
  destruct (Z.land x (Z.lor a b) =? 0) eqn:E; [|reflexivity].
  apply Z.eqb_eq in E. rewrite Z.land_lor_distr_r in E.
  apply Z.lor_eq_0_iff in E as [E _]. rewrite E in H. discriminate.
Qed.

End Bits.

(** *** Capture start and stop, and the interrupt handlers *)

Section CaptureProofs.

Variable M : mach_dma.

Lemma stop_channels_fold l : forall s,
  exists d,
    foldl (fun s i => with_DCSR (<[dma_chans s !!! i := 0]> (DCSR s)) s) s l
    = with_DCSR d s /\
    forall ch,
      ((DCSR s !!! ch = 0 \/ exists i : nat, In i l /\ dma_chans s !!! i = ch)
       -> d !!! ch = 0) /\
      ((forall i : nat, In i l -> dma_chans s !!! i <> ch)
       -> d !!! ch = DCSR s !!! ch).
Proof.
  induction l as [|i l IH]; intros s.
  - exists (DCSR s). split; [destruct s; reflexivity|].
    intros ch. split; [|reflexivity].
    intros [H|(i & [] & _)]. exact H.
  - cbn [foldl].
    destruct (IH (with_DCSR (<[dma_chans s !!! i := 0]> (DCSR s)) s))
      as (d & Hd & Hch).
    exists d. split; [rewrite Hd; reflexivity|].
    intros ch. destruct (Hch ch) as [Hz Hs]. cbn in Hz, Hs. split.
    + intros [H0|(j & [<-|Hj] & Hjc)].
      * apply Hz. left.
        destruct (decide (dma_chans s !!! i = ch)) as [->|Hne].
        -- apply lookup_total_insert_eq.
        -- rewrite lookup_total_insert_ne by exact Hne. exact H0.
      * apply Hz. left. rewrite Hjc. apply lookup_total_insert_eq.
      * apply Hz. right. eauto.
    + intros Hne. rewrite Hs by (intros j Hj; apply Hne; right; exact Hj).
      apply lookup_total_insert_ne. apply Hne. left. reflexivity.
Qed.

Lemma pxa_dma_stop_channels_spec s :
  exists d,
    pxa_dma_stop_channels s = with_DCSR d s /\
    all_stopped (with_DCSR d s).
Proof.
  unfold pxa_dma_stop_channels, for_channels.
  destruct (stop_channels_fold (seq 0 (Z.to_nat (channels s))) s)
    as (d & Hd & Hch).
  exists d. split; [exact Hd|].
  intros i Hi. cbn in *. apply Hch. right. exists i. split; [|reflexivity].
  apply in_seq. lia.
Qed.

Lemma pxa_camera_stop_capture_spec s :
  exists d,
    pxa_camera_stop_capture s
    = with_active None
        (writel (Z.land (readl s CICR0) (Z.lnot CICR0_ENB)) CICR0
           (with_DCSR d s)) /\
    all_stopped (with_DCSR d s).
Proof.
  unfold pxa_camera_stop_capture.
  destruct (pxa_dma_stop_channels_spec s) as (d & -> & Hd).
  exists d. split; [reflexivity|exact Hd].
Qed.

Lemma cam_start_capture s :
  cam (pxa_camera_start_capture s) !!! CICR0
  = to_u32 (Z.land (Z.lor (cam s !!! CICR0) CICR0_ENB) (Z.lnot CICR0_EOFM)).
Proof.
  unfold pxa_camera_start_capture, writel, readl. cbn.
  rewrite lookup_total_insert_eq.
  rewrite lookup_total_insert_ne by discriminate. reflexivity.
Qed.

Lemma pxa_camera_start_capture_armed s : armed (pxa_camera_start_capture s).
Proof.
  unfold armed, readl. rewrite cam_start_capture. split.
  - apply (testbit_bit_set _ 28); [lia|].
    unfold to_u32. rewrite Z.mod_pow2_bits_low by lia.
    rewrite Z.land_spec, Z.lor_spec, Z.lnot_spec by lia.
    unfold CICR0_ENB. rewrite Z.shiftl_1_l, Z.pow2_bits_true by lia.
    rewrite orb_true_r. reflexivity.
  - apply bit_set_cleared.
Qed.

Lemma first_is_last_not_last (q : list Z) buf :
  In buf q -> last q <> Some buf -> first_is_last q = false.
Proof.
  destruct q as [|a [|b q]]; simpl; intros Hin Hlast.
  - contradiction.
  - destruct Hin as [->|[]]. congruence.
  - reflexivity.
Qed.

(** C10: a DMA interrupt that finds no active buffer writes the status
    it read back to [DCSR(channel)] and does nothing else: the capture
    queue, the tails, the buffers and their channel masks, the
    descriptors and the other registers are as they were. *)
Theorem pxa_camera_dma_irq_no_active channel act_dma s :
  active s = None ->
  let s' := pxa_camera_dma_irq M channel act_dma s in
  s' = with_DCSR (<[channel := DCSR s !!! channel]> (DCSR s)) s /\
  capture s' = capture s /\ active s' = None /\
  sg_tail s' = sg_tail s /\ bufs s' = bufs s /\ descs s' = descs s /\
  DDADR s' = DDADR s /\ cam s' = cam s /\
  (forall ch, DCSR s' !!! ch = DCSR s !!! ch).
Proof.
  intros Hact s'.
  assert (E : s' = with_DCSR (<[channel := DCSR s !!! channel]> (DCSR s)) s).
  { subst s'. unfold pxa_camera_dma_irq. cbn. rewrite Hact.
    repeat (destruct (bit_set _ _); cbn [negb]); reflexivity. }
  rewrite E. cbn. repeat (split; [first [reflexivity | assumption]|]).
  intros ch. destruct (decide (channel = ch)) as [->|Hne].
  - apply lookup_total_insert_eq.
  - apply lookup_total_insert_ne. exact Hne.
Qed.

(** C5: a DMA completion interrupt that reports a FIFO overrun while
    the active buffer is queued and is not the last buffer of the capture
    queue stops all channels and runs the capture start sequence at once;
    the capture queue, the buffers, the descriptors and the tails are
    what they were before the interrupt. *)
Theorem pxa_camera_dma_irq_overrun channel act_dma s buf :
  bit_set (DCSR s !!! channel) (DCSR_BUSERR M) = false ->
  bit_set (DCSR s !!! channel) (DCSR_ENDINTR M) = true ->
  bit_set (readl s CISR) (overrun_mask s) = true ->
  active s = Some buf ->
  In buf (capture s) ->
  last (capture s) <> Some buf ->
  let s' := pxa_camera_dma_irq M channel act_dma s in
  s' = pxa_camera_start_capture
         (pxa_camera_stop_capture
            (with_DCSR (<[channel := DCSR s !!! channel]> (DCSR s)) s)) /\
  capture s' = capture s /\ bufs s' = bufs s /\ descs s' = descs s /\
  sg_tail s' = sg_tail s /\
  all_stopped s' /\ active s' = None /\ armed s'.
Proof.
  intros Hbus Hend Hover Hact Hin Hlast s'.
  assert (E : s' = pxa_camera_start_capture
                     (pxa_camera_stop_capture
                        (with_DCSR (<[channel := DCSR s !!! channel]>
                                      (DCSR s)) s))).
  { subst s'. unfold pxa_camera_dma_irq. cbn.
    rewrite Hbus, (bit_set_lor _ _ _ Hend), Hend, Hact. cbn [negb].
    unfold overrun_mask, readl in Hover. unfold readl. cbn. rewrite Hover.
    rewrite (first_is_last_not_last _ _ Hin Hlast). reflexivity. }
  split; [exact E|].
  destruct (pxa_camera_stop_capture_spec
              (with_DCSR (<[channel := DCSR s !!! channel]> (DCSR s)) s))
    as (d & Hstop & Hall).
  rewrite E. split; [rewrite Hstop; reflexivity|].
  split; [rewrite Hstop; reflexivity|].
  split; [rewrite Hstop; reflexivity|].
  split; [rewrite Hstop; reflexivity|].
  split; [rewrite Hstop; exact Hall|].
  split; [rewrite Hstop; reflexivity|].
  apply pxa_camera_start_capture_armed.
Qed.

Lemma clear_tails_fold l : forall s,
  exists t,
    foldl (fun s i => with_sg_tail (<[i := None]> (sg_tail s)) s) s l
    = with_sg_tail t s /\
    length t = length (sg_tail s) /\
    forall i : nat,
      (sg_tail s !! i = Some None \/ In i l) ->
      (i < length (sg_tail s))%nat -> t !! i = Some None.
Proof.
  induction l as [|j l IH]; intros s.
  - exists (sg_tail s). split; [destruct s; reflexivity|].
    split; [reflexivity|]. intros i [H|[]] _. exact H.
  - cbn [foldl].
    destruct (IH (with_sg_tail (<[j := None]> (sg_tail s)) s))
      as (t & Ht & Hlen & Hi).
    cbn in Hlen, Hi. rewrite length_insert in Hlen, Hi.
    exists t. split; [rewrite Ht; reflexivity|]. split; [exact Hlen|].
    intros i Hor Hlt. apply Hi; [|exact Hlt].
    destruct (decide (i = j)) as [->|Hne].
    + left. apply list_lookup_insert_eq. exact Hlt.
    + destruct Hor as [H|[Heq|Hin]].
      * left. rewrite list_lookup_insert_ne by congruence. exact H.
      * congruence.
      * right. exact Hin.
Qed.

(** [pxa_camera_wakeup] when it takes the last buffer off the queue. *)
Lemma pxa_camera_wakeup_last buf s :
  remove Z.eq_dec buf (capture s) = [] ->
  let s' := pxa_camera_wakeup buf s in
  capture s' = [] /\ active s' = None /\
  channels s' = channels s /\ dma_chans s' = dma_chans s /\
  all_stopped s' /\
  bit_set (readl s' CICR0) CICR0_ENB = false /\
  bufs s' = <[buf := mark_done (tod s) (bufs s !!! buf)]> (bufs s) /\
  length (sg_tail s') = length (sg_tail s) /\
  forall i : nat, (i < Z.to_nat (channels s))%nat ->
    (i < length (sg_tail s))%nat -> sg_tail s' !! i = Some None.
Proof.
  intros Hq s'. subst s'. unfold pxa_camera_wakeup. cbn. rewrite Hq.
  match goal with
  | |- context [pxa_camera_stop_capture ?x] =>
      destruct (pxa_camera_stop_capture_spec x) as (d & -> & Hall)
  end.
  unfold for_channels.
  match goal with
  | |- context [foldl _ ?x ?l] =>
      destruct (clear_tails_fold l x) as (t & -> & Hlen & Ht)
  end.
  cbn in *.
  repeat (split;
          [first [reflexivity | exact Hall | exact Hlen
                 | unfold readl; cbn; rewrite lookup_total_insert_eq;
                   apply bit_set_cleared]|]).
  intros i Hi Hlt. apply Ht; [|exact Hlt]. right. apply in_seq. lia.
Qed.

(** [pxa_camera_wakeup] when buffers remain: the next one is active. *)
Lemma pxa_camera_wakeup_next buf s next rest :
  remove Z.eq_dec buf (capture s) = next :: rest ->
  pxa_camera_wakeup buf s
  = with_active (Some next)
      (with_bufs (<[buf := mark_done (tod s) (bufs s !!! buf)]> (bufs s))
         (with_capture (next :: rest) s)).
Proof.
  intros Hq. unfold pxa_camera_wakeup. cbn. rewrite Hq. reflexivity.
Qed.

Lemma dma_stopped_fold (s : machine) l :
  (forall i : nat, In i l ->
     DDADR s !!! (dma_chans s !!! i) = DDADR_STOP M) ->
  foldl (fun (stopped : bool) (i : nat) =>
           if DDADR s !!! (dma_chans s !!! i) =? DDADR_STOP M
           then stopped else false) true l = true.
Proof.
  induction l as [|i l IH]; intros H; [reflexivity|].
  cbn [foldl]. rewrite (H i) by (left; reflexivity).
  rewrite Z.eqb_refl. apply IH. intros j Hj. apply H. right. exact Hj.
Qed.

Lemma pxa_camera_check_link_miss_stopped s buf :
  active s = Some buf -> dma_stopped M s ->
  pxa_camera_check_link_miss M s = pxa_camera_start_capture s.
Proof.
  intros Hact Hst. unfold pxa_camera_check_link_miss. rewrite Hact.
  rewrite dma_stopped_fold; [reflexivity|].
  intros i Hi. apply Hst. apply in_seq in Hi. lia.
Qed.

(** The link-miss check changes the camera interface's registers only. *)
Lemma pxa_camera_check_link_miss_frame s :
  exists c, pxa_camera_check_link_miss M s = with_cam c s /\
            (c = cam s \/ armed (with_cam c s)).
Proof.
  unfold pxa_camera_check_link_miss.
  destruct (active s); [destruct (foldl _ _ _)|].
  - eexists. split; [reflexivity|]. right.
    apply pxa_camera_start_capture_armed.
  - exists (cam s). split; [destruct s; reflexivity|]. left. reflexivity.
  - exists (cam s). split; [destruct s; reflexivity|]. left. reflexivity.
Qed.

(** C6: when a DMA completion interrupt empties the active buffer's
    channel mask, the buffer is retired and the link-miss check runs on
    the state the retirement left.  If then every channel's [DDADR] is at
    the stop marker and the capture queue is not empty, the capture start
    sequence runs again with the head of the queue as the active buffer;
    the queue is the one the retirement left: the check removes and adds
    nothing. *)
Theorem pxa_camera_dma_irq_link_miss channel act_dma s buf :
  bit_set (DCSR s !!! channel) (DCSR_BUSERR M) = false ->
  bit_set (DCSR s !!! channel) (DCSR_ENDINTR M) = true ->
  bit_set (readl s CISR) (overrun_mask s)
    && negb (first_is_last (capture s)) = false ->
  active s = Some buf ->
  Z.land (active_dma (bufs s !!! buf)) (Z.lnot act_dma) = 0 ->
  let retired :=
    pxa_camera_wakeup buf
      (with_bufs (<[buf := set_active_dma 0 (bufs s !!! buf)]> (bufs s))
         (with_DCSR (<[channel := DCSR s !!! channel]> (DCSR s)) s)) in
  let s' := pxa_camera_dma_irq M channel act_dma s in
  s' = pxa_camera_check_link_miss M retired /\
  capture retired = remove Z.eq_dec buf (capture s) /\
  capture s' = capture retired /\ bufs s' = bufs retired /\
  (dma_stopped M retired -> capture retired <> [] ->
     s' = pxa_camera_start_capture retired /\
     armed s' /\
     active s' = head (capture retired)).
Proof.
  intros Hbus Hend Hover Hact Hmask retired s'.
  assert (E : s' = pxa_camera_check_link_miss M retired).
  { subst s' retired. unfold pxa_camera_dma_irq. cbn.
    rewrite Hbus, (bit_set_lor _ _ _ Hend), Hend, Hact. cbn [negb].
    unfold overrun_mask, readl in Hover. unfold readl. cbn. rewrite Hover.
    rewrite Hmask. cbn [Z.eqb]. reflexivity. }
  assert (Hq : capture retired = remove Z.eq_dec buf (capture s)).
  { subst retired. unfold pxa_camera_wakeup. cbn.
    destruct (remove Z.eq_dec buf (capture s)) eqn:Hr.
    - pose proof (pxa_camera_wakeup_last buf
            (with_bufs (<[buf := set_active_dma 0 (bufs s !!! buf)]> (bufs s))
               (with_DCSR (<[channel := DCSR s !!! channel]> (DCSR s)) s)))
            as Hl.
      cbn in Hl. specialize (Hl Hr). destruct Hl as [Hl _].
      unfold pxa_camera_wakeup in Hl. cbn in Hl. rewrite Hr in Hl.
      exact Hl.
    - reflexivity. }
  destruct (pxa_camera_check_link_miss_frame retired) as (c & Hc & _).
  split; [exact E|]. split; [exact Hq|].
  split; [rewrite E, Hc; reflexivity|].
  split; [rewrite E, Hc; reflexivity|].
  intros Hst Hne. rewrite Hq in Hne |- *.
  destruct (remove Z.eq_dec buf (capture s)) as [|next rest] eqn:Hr;
    [congruence|].
  assert (Hnext : active retired = Some next).
  { subst retired.
    rewrite (pxa_camera_wakeup_next _ _ next rest) by exact Hr.
    reflexivity. }
  rewrite E, (pxa_camera_check_link_miss_stopped _ _ Hnext Hst).
  split; [reflexivity|]. split; [apply pxa_camera_start_capture_armed|].
  exact Hnext.
Qed.

Lemma pxa_camera_wakeup_frame buf s :
  capture (pxa_camera_wakeup buf s) = remove Z.eq_dec buf (capture s) /\
  bufs (pxa_camera_wakeup buf s)
  = <[buf := mark_done (tod s) (bufs s !!! buf)]> (bufs s).
Proof.
  destruct (remove Z.eq_dec buf (capture s)) as [|next rest] eqn:Hr.
  - destruct (pxa_camera_wakeup_last buf s Hr) as (Hc & _ & _ & _ & _ & _ & Hb & _).
    split; assumption.
  - rewrite (pxa_camera_wakeup_next buf s next rest Hr). split; reflexivity.
Qed.

(** The handler on a plain completion: it clears the channel's bit and
    retires the buffer when no bit is left. *)
Lemma pxa_camera_dma_irq_completion channel act_dma s0 h buf :
  dma_completion M h channel s0 ->
  active s0 = Some buf ->
  let s := set_hw h s0 in
  let m := Z.land (active_dma (bufs s0 !!! buf)) (Z.lnot act_dma) in
  let sb := with_bufs (<[buf := set_active_dma m (bufs s0 !!! buf)]> (bufs s0))
              (with_DCSR (<[channel := DCSR s !!! channel]> (DCSR s)) s) in
  pxa_camera_dma_irq M channel act_dma s
  = if m =? 0 then pxa_camera_check_link_miss M (pxa_camera_wakeup buf sb)
    else sb.
Proof.
  intros (Hbus & Hend & Hover) Hact s m sb.
  subst s m sb. unfold pxa_camera_dma_irq. cbn.
  rewrite Hbus, (bit_set_lor _ _ _ Hend), Hend, Hact. cbn [negb].
  unfold overrun_mask in Hover. unfold readl. cbn. rewrite Hover.
  reflexivity.
Qed.

Lemma active_dma_orders a1 a2 a3 :
  [a1; a2; a3] ≡ₚ [DMA_Y; DMA_U; DMA_V] ->
  let m0 := Z.lor DMA_Y (Z.lor DMA_U DMA_V) in
  let m1 := Z.land m0 (Z.lnot a1) in
  let m2 := Z.land m1 (Z.lnot a2) in
  let m3 := Z.land m2 (Z.lnot a3) in
  m1 <> 0 /\ m2 <> 0 /\ m3 = 0.
Proof.
  intros Hp. symmetry in Hp. apply permutations_Permutation in Hp.
  apply list_elem_of_In in Hp. vm_compute in Hp.
  repeat (destruct Hp as [Hp|Hp];
          [injection Hp as <- <- <-; vm_compute; repeat split; discriminate|]).
  contradiction.
Qed.

(** C7: a buffer of a 3-channel device whose three channel bits are set
    is done exactly when the third of the Y, U and V completion interrupts
    has cleared the last bit, in whichever of the six orders they arrive
    and whatever the hardware does to its registers in between: after one
    and after two of them it is still active and queued and nobody was
    woken; after the third it is off the queue, [VIDEOBUF_DONE], and its
    waiters were woken once. *)
Theorem pxa_camera_dma_irq_three_channels s buf a1 a2 a3 c1 c2 c3 h1 h2 h3 :
  channels s = 3 ->
  active s = Some buf ->
  In buf (capture s) ->
  vb_state (bufs s !!! buf) = VIDEOBUF_ACTIVE ->
  active_dma (bufs s !!! buf) = Z.lor DMA_Y (Z.lor DMA_U DMA_V) ->
  [a1; a2; a3] ≡ₚ [DMA_Y; DMA_U; DMA_V] ->
  dma_completion M h1 c1 s ->
  dma_completion M h2 c2 s ->
  dma_completion M h3 c3 s ->
  let s1 := pxa_camera_dma_irq M c1 a1 (set_hw h1 s) in
  let s2 := pxa_camera_dma_irq M c2 a2 (set_hw h2 s1) in
  let s3 := pxa_camera_dma_irq M c3 a3 (set_hw h3 s2) in
  not_done buf s s1 /\ not_done buf s s2 /\ marked_done buf s s3.
Proof.
  intros Hch Hact Hin Hst Hmask Hperm Hc1 Hc2 Hc3 s1 s2 s3.
  destruct (active_dma_orders a1 a2 a3 Hperm) as (Hm1 & Hm2 & Hm3).
  cbv zeta in Hm1, Hm2, Hm3. rewrite <- Hmask in Hm1, Hm2, Hm3.
  (* first interrupt *)
  assert (E1 := pxa_camera_dma_irq_completion c1 a1 s h1 buf Hc1 Hact).
  cbv zeta in E1. fold s1 in E1.
  apply Z.eqb_neq in Hm1. rewrite Hm1 in E1. apply Z.eqb_neq in Hm1.
  assert (Hb1 : bufs s1 !!! buf
                = set_active_dma (Z.land (active_dma (bufs s !!! buf))
                                         (Z.lnot a1)) (bufs s !!! buf)).
  { rewrite E1. cbn. apply lookup_total_insert_eq. }
  assert (Hn1 : not_done buf s s1).
  { unfold not_done. rewrite Hb1. rewrite E1. cbn.
    repeat split; assumption. }
  assert (Hc2' : dma_completion M h2 c2 s1).
  { unfold dma_completion, overrun_mask in *. rewrite E1. cbn. exact Hc2. }
  (* second interrupt *)
  assert (Hact1 : active s1 = Some buf) by (rewrite E1; exact Hact).
  assert (E2 := pxa_camera_dma_irq_completion c2 a2 s1 h2 buf Hc2' Hact1).
  cbv zeta in E2. fold s2 in E2. rewrite Hb1 in E2. cbn in E2.
  apply Z.eqb_neq in Hm2. rewrite Hm2 in E2. apply Z.eqb_neq in Hm2.
  assert (Hb2 : bufs s2 !!! buf
                = set_active_dma
                    (Z.land (Z.land (active_dma (bufs s !!! buf))
                                    (Z.lnot a1)) (Z.lnot a2))
                    (bufs s !!! buf)).
  { rewrite E2. cbn. apply lookup_total_insert_eq. }
  assert (Hn2 : not_done buf s s2).
  { unfold not_done. rewrite Hb2. rewrite E2, E1. cbn.
    repeat split; assumption. }
  assert (Hc3' : dma_completion M h3 c3 s2).
  { unfold dma_completion, overrun_mask in *. rewrite E2, E1. cbn.
    exact Hc3. }
  (* third interrupt *)
  assert (Hact2 : active s2 = Some buf) by (rewrite E2, E1; exact Hact).
  assert (E3 := pxa_camera_dma_irq_completion c3 a3 s2 h3 buf Hc3' Hact2).
  cbv zeta in E3. fold s3 in E3. rewrite Hb2 in E3. cbn in E3.
  rewrite Hm3 in E3. cbn [Z.eqb] in E3.
  split; [exact Hn1|]. split; [exact Hn2|].
  match type of E3 with
  | _ = pxa_camera_check_link_miss M ?r =>
      destruct (pxa_camera_check_link_miss_frame r) as (c & Hc & _);
      rewrite Hc in E3
  end.
  match type of E3 with
  | _ = with_cam c (pxa_camera_wakeup buf ?x) =>
      destruct (pxa_camera_wakeup_frame buf x) as [Hq Hb]
  end.
  unfold marked_done. rewrite E3. cbn. rewrite Hq, Hb.
  rewrite lookup_total_insert_eq. cbn. rewrite lookup_total_insert_eq. cbn.
  repeat split; try reflexivity.
  apply remove_In.
Qed.

(** *** The queue is not empty while a channel runs *)

Lemma all_stopped_not_running s : all_stopped s -> ~ running M s.
Proof.
  intros Hall (i & Hi & Hrun). unfold channel_running in Hrun.
  rewrite (Hall i Hi) in Hrun. discriminate.
Qed.

Lemma queue_inv_same_run s s' : queue_inv M s -> same_run s s' -> queue_inv M s'.
Proof.
  intros Hinv (Hc & Hn & Hd & Hcam & Hdcsr) Hempty.
  rewrite Hc in Hempty. destruct (Hinv Hempty) as [Henb Hrun].
  split.
  - unfold readl in *. rewrite Hcam. exact Henb.
  - intros (i & Hi & Hr). apply Hrun. exists i. split; [lia|].
    unfold channel_running in *. rewrite Hd, Hdcsr in Hr. exact Hr.
Qed.

Lemma queue_inv_quiet s : quiet s -> queue_inv M s.
Proof.
  intros [Henb Hall] _. split; [exact Henb|].
  apply all_stopped_not_running. exact Hall.
Qed.

Lemma add_tail_frame buf n : forall i s s',
  for_channels_from (add_tail_channel M buf) n i s = Done s' ->
  exists t m, s' = with_sg_tail t (with_descs m s) /\
              length t = length (sg_tail s).
Proof.
  induction n as [|n IH]; intros i s s' H.
  - injection H as <-. exists (sg_tail s), (descs s).
    split; [destruct s; reflexivity|reflexivity].
  - cbn [for_channels_from] in H.
    unfold add_tail_channel at 1 in H.
    destruct (sg_cpu _) as [cpu|]; [|discriminate].
    cbn [bind] in H. apply IH in H as (t & m & -> & Hlen).
    cbn in Hlen. rewrite length_insert in Hlen.
    eexists _, _. split; [reflexivity|exact Hlen].
Qed.

Lemma pxa_videobuf_queue_capture buf s s' :
  pxa_videobuf_queue M buf s = Done s' ->
  capture s' = capture s ++ [buf].
Proof.
  unfold pxa_videobuf_queue, pxa_dma_add_tail_buf. intros H.
  destruct (for_channels_from _ _ _ _) as [s2| |] eqn:E; try discriminate.
  apply add_tail_frame in E as (t & m & -> & _).
  cbn in H. destruct (active s); injection H as <-; reflexivity.
Qed.

Lemma start_channels_fold act l : forall s,
  capture
    (foldl (fun s (i : nat) =>
              with_DCSR (<[dma_chans s !!! i := DCSR_RUN M]> (DCSR s))
                (with_DDADR
                   (<[dma_chans s !!! i
                      := sg_dma (dmas (bufs s !!! act) !!! i)]> (DDADR s))
                   s)) s l)
  = capture s.
Proof.
  induction l as [|i l IH]; intros s; [reflexivity|].
  cbn [foldl]. rewrite IH. reflexivity.
Qed.

(** The camera interrupt leaves the queue as it is, whatever it starts. *)
Lemma pxa_camera_irq_frame s r s' :
  pxa_camera_irq M s = Done (r, s') ->
  capture s' = capture s.
Proof.
  unfold pxa_camera_irq. intros H.
  destruct (readl s CISR =? 0); [injection H as <- <-; reflexivity|].
  destruct (bit_set _ CISR_EOF).
  - unfold pxa_dma_start_channels in H. cbn [active with_active with_bufs
      pxa_videobuf_set_actdma bind] in H.
    injection H as <- <-.
    cbn [capture writel with_cam]. unfold for_channels.
    rewrite start_channels_fold. reflexivity.
  - injection H as <- <-. reflexivity.
Qed.

(** The handler returns in every state. *)
Lemma pxa_camera_irq_returns s :
  exists r s', pxa_camera_irq M s = Done (r, s').
Proof.
  unfold pxa_camera_irq.
  destruct (readl s CISR =? 0); [eauto|].
  destruct (bit_set _ CISR_EOF); [|eauto].
  unfold pxa_dma_start_channels.
  cbn [active with_active with_bufs pxa_videobuf_set_actdma bind]. eauto.
Qed.

Lemma same_run_ack s channel :
  same_run s (with_DCSR (<[channel := DCSR s !!! channel]> (DCSR s)) s).
Proof.
  repeat split; try reflexivity. intros ch. cbn.
  destruct (decide (channel = ch)) as [->|Hne].
  - apply lookup_total_insert_eq.
  - apply lookup_total_insert_ne. exact Hne.
Qed.

Lemma pxa_camera_dma_irq_frame channel act_dma s :
  let s' := pxa_camera_dma_irq M channel act_dma s in
  capture s' <> [] \/ quiet s' \/ same_run s s'.
Proof.
  intros s'. subst s'. unfold pxa_camera_dma_irq.
  set (sa := with_DCSR (<[channel := DCSR s !!! channel]> (DCSR s)) s).
  assert (Hsa : same_run s sa) by apply same_run_ack.
  cbv zeta.
  destruct (bit_set _ (DCSR_BUSERR M)); [right; right; exact Hsa|].
  destruct (negb _); [right; right; exact Hsa|].
  destruct (active sa) as [buf|] eqn:Hact; [|right; right; exact Hsa].
  destruct (bit_set _ (DCSR_ENDINTR M)); [|right; right; exact Hsa].
  destruct (bit_set _ _ && negb (first_is_last (capture sa))) eqn:Hover.
  - left. apply andb_true_iff in Hover as [_ Hfl].
    destruct (pxa_camera_stop_capture_spec sa) as (d & -> & _).
    change (capture sa <> []).
    destruct (capture sa) as [|? [|? ?]]; try discriminate.
  - destruct (_ =? 0).
    + match goal with
      | |- context [pxa_camera_wakeup buf ?x] => set (sb := x)
      end.
      destruct (remove Z.eq_dec buf (capture sb)) as [|next rest] eqn:Hr.
      * right. left.
        destruct (pxa_camera_wakeup_last buf sb Hr)
          as (_ & Hnone & _ & _ & Hall & Henb & _).
        unfold pxa_camera_check_link_miss. rewrite Hnone.
        split; assumption.
      * left.
        destruct (pxa_camera_check_link_miss_frame
                    (pxa_camera_wakeup buf sb)) as (c & -> & _).
        rewrite (pxa_camera_wakeup_next buf sb next rest Hr).
        discriminate.
    + right. right. exact Hsa.
Qed.

(** A step keeps [queue_inv] when the camera interface raises its
    interrupt only while it is enabled: the invariant then says that the
    handler finds a buffer queued. *)
Lemma queue_inv_step s s' :
  queue_inv M s -> step M enabled s s' -> queue_inv M s'.
Proof.
  intros Hinv Hstep.
  destruct Hstep as [s buf s' Hnin Hq|s r s' Hen Hirq| |s h Hhw].
  - apply pxa_videobuf_queue_capture in Hq. intros Hempty.
    rewrite Hq in Hempty. destruct (capture s); discriminate.
  - apply pxa_camera_irq_frame in Hirq. intros Hempty.
    rewrite Hirq in Hempty. destruct (Hinv Hempty) as [Hoff _].
    unfold enabled in Hen. congruence.
  - destruct (pxa_camera_dma_irq_frame channel act_dma s) as [Hne|[Hq|Hsame]].
    + intros Hempty. contradiction.
    + apply queue_inv_quiet. exact Hq.
    + apply (queue_inv_same_run s); assumption.
  - destruct Hhw as [Hcam Hrun]. intros Hempty. cbn in Hempty.
    destruct (Hinv Hempty) as [Henb Hnr]. split.
    + unfold readl. cbn. rewrite Hcam. exact Henb.
    + intros (i & Hi & Hr). apply Hnr. exists i. split; [exact Hi|].
      unfold channel_running in *. cbn in Hr. apply Hrun. exact Hr.
Qed.

Lemma reachable_queue_inv s : reachable M enabled s -> queue_inv M s.
Proof.
  intros H. induction H as [s Hidle|s s' _ IH Hstep].
  - destruct Hidle as (_ & _ & Henb & Hnr). intros _. split; assumption.
  - apply (queue_inv_step s); assumption.
Qed.

(** In a state reached that way the camera interrupt, raised while the
    interface is enabled, finds a first buffer to make active. *)
Lemma enabled_queue_not_empty s :
  reachable M enabled s -> enabled s -> capture s <> [].
Proof.
  intros Hreach Hen Hempty.
  destruct (reachable_queue_inv s Hreach Hempty) as [Hoff _].
  unfold enabled in Hen. congruence.
Qed.


End CaptureProofs.

(** *** The sample device runs *)




Example running0_runs :
  running pxa27x running0 /\ capture running0 = [100] /\
  active running0 = Some 100.
Proof.
  split; [exists 0%nat; split; [vm_compute; lia | vm_compute; reflexivity]|].
  split; vm_compute; reflexivity.
Qed.

(** *** The chain linker *)

Section LinkerProofs.

Variable M : mach_dma.

Lemma last_desc_bufs s s' buf j :
  bufs s' = bufs s -> last_desc M s' buf j = last_desc M s buf j.
Proof.
  intros H. unfold last_desc, desc_of, chan_dma. rewrite H. reflexivity.
Qed.

Lemma add_tail_turns buf n : forall i s,
  (forall j : nat, (i <= j < i + n)%nat ->
     sg_cpu (chan_dma s buf j) = Some (sg_dma (chan_dma s buf j))) ->
  exists s',
    for_channels_from (add_tail_channel M buf) n i s = Done s' /\
    linked_turns M buf n i s s'.
Proof.
  induction n as [|n IH]; intros i s Hcpu.
  - exists s. split; [reflexivity|]. unfold linked_turns.
    repeat split; try reflexivity; intros; lia.
  - cbn [for_channels_from]. unfold add_tail_channel at 1.
    fold (chan_dma s buf i). rewrite (Hcpu i) by lia.
    fold (desc_of M s buf i (sglen (chan_dma s buf i))).
    fold (last_desc M s buf i).
    set (last := last_desc M s buf i).
    set (mem1 := <[last := set_ddadr (DDADR_STOP M) (descs s !!! last)]>
                   (descs s)).
    set (mem2 := match sg_tail s !!! i with
                 | Some tail =>
                     <[tail := set_ddadr (sg_dma (chan_dma s buf i))
                                 (mem1 !!! tail)]> mem1
                 | None => mem1
                 end).
    set (si := with_sg_tail (<[i := Some last]> (sg_tail s))
                 (with_descs mem2 s)).
    cbn [bind].
    assert (Hb : bufs si = bufs s) by reflexivity.
    destruct (IH (S i) si) as (s' & Hrun & Hl).
    { intros j Hj. unfold chan_dma. rewrite Hb. apply Hcpu. lia. }
    exists s'. split; [exact Hrun|].
    destruct Hl as (Hbufs & Hch & Hlen & Hout & Hset & Hkeep & Hstop & Htail).
    assert (Hld : forall j, last_desc M si buf j = last_desc M s buf j)
      by (intros j; apply last_desc_bufs; exact Hb).
    assert (Hcd : forall j, chan_dma si buf j = chan_dma s buf j)
      by reflexivity.
    assert (Hti : forall j, j <> i -> sg_tail si !!! j = sg_tail s !!! j).
    { intros j Hj. subst si. cbn.
      apply list_lookup_total_insert_ne. congruence. }
    assert (Hmem2 : forall a, a <> last -> sg_tail s !!! i <> Some a ->
                      mem2 !!! a = descs s !!! a).
    { intros a Ha Ht. subst mem2 mem1.
      destruct (sg_tail s !!! i) as [t|].
      - rewrite lookup_total_insert_ne by congruence.
        rewrite lookup_total_insert_ne by congruence. reflexivity.
      - rewrite lookup_total_insert_ne by congruence. reflexivity. }
    cbn [length] in Hlen. subst si. cbn in Hlen, Hset.
    rewrite length_insert in Hlen, Hset.
    unfold linked_turns. cbv zeta.
    split; [exact Hbufs|]. split; [exact Hch|]. split; [exact Hlen|].
    split; [|split; [|split; [|split]]].
    + intros j Hj. rewrite Hout by lia. apply Hti. lia.
    + intros j Hj Hlt. destruct (decide (j = i)) as [->|Hne].
      * rewrite Hout by lia. cbn.
        apply list_lookup_total_insert_eq. exact Hlt.
      * rewrite Hset by (lia || assumption). rewrite Hld. reflexivity.
    + intros a Ha. rewrite Hkeep.
      * cbn. apply Hmem2; apply (Ha i); lia.
      * intros j Hj. rewrite Hld, Hti by lia. apply Ha. lia.
    + intros j Hj Hd Ht. destruct (decide (j = i)) as [->|Hne].
      * rewrite Hkeep.
        -- cbn. subst mem2 mem1. fold last.
           specialize (Ht i ltac:(lia)). fold last in Ht.
           destruct (sg_tail s !!! i) as [t|].
           ++ rewrite lookup_total_insert_ne by congruence.
              rewrite lookup_total_insert_eq. reflexivity.
           ++ rewrite lookup_total_insert_eq. reflexivity.
        -- intros j Hj'. rewrite Hld, Hti by lia. split.
           ++ intros E. apply (Hd j); [lia|lia|]. symmetry. exact E.
           ++ apply Ht. lia.
      * rewrite <- (Hld j). apply Hstop; [lia| |].
        -- intros j' Hj' Hne'. rewrite !Hld. apply Hd; [lia|exact Hne'].
        -- intros j' Hj'. rewrite Hld, Hti by lia. apply Ht. lia.
    + intros j t Hj Hjt Hl Ho. destruct (decide (j = i)) as [->|Hne].
      * rewrite Hkeep.
        -- cbn. subst mem2. rewrite Hjt.
           rewrite lookup_total_insert_eq. reflexivity.
        -- intros j Hj'. rewrite Hld, Hti by lia. split.
           ++ intros E. apply (Hl j); [lia|]. symmetry. exact E.
           ++ apply Ho; lia.
      * rewrite <- (Hcd j). apply Htail; [lia| | |].
        -- rewrite Hti by exact Hne. exact Hjt.
        -- intros j' Hj'. rewrite Hld. apply Hl. lia.
        -- intros j' Hj' Hne'. rewrite Hti by lia. apply Ho; [lia|exact Hne'].
Qed.

(** C3: [b1] then [b2] are appended to the channels of the device, their
    descriptor arrays being prepared and apart from each other and from the
    tails recorded before.  After the second append, on every channel: the
    descriptor that ends [b2]'s chain links to the stop marker; it is the
    recorded tail; and following the links from the head of [b1]'s chain
    leads to the head of [b2]'s chain, no descriptor passed on the way
    linking to the stop marker. *)
Theorem pxa_dma_add_tail_buf_links s b1 b2 :
  b1 <> b2 ->
  prepared s b1 -> prepared s b2 ->
  (forall j : nat, (j < Z.to_nat (channels s))%nat ->
     chain_linked M (descs s) (sg_dma (chan_dma s b1 j))
                  (sglen (chan_dma s b1 j))) ->
  separate M s [b1; b2] ->
  (forall (j : nat) t, (j < Z.to_nat (channels s))%nat ->
     sg_tail s !!! j = Some t -> outside M s [b1; b2] t) ->
  outside M s [b1; b2] (DDADR_STOP M) ->
  (Z.to_nat (channels s) <= length (sg_tail s))%nat ->
  exists s1 s2,
    pxa_dma_add_tail_buf M b1 s = Done s1 /\
    pxa_dma_add_tail_buf M b2 s1 = Done s2 /\
    forall i : nat, (i < Z.to_nat (channels s))%nat ->
      let head1 := sg_dma (chan_dma s b1 i) in
      let head2 := sg_dma (chan_dma s b2 i) in
      let hops := (Z.to_nat (sglen (chan_dma s b1 i)) + 1)%nat in
      ddadr (descs s2 !!! last_desc M s b2 i) = DDADR_STOP M /\
      sg_tail s2 !!! i = Some (last_desc M s b2 i) /\
      follow (descs s2) hops head1 = head2 /\
      forall k : nat, (k < hops)%nat ->
        ddadr (descs s2 !!! follow (descs s2) k head1) <> DDADR_STOP M.
Proof.
  intros Hne Hp1 Hp2 Hbuilt Hsep Htails Hstop Hlen.
  set (c := Z.to_nat (channels s)) in *.
  destruct (add_tail_turns b1 c 0%nat s) as (s1 & Hrun1 & L1).
  { intros j Hj. apply Hp1. lia. }
  destruct L1 as (Hb1 & Hc1 & Hl1 & _ & Hset1 & Hkeep1 & _ & _).
  destruct (add_tail_turns b2 c 0%nat s1) as (s2 & Hrun2 & L2).
  { intros j Hj. unfold chan_dma. rewrite Hb1. apply Hp2. lia. }
  destruct L2 as (_ & _ & _ & _ & Hset2 & Hkeep2 & Hstop2 & Htail2).
  assert (Hld : forall b j, last_desc M s1 b j = last_desc M s b j)
    by (intros; apply last_desc_bufs; exact Hb1).
  assert (Hidx : forall b j k, In b [b1; b2] -> (j < c)%nat ->
                   0 <= k <= sglen (chan_dma s b j) ->
                   desc_index s [b1; b2] b j k)
    by (intros; repeat split; assumption || lia).
  assert (Hin1 : In b1 [b1; b2]) by (left; reflexivity).
  assert (Hin2 : In b2 [b1; b2]) by (right; left; reflexivity).
  assert (Hlast : forall b j, In b [b1; b2] -> (j < c)%nat ->
            desc_index s [b1; b2] b j (sglen (chan_dma s b j))).
  { intros b j Hb Hj. apply Hidx; try assumption.
    destruct Hb as [<-|[<-|[]]]; [destruct (Hp1 j Hj) as (_ & _ & ?)
                                 |destruct (Hp2 j Hj) as (_ & _ & ?)]; lia. }
  assert (Ht1 : forall j, (j < c)%nat ->
            sg_tail s1 !!! j = Some (last_desc M s b1 j)).
  { intros j Hj. apply Hset1; lia. }
  exists s1, s2.
  split; [exact Hrun1|].
  split; [unfold pxa_dma_add_tail_buf; rewrite Hc1; exact Hrun2|].
  intros i Hi head1 head2 hops.
  destruct (Hp1 i Hi) as (_ & Hr1 & Hn1).
  destruct (Hp2 i Hi) as (_ & Hr2 & Hn2).
  (* the data descriptors of [b1] keep their links *)
  assert (Hdata : forall k, 0 <= k < sglen (chan_dma s b1 i) ->
            descs s2 !!! desc_of M s b1 i k = descs s !!! desc_of M s b1 i k).
  { intros k Hk.
    rewrite Hkeep2, Hkeep1; [reflexivity| |].
    - intros j Hj. split.
      + intros E. apply Hsep in E as (_ & -> & ->);
          [lia|apply Hidx; assumption || lia|apply Hlast; assumption || lia].
      + intros E. apply (Htails j _ ltac:(lia) E b1 i k); [|reflexivity].
        apply Hidx; assumption || lia.
    - intros j Hj. rewrite Hld, Ht1 by lia. split.
      + intros E. apply Hsep in E as (E & _);
          [congruence|apply Hidx; assumption || lia
          |apply Hlast; assumption || lia].
      + intros [= E]. symmetry in E. apply Hsep in E as (_ & -> & ->);
          [lia|apply Hidx; assumption || lia|apply Hlast; assumption || lia]. }
  (* the old tail of the channel, the end of [b1]'s chain, links to [b2] *)
  assert (Hjoin : ddadr (descs s2 !!! last_desc M s b1 i) = head2).
  { rewrite (Htail2 i (last_desc M s b1 i));
      [unfold chan_dma; rewrite Hb1; reflexivity|lia| | |].
    - apply Ht1. exact Hi.
    - intros j Hj. rewrite Hld. intros E. apply Hsep in E as (E & _);
        [congruence|apply Hlast; assumption || lia
        |apply Hlast; assumption || lia].
    - intros j Hj Hji. rewrite Ht1 by lia. intros [= E].
      apply Hsep in E as (_ & E & _);
        [congruence|apply Hlast; assumption || lia
        |apply Hlast; assumption || lia]. }
  assert (Hend : ddadr (descs s2 !!! last_desc M s b2 i) = DDADR_STOP M).
  { rewrite <- (Hld b2 i). apply Hstop2; [lia| |].
    - intros j Hj Hji. rewrite !Hld. intros E. apply Hsep in E as (_ & E & _);
        [congruence|apply Hlast; assumption || lia
        |apply Hlast; assumption || lia].
    - intros j Hj. rewrite Hld, Ht1 by lia. intros [= E].
      apply Hsep in E as (E & _);
        [congruence|apply Hlast; assumption || lia
        |apply Hlast; assumption || lia]. }
  assert (Hhead : forall b, In b [b1; b2] ->
            0 <= sg_dma (chan_dma s b i) < 2 ^ 32 ->
            desc_of M s b i 0 = sg_dma (chan_dma s b i)).
  { intros b _ Hr. unfold desc_of, desc_addr.
    rewrite Z.mul_0_l, Z.add_0_r. apply to_u32_small. exact Hr. }
  assert (Hlinked : chain_linked M (descs s2) head1 (sglen (chan_dma s b1 i))).
  { intros k Hk. change (desc_addr M head1 k) with (desc_of M s b1 i k).
    rewrite Hdata by exact Hk. apply Hbuilt; assumption. }
  assert (Hnode : forall k : nat, (k < hops)%nat ->
            follow (descs s2) k head1 = desc_of M s b1 i (Z.of_nat k)).
  { intros k Hk. unfold head1. rewrite <- (Hhead b1 Hin1 Hr1) at 1.
    unfold desc_of at 1.
    rewrite (follow_linked M _ _ _ Hlinked) by (subst hops; lia).
    reflexivity. }
  split; [exact Hend|].
  split; [rewrite <- (Hld b2 i); apply Hset2; lia|].
  split.
  - subst hops. replace (Z.to_nat (sglen (chan_dma s b1 i)) + 1)%nat
      with (S (Z.to_nat (sglen (chan_dma s b1 i)))) by lia.
    rewrite follow_succ, Hnode by lia.
    rewrite Z2Nat.id by lia. exact Hjoin.
  - intros k Hk. rewrite Hnode by exact Hk.
    destruct (decide (Z.of_nat k = sglen (chan_dma s b1 i))) as [E|E].
    + rewrite E. fold (last_desc M s b1 i). rewrite Hjoin.
      subst head2. rewrite <- (Hhead b2 Hin2 Hr2).
      intros E'. symmetry in E'. revert E'. apply Hstop.
      apply Hidx; assumption || lia.
    + rewrite Hdata by (subst hops; lia).
      unfold desc_of.
      rewrite (Hbuilt i Hi (Z.of_nat k)) by (subst hops; lia).
      intros E'. symmetry in E'. revert E'.
      apply (Hstop b1 i (Z.of_nat k + 1)).
      apply Hidx; try assumption. subst hops. lia.
Qed.

End LinkerProofs.

(** *** The linker and the handlers on the sample states *)

Example two0_chains :
  chan_dma two0 100 0 = {| sg_dma := 0xa2000000; sg_cpu := Some 0xa2000000;
                           sg_size := 48; sglen := 2 |} /\
  chan_dma two0 101 0 = {| sg_dma := 0xa2001000; sg_cpu := Some 0xa2001000;
                           sg_size := 48; sglen := 2 |}.
Proof. split; vm_compute; reflexivity. Qed.

Lemma two0_desc_of buf k :
  In buf [100; 101] -> 0 <= k <= 2 ->
  desc_of pxa27x two0 buf 0 k
  = (if buf =? 100 then 0xa2000000 else 0xa2001000) + k * 16.
Proof.
  intros Hb Hk. unfold desc_of.
  destruct two0_chains as [Ea Eb].
  destruct Hb as [<-|[<-|[]]]; [rewrite Ea|rewrite Eb];
    cbn; unfold desc_addr, to_u32; cbn; apply Z.mod_small; lia.
Qed.

Lemma two0_index buf j k :
  desc_index two0 [100; 101] buf j k ->
  In buf [100; 101] /\ j = 0%nat /\ 0 <= k <= 2.
Proof.
  intros (Hb & Hj & Hk). split; [exact Hb|].
  assert (j = 0%nat) as -> by (cbn in Hj; lia). split; [reflexivity|].
  destruct two0_chains as [Ea Eb].
  destruct Hb as [<-|[<-|[]]]; [rewrite Ea in Hk|rewrite Eb in Hk];
    exact Hk.
Qed.

Lemma pxa_dma_add_tail_buf_links_witness :
  exists s1 s2,
    pxa_dma_add_tail_buf pxa27x 100 two0 = Done s1 /\
    pxa_dma_add_tail_buf pxa27x 101 s1 = Done s2 /\
    forall i : nat, (i < Z.to_nat (channels two0))%nat ->
      let head1 := sg_dma (chan_dma two0 100 i) in
      let head2 := sg_dma (chan_dma two0 101 i) in
      let hops := (Z.to_nat (sglen (chan_dma two0 100 i)) + 1)%nat in
      ddadr (descs s2 !!! last_desc pxa27x two0 101 i) = DDADR_STOP pxa27x /\
      sg_tail s2 !!! i = Some (last_desc pxa27x two0 101 i) /\
      follow (descs s2) hops head1 = head2 /\
      forall k : nat, (k < hops)%nat ->
        ddadr (descs s2 !!! follow (descs s2) k head1) <> DDADR_STOP pxa27x.
Proof.
  apply (pxa_dma_add_tail_buf_links pxa27x two0 100 101).
  - discriminate.
  - intros j Hj. assert (j = 0%nat) as -> by (cbn in Hj; lia).
    rewrite (proj1 two0_chains). cbn. split; [reflexivity|lia].
  - intros j Hj. assert (j = 0%nat) as -> by (cbn in Hj; lia).
    rewrite (proj2 two0_chains). cbn. split; [reflexivity|lia].
  - intros j Hj. assert (j = 0%nat) as -> by (cbn in Hj; lia).
    rewrite (proj1 two0_chains). cbn. intros k Hk.
    assert (k = 0 \/ k = 1) as [-> | ->] by lia; vm_compute; reflexivity.
  - intros b j k b' j' k' Hi Hi' E.
    apply two0_index in Hi as (Hb & -> & Hk).
    apply two0_index in Hi' as (Hb' & -> & Hk').
    rewrite !two0_desc_of in E by assumption.
    destruct Hb as [<-|[<-|[]]]; destruct Hb' as [<-|[<-|[]]];
      cbn in E; repeat split; lia.
  - intros j t Hj. assert (j = 0%nat) as -> by (cbn in Hj; lia).
    discriminate.
  - intros b j k Hi. apply two0_index in Hi as (Hb & -> & Hk).
    rewrite two0_desc_of by assumption.
    destruct Hb as [<-|[<-|[]]]; cbn; lia.
  - cbn. lia.
Defined.

(** The corner case itself: on the device of three channels the interrupt
    of channel 5 has restarted capture after an overrun, and channel 6
    raises its end interrupt with no buffer active.  The status has no bus
    error and has the end interrupt set, so the handler comes to its test of
    [pcdev->active]. *)
Lemma pxa_camera_dma_irq_no_active_witness :
  let s := set_hw late3 restarted3 in
  (capture s = [100; 101] /\
   bit_set (DCSR s !!! 6) (DCSR_BUSERR pxa27x) = false /\
   bit_set (DCSR s !!! 6) (DCSR_ENDINTR pxa27x) = true) /\
  let s' := pxa_camera_dma_irq pxa27x 6 DMA_U s in
  s' = with_DCSR (<[6 := DCSR s !!! 6]> (DCSR s)) s /\
  capture s' = capture s /\ active s' = None /\
  sg_tail s' = sg_tail s /\ bufs s' = bufs s /\
  descs s' = descs s /\
  DDADR s' = DDADR s /\ cam s' = cam s /\
  (forall ch, DCSR s' !!! ch = DCSR s !!! ch).
Proof.
  split; [repeat split; vm_compute; reflexivity|].
  apply (pxa_camera_dma_irq_no_active pxa27x 6 DMA_U
           (set_hw late3 restarted3)).
  vm_compute. reflexivity.
Defined.

Lemma pxa_camera_dma_irq_overrun_witness :
  let s := streaming CISR_IFO_0 0xa2000010 in
  let s' := pxa_camera_dma_irq pxa27x 5 DMA_Y s in
  s' = pxa_camera_start_capture
         (pxa_camera_stop_capture
            (with_DCSR (<[5 := DCSR s !!! 5]> (DCSR s)) s)) /\
  capture s' = capture s /\ bufs s' = bufs s /\ descs s' = descs s /\
  sg_tail s' = sg_tail s /\
  all_stopped s' /\ active s' = None /\ armed s'.
Proof.
  apply (pxa_camera_dma_irq_overrun pxa27x 5 DMA_Y
           (streaming CISR_IFO_0 0xa2000010) 100);
    try (vm_compute; reflexivity).
  - left. reflexivity.
  - vm_compute. discriminate.
Defined.

Lemma pxa_camera_dma_irq_link_miss_witness :
  let s := streaming 0 1 in
  let retired :=
    pxa_camera_wakeup 100
      (with_bufs (<[100 := set_active_dma 0 (bufs s !!! 100)]> (bufs s))
         (with_DCSR (<[5 := DCSR s !!! 5]> (DCSR s)) s)) in
  let s' := pxa_camera_dma_irq pxa27x 5 DMA_Y s in
  s' = pxa_camera_check_link_miss pxa27x retired /\
  capture retired = remove Z.eq_dec 100 (capture s) /\
  capture s' = capture retired /\ bufs s' = bufs retired /\
  (dma_stopped pxa27x retired -> capture retired <> [] ->
     s' = pxa_camera_start_capture retired /\
     armed s' /\
     active s' = head (capture retired)).
Proof.
  apply (pxa_camera_dma_irq_link_miss pxa27x 5 DMA_Y (streaming 0 1) 100);
    vm_compute; reflexivity.
Defined.

Lemma pxa_camera_dma_irq_three_channels_witness :
  let s1 := pxa_camera_dma_irq pxa27x 6 DMA_U (set_hw ended3 three0) in
  let s2 := pxa_camera_dma_irq pxa27x 7 DMA_V (set_hw ended3 s1) in
  let s3 := pxa_camera_dma_irq pxa27x 5 DMA_Y (set_hw ended3 s2) in
  not_done 100 three0 s1 /\ not_done 100 three0 s2 /\
  marked_done 100 three0 s3.
Proof.
  apply (pxa_camera_dma_irq_three_channels pxa27x three0 100
           DMA_U DMA_V DMA_Y 6 7 5 ended3 ended3 ended3);
    try (vm_compute; reflexivity).
  - left. reflexivity.
  - symmetry. apply permutations_Permutation. apply list_elem_of_In.
    vm_compute. repeat (first [left; reflexivity | right]).
  - repeat split; vm_compute; reflexivity.
  - repeat split; vm_compute; reflexivity.
  - repeat split; vm_compute; reflexivity.
Defined.

(** ** Further properties of the chain builder *)

Section BuilderEdges.

Variable M : mach_dma.

Lemma rounded_total_nonneg sg : forall ofs,
  Forall seg_ok sg -> cursor_ok sg ofs -> 0 <= rounded_total sg ofs.
Proof.
  induction sg as [|s rest IH]; intros ofs Hok [Ho0 Ho]; simpl; [lia|].
  apply Forall_cons in Hok as [Hs Hok]. specialize (Ho s eq_refl).
  pose proof (round_up8_bounds (sg_dma_len s - ofs)).
  assert (0 <= rounded_total rest 0).
  { apply IH; [exact Hok|]. split; [lia|].
    intros s' Hs'. destruct rest; [discriminate|]. injection Hs' as <-.
    apply Forall_cons in Hok as [Hs' _]. unfold seg_ok in Hs'. lia. }
  lia.
Qed.

Lemma calculate_dma_sglen_loop_short n : forall sg i ofs size,
  Forall seg_ok sg -> cursor_ok sg ofs ->
  0 <= size <= INT_MAX ->
  rounded_total (take n sg) ofs < size ->
  0 <= i -> i + Z.of_nat n <= INT_MAX ->
  if decide (n <= length sg)%nat
  then exists size', calculate_dma_sglen_loop n sg i ofs size
                     = Done (i + Z.of_nat n, size') /\ 0 < size'
  else calculate_dma_sglen_loop n sg i ofs size = Oops.
Proof.
  induction n as [|n IH]; intros sg i ofs size Hok Hcur Hsz Hshort Hi Hin.
  - rewrite decide_True by lia. exists size. simpl in *.
    split; [f_equal; f_equal; lia|lia].
  - destruct sg as [|s rest].
    + rewrite decide_False by (simpl; lia). reflexivity.
    + rewrite firstn_cons in Hshort. cbn [rounded_total] in Hshort.
      apply Forall_cons in Hok as [Hs Hok].
      destruct Hcur as [Ho0 Ho]. specialize (Ho s eq_refl).
      destruct (turn_arith s ofs size Hs (conj Ho0 Ho) Hsz)
        as (E1 & E2 & E3 & Hx).
      assert (Hcur' : cursor_ok rest 0).
      { split; [lia|]. intros s' Hs'. destruct rest; [discriminate|].
        injection Hs' as <-. apply Forall_cons in Hok as [Hs' _].
        unfold seg_ok in Hs'. lia. }
      assert (Hcur'' : cursor_ok (take n rest) 0).
      { split; [lia|]. intros s' Hs'. destruct Hcur' as [_ Hc]. apply Hc.
        destruct n; [discriminate|]. destruct rest; [discriminate|].
        exact Hs'. }
      pose proof (rounded_total_nonneg (take n rest) 0
                    ltac:(apply Forall_take; exact Hok) Hcur'') as Hnn.
      assert (Hmono : round_up8 (Z.min (sg_dma_len s - ofs) size)
                      <= round_up8 (sg_dma_len s - ofs)).
      { unfold round_up8. apply Z.mul_le_mono_nonneg_l; [lia|].
        apply Z.div_le_mono; lia. }
      cbn [calculate_dma_sglen_loop]. rewrite E2, E3.
      set (x := round_up8 (Z.min (sg_dma_len s - ofs) size)) in *.
      replace (Z.max 0 (size - x)) with (size - x) by lia.
      destruct (size - x =? 0) eqn:Hz; [apply Z.eqb_eq in Hz; lia|].
      unfold int_add. rewrite to_int_small by (unfold INT_MAX in *; lia).
      specialize (IH rest (i + 1) 0 (size - x) Hok Hcur' ltac:(lia)
                    ltac:(lia) ltac:(lia) ltac:(lia)).
      cbn [length].
      destruct (decide (n <= length rest)%nat) as [Hn|Hn].
      * rewrite decide_True by lia. destruct IH as (size' & -> & Hpos).
        exists size'. split; [f_equal; f_equal; lia|exact Hpos].
      * rewrite decide_False by lia. exact IH.
Qed.

(** X1: A scatterlist that, rounded, is shorter than the request: the
    [BUG_ON] of [calculate_dma_sglen] fires when the table has the [sglen]
    entries announced, and the walk leaves the table when it has fewer. *)
Theorem calculate_dma_sglen_short sglist sglen ofs size :
  0 <= sglen <= INT_MAX ->
  Forall seg_ok sglist -> cursor_ok sglist ofs ->
  0 <= size <= INT_MAX ->
  rounded_total (take (Z.to_nat sglen) sglist) ofs < size ->
  calculate_dma_sglen sglist sglen ofs size
  = if decide (Z.to_nat sglen <= length sglist)%nat then BUG else Oops.
Proof.
  intros Hn Hok Hcur Hsz Hshort.
  pose proof (calculate_dma_sglen_loop_short (Z.to_nat sglen) sglist 0 ofs
                size Hok Hcur Hsz Hshort ltac:(lia) ltac:(lia)) as H.
  unfold calculate_dma_sglen.
  destruct (decide (Z.to_nat sglen <= length sglist)%nat).
  - destruct H as (size' & -> & Hpos). cbn [bind].
    destruct (size' =? 0) eqn:E; [apply Z.eqb_eq in E; lia|reflexivity].
  - rewrite H. reflexivity.
Qed.

Lemma calculate_dma_sglen_returns sglist sglen ofs size :
  0 < sglen <= INT_MAX ->
  sglist <> [] ->
  Forall seg_ok (take (Z.to_nat sglen) sglist) ->
  cursor_ok sglist ofs ->
  0 <= size <= INT_MAX ->
  size <= total_len (take (Z.to_nat sglen) sglist) - ofs ->
  exists n, calculate_dma_sglen sglist sglen ofs size = Done n.
Proof.
  intros Hn Hsg Hok Hcur Hsz Hcov.
  destruct (calculate_dma_sglen_loop_spec (Z.to_nat sglen) sglist 0 ofs size)
    as [_ Hcalc]; try assumption; try lia.
  unfold calculate_dma_sglen. rewrite Hcalc. cbn [bind Z.eqb].
  eexists. reflexivity.
Qed.

(** X2: When [dma_alloc_coherent] fails the builder returns [-ENOMEM] with the
    channel's [sg_cpu] set to [NULL] and its [sglen] not yet written;
    descriptor memory and the cursor are what they were.  What the failed
    call leaves in [sg_dma] is the allocator's business and no part of the
    statement. *)
Theorem pxa_init_dma_channel_enomem res_start pxa_dma mem dma_sglen cibr
    size cur :
  0 < dma_sglen <= INT_MAX ->
  sg_first cur <> [] ->
  Forall seg_ok (take (Z.to_nat dma_sglen) (sg_first cur)) ->
  cursor_ok (sg_first cur) (sg_first_ofs cur) ->
  0 <= size <= INT_MAX ->
  size <= total_len (take (Z.to_nat dma_sglen) (sg_first cur))
          - sg_first_ofs cur ->
  exists out,
    pxa_init_dma_channel M res_start None pxa_dma mem dma_sglen cibr size cur
      = Done out /\
    out_ret out = - ENOMEM /\
    sg_cpu (out_dma out) = None /\
    sglen (out_dma out) = sglen pxa_dma /\
    out_mem out = mem /\ out_cursor out = cur.
Proof.
  intros Hn Hsg Hok Hcur Hsz Hcov.
  destruct (calculate_dma_sglen_returns (sg_first cur) dma_sglen
              (sg_first_ofs cur) size) as (n & Hcalc);
    try assumption.
  unfold pxa_init_dma_channel. rewrite Hcalc. cbn [bind].
  eexists. split; [reflexivity|]. repeat split.
Qed.

(** X3: The transfers of a built chain: every data descriptor reads the
    register [res_start + cibr] and writes to its own segment, the first one
    from the cursor's offset on, the others from the start of the
    segment. *)
Theorem pxa_init_dma_channel_targets res_start base pxa_dma mem dma_sglen
    cibr size cur :
  0 < dma_sglen <= INT_MAX ->
  sg_first cur <> [] ->
  Forall seg_ok (take (Z.to_nat dma_sglen) (sg_first cur)) ->
  cursor_ok (sg_first cur) (sg_first_ofs cur) ->
  0 <= size <= INT_MAX ->
  size <= total_len (take (Z.to_nat dma_sglen) (sg_first cur))
          - sg_first_ofs cur ->
  block_ok M base dma_sglen ->
  exists out,
    pxa_init_dma_channel M res_start (Some base) pxa_dma mem dma_sglen
      cibr size cur = Done out /\
    forall (k : nat) s,
      (k < Z.to_nat (sglen (out_dma out)))%nat ->
      sg_first cur !! k = Some s ->
      let d := out_mem out !!! desc_addr M (sg_dma (out_dma out))
                                 (Z.of_nat k) in
      dsadr d = to_u32 (res_start + cibr) /\
      dtadr d = to_u32 (sg_dma_address s
                        + match k with O => sg_first_ofs cur | S _ => 0 end).
Proof.
  intros Hn Hsg Hok Hcur Hsz Hcov Hblk.
  destruct (pxa_init_dma_channel_spec M res_start base pxa_dma mem dma_sglen
              cibr size cur)
    as (out & Hrun & _ & Hdma & _ & Hlen & Hrange & Hmem & _);
    try assumption.
  exists out. split; [exact Hrun|].
  intros k s Hk Hs d. subst d. rewrite Hlen, Nat2Z.id in Hk.
  destruct (lookup_lt_is_Some_2 _ k Hk) as [x Hx].
  rewrite Hdma.
  rewrite (desc_addr_small M base dma_sglen) by (assumption || lia).
  rewrite (lookup_total_correct _ _ _ (Hmem k s x Hs Hx)).
  split; reflexivity.
Qed.

(** X4: The builder writes inside the block of [sglen + 1] descriptors it was
    given and nowhere else. *)
Theorem pxa_init_dma_channel_frame res_start base pxa_dma mem dma_sglen
    cibr size cur :
  0 < dma_sglen <= INT_MAX ->
  sg_first cur <> [] ->
  Forall seg_ok (take (Z.to_nat dma_sglen) (sg_first cur)) ->
  cursor_ok (sg_first cur) (sg_first_ofs cur) ->
  0 <= size <= INT_MAX ->
  size <= total_len (take (Z.to_nat dma_sglen) (sg_first cur))
          - sg_first_ofs cur ->
  block_ok M base dma_sglen ->
  exists out,
    pxa_init_dma_channel M res_start (Some base) pxa_dma mem dma_sglen
      cibr size cur = Done out /\
    forall a,
      ~ (base <= a
         < base + (sglen (out_dma out) + 1) * sizeof_pxa_dma_desc M) ->
      out_mem out !! a = mem !! a.
Proof.
  intros Hn Hsg Hok Hcur Hsz Hcov Hblk.
  destruct (pxa_init_dma_channel_spec M res_start base pxa_dma mem dma_sglen
              cibr size cur)
    as (out & Hrun & _ & Hdma & _ & Hlen & Hrange & _ & _ & Hfr & _);
    try assumption.
  exists out. split; [exact Hrun|].
  intros a Ha. apply Hfr. intros k Hk E. apply Ha. rewrite Hlen.
  destruct Hblk as (Hsz0 & _). nia.
Qed.

End BuilderEdges.

Lemma calculate_dma_sglen_short_witness :
  calculate_dma_sglen frame_sglist 2 0 9000
  = if decide (Z.to_nat 2 <= length frame_sglist)%nat then BUG else Oops.
Proof.
  apply (calculate_dma_sglen_short frame_sglist 2 0 9000);
    first [sample_side | vm_compute; reflexivity].
Defined.

Lemma pxa_init_dma_channel_enomem_witness :
  exists out,
    pxa_init_dma_channel pxa27x 0x50000000 None no_dma ∅ 2 CIBR0 4100
      {| sg_first := frame_sglist; sg_first_ofs := 0 |} = Done out /\
    out_ret out = - ENOMEM /\
    sg_cpu (out_dma out) = None /\
    sglen (out_dma out) = sglen no_dma /\
    out_mem out = ∅ /\
    out_cursor out = {| sg_first := frame_sglist; sg_first_ofs := 0 |}.
Proof.
  apply (pxa_init_dma_channel_enomem pxa27x 0x50000000 no_dma ∅ 2 CIBR0 4100
           {| sg_first := frame_sglist; sg_first_ofs := 0 |}); sample_side.
Defined.

Lemma pxa_init_dma_channel_targets_witness :
  exists out,
    pxa_init_dma_channel pxa27x 0x50000000 (Some 0xa2000000) no_dma ∅ 2
      CIBR0 4100 {| sg_first := frame_sglist; sg_first_ofs := 0 |}
      = Done out /\
    forall (k : nat) s,
      (k < Z.to_nat (sglen (out_dma out)))%nat ->
      frame_sglist !! k = Some s ->
      let d := out_mem out !!! desc_addr pxa27x (sg_dma (out_dma out))
                                 (Z.of_nat k) in
      dsadr d = to_u32 (0x50000000 + CIBR0) /\
      dtadr d = to_u32 (sg_dma_address s
                        + match k with O => 0 | S _ => 0 end).
Proof.
  apply (pxa_init_dma_channel_targets pxa27x 0x50000000 0xa2000000 no_dma ∅
           2 CIBR0 4100 {| sg_first := frame_sglist; sg_first_ofs := 0 |});
    sample_side.
Defined.

Lemma pxa_init_dma_channel_frame_witness :
  exists out,
    pxa_init_dma_channel pxa27x 0x50000000 (Some 0xa2000000) no_dma ∅ 2
      CIBR0 4100 {| sg_first := frame_sglist; sg_first_ofs := 0 |}
      = Done out /\
    forall a,
      ~ (0xa2000000 <= a
         < 0xa2000000 + (sglen (out_dma out) + 1)
                        * sizeof_pxa_dma_desc pxa27x) ->
      out_mem out !! a = (∅ : gmap Z pxa_dma_desc) !! a.
Proof.
  apply (pxa_init_dma_channel_frame pxa27x 0x50000000 0xa2000000 no_dma ∅
           2 CIBR0 4100 {| sg_first := frame_sglist; sg_first_ofs := 0 |});
    sample_side.
Defined.

(** ** Further properties of the capture state machine *)

Section CaptureEdges.

Variable M : mach_dma.

(** X5: A DMA interrupt that reports a bus error, or no end of transfer, is
    acknowledged and nothing else: the queue, the buffers, the chains and
    the camera interface stay as they are. *)
Theorem pxa_camera_dma_irq_ignored channel act_dma s :
  bit_set (DCSR s !!! channel) (DCSR_BUSERR M) = true \/
  bit_set (DCSR s !!! channel) (DCSR_ENDINTR M) = false ->
  pxa_camera_dma_irq M channel act_dma s
  = with_DCSR (<[channel := DCSR s !!! channel]> (DCSR s)) s.
Proof.
  intros H. unfold pxa_camera_dma_irq. cbn.
  destruct H as [H|H]; rewrite H; [reflexivity|].
  destruct (bit_set _ (DCSR_BUSERR M)); [reflexivity|].
  destruct (negb _); [reflexivity|]. destruct (active s); reflexivity.
Qed.

Lemma check_link_miss_idle s :
  active s = None -> pxa_camera_check_link_miss M s = s.
Proof. intros H. unfold pxa_camera_check_link_miss. rewrite H. reflexivity. Qed.

(** X6: An overrun reported with the end of the only queued buffer is a plain
    completion: the buffer is retired, capture stops and is not
    restarted. *)
Theorem pxa_camera_dma_irq_overrun_last channel act_dma s buf :
  bit_set (DCSR s !!! channel) (DCSR_BUSERR M) = false ->
  bit_set (DCSR s !!! channel) (DCSR_ENDINTR M) = true ->
  bit_set (readl s CISR) (overrun_mask s) = true ->
  active s = Some buf ->
  capture s = [buf] ->
  Z.land (active_dma (bufs s !!! buf)) (Z.lnot act_dma) = 0 ->
  let s' := pxa_camera_dma_irq M channel act_dma s in
  capture s' = [] /\ active s' = None /\ all_stopped s' /\
  bit_set (readl s' CICR0) CICR0_ENB = false /\
  vb_state (bufs s' !!! buf) = VIDEOBUF_DONE /\
  vb_done (bufs s' !!! buf) = S (vb_done (bufs s !!! buf)) /\
  descs s' = descs s.
Proof.
  intros Hbus Hend Hover Hact Hq Hmask s'.
  set (sb := with_bufs (<[buf := set_active_dma 0 (bufs s !!! buf)]> (bufs s))
               (with_DCSR (<[channel := DCSR s !!! channel]> (DCSR s)) s)).
  assert (E : s' = pxa_camera_check_link_miss M (pxa_camera_wakeup buf sb)).
  { subst s' sb. unfold pxa_camera_dma_irq. cbn.
    rewrite Hbus, (bit_set_lor _ _ _ Hend), Hend, Hact, Hq. cbn [negb].
    cbn [first_is_last negb]. rewrite andb_false_r.
    rewrite Hmask. cbn [Z.eqb]. reflexivity. }
  assert (Hr : remove Z.eq_dec buf (capture sb) = []).
  { subst sb. cbn. rewrite Hq. cbn.
    destruct (Z.eq_dec buf buf); [reflexivity|contradiction]. }
  destruct (pxa_camera_wakeup_last buf sb Hr)
    as (Hc & Hnone & _ & _ & Hall & Henb & Hb & _).
  rewrite (check_link_miss_idle _ Hnone) in E. rewrite E.
  split; [exact Hc|]. split; [exact Hnone|]. split; [exact Hall|].
  split; [exact Henb|]. rewrite Hb. subst sb. cbn.
  rewrite !lookup_total_insert_eq. cbn.
  split; [reflexivity|]. split; [reflexivity|].
  unfold pxa_camera_wakeup. cbn. rewrite Hq. cbn.
  destruct (Z.eq_dec buf buf); [|contradiction]. cbn.
  unfold for_channels. cbn.
  match goal with
  | |- descs (foldl _ ?x ?l) = _ =>
      destruct (clear_tails_fold l x) as (t & -> & _)
  end.
  cbn. unfold pxa_dma_stop_channels, for_channels.
  match goal with
  | |- descs (foldl _ ?x ?l) = _ =>
      destruct (stop_channels_fold l x) as (d & -> & _)
  end.
  reflexivity.
Qed.

Lemma dma_stopped_fold_false (s : machine) l : forall b,
  (b = false \/
   exists i : nat, In i l /\
     DDADR s !!! (dma_chans s !!! i) <> DDADR_STOP M) ->
  foldl (fun (stopped : bool) (i : nat) =>
           if DDADR s !!! (dma_chans s !!! i) =? DDADR_STOP M
           then stopped else false) b l = false.
Proof.
  induction l as [|i l IH]; intros b H; cbn [foldl].
  - destruct H as [H|(i & [] & _)]. exact H.
  - apply IH. destruct H as [->|(j & [<-|Hj] & Hne)].
    + left. destruct (_ =? _); reflexivity.
    + left. destruct (_ =? _) eqn:E; [|reflexivity].
      apply Z.eqb_eq in E. contradiction.
    + right. eauto.
Qed.

(** X7: The link-miss check restarts nothing while some channel still has a
    descriptor to fetch, or when no buffer is active. *)
Theorem pxa_camera_check_link_miss_no_restart s :
  (active s = None \/
   exists i : nat, (i < Z.to_nat (channels s))%nat /\
     DDADR s !!! (dma_chans s !!! i) <> DDADR_STOP M) ->
  pxa_camera_check_link_miss M s = s.
Proof.
  intros [H|(i & Hi & Hne)]; [apply check_link_miss_idle; exact H|].
  unfold pxa_camera_check_link_miss.
  rewrite dma_stopped_fold_false.
  - destruct (active s); reflexivity.
  - right. exists i. split; [apply in_seq; lia|exact Hne].
Qed.

Lemma start_channels_regs act l : forall s,
  NoDup (map (fun i : nat => dma_chans s !!! i) l) ->
  exists dc dd,
    foldl (fun s (i : nat) =>
             with_DCSR (<[dma_chans s !!! i := DCSR_RUN M]> (DCSR s))
               (with_DDADR
                  (<[dma_chans s !!! i
                     := sg_dma (dmas (bufs s !!! act) !!! i)]> (DDADR s))
                  s)) s l
    = with_DCSR dc (with_DDADR dd s) /\
    (forall i : nat, In i l ->
       dc !!! (dma_chans s !!! i) = DCSR_RUN M /\
       dd !!! (dma_chans s !!! i) = sg_dma (dmas (bufs s !!! act) !!! i)) /\
    (forall ch, (forall i : nat, In i l -> dma_chans s !!! i <> ch) ->
       dc !!! ch = DCSR s !!! ch /\ dd !!! ch = DDADR s !!! ch).
Proof.
  induction l as [|i l IH]; intros s Hnd.
  - exists (DCSR s), (DDADR s). split; [destruct s; reflexivity|].
    split; [intros i []|]. intros ch _. split; reflexivity.
  - cbn [foldl]. cbn [map] in Hnd. apply NoDup_cons in Hnd as [Hni Hnd].
    set (s1 := with_DCSR _ _).
    destruct (IH s1) as (dc & dd & Hf & Hin & Hout); [exact Hnd|].
    exists dc, dd. split; [rewrite Hf; reflexivity|]. split.
    + intros j [<-|Hj].
      * destruct (Hout (dma_chans s !!! i)) as [H1 H2].
        { intros k Hk E. apply Hni. apply list_elem_of_In, in_map_iff.
          exists k. split; [exact E|exact Hk]. }
        rewrite H1, H2. subst s1. cbn.
        rewrite !lookup_total_insert_eq. split; reflexivity.
      * apply (Hin j Hj).
    + intros ch Hne. destruct (Hout ch) as [H1 H2].
      { intros k Hk. apply Hne. right. exact Hk. }
      rewrite H1, H2. subst s1. cbn.
      rewrite !lookup_total_insert_ne by (apply Hne; left; reflexivity).
      split; reflexivity.
Qed.

Lemma start_channels_shape act l : forall s,
  exists dc dd,
    foldl (fun s (i : nat) =>
             with_DCSR (<[dma_chans s !!! i := DCSR_RUN M]> (DCSR s))
               (with_DDADR
                  (<[dma_chans s !!! i
                     := sg_dma (dmas (bufs s !!! act) !!! i)]> (DDADR s))
                  s)) s l
    = with_DCSR dc (with_DDADR dd s).
Proof.
  induction l as [|i l IH]; intros s.
  - exists (DCSR s), (DDADR s). destruct s; reflexivity.
  - cbn [foldl]. set (s1 := with_DCSR _ _).
    destruct (IH s1) as (dc & dd & ->). exists dc, dd. reflexivity.
Qed.

Lemma distinct_channels_NoDup s :
  distinct_channels s ->
  NoDup (map (fun i : nat => dma_chans s !!! i)
             (seq 0 (Z.to_nat (channels s)))).
Proof.
  intros Hd. apply NoDup_fmap_2_strong; [|apply NoDup_seq].
  intros i j Hi Hj E. apply elem_of_seq in Hi, Hj.
  apply Hd; [lia|lia|exact E].
Qed.

(** X8: The end-of-frame interrupt makes the first queued buffer the active
    one with every plane outstanding, points each channel at the head of
    that buffer's chain and sets it running, and masks the end-of-frame
    interrupt; the queue is what it was. *)
Theorem pxa_camera_irq_eof s buf rest :
  bit_set (readl s CISR) CISR_EOF = true ->
  capture s = buf :: rest ->
  distinct_channels s ->
  exists s',
    pxa_camera_irq M s = Done (IRQ_HANDLED, s') /\
    capture s' = capture s /\ active s' = Some buf /\
    active_dma (bufs s' !!! buf)
      = (if channels s =? 3 then Z.lor DMA_Y (Z.lor DMA_U DMA_V)
         else DMA_Y) /\
    bit_set (readl s' CICR0) CICR0_EOFM = true /\
    descs s' = descs s /\ sg_tail s' = sg_tail s /\
    forall i : nat, (i < Z.to_nat (channels s))%nat ->
      DDADR s' !!! (dma_chans s !!! i) = sg_dma (chan_dma s buf i) /\
      DCSR s' !!! (dma_chans s !!! i) = DCSR_RUN M.
Proof.
  intros Heof Hq Hd.
  assert (Hnz : (readl s CISR =? 0) = false).
  { destruct (readl s CISR =? 0) eqn:E; [|reflexivity].
    apply Z.eqb_eq in E. rewrite E in Heof. discriminate. }
  assert (Hfirst : list_first_entry (writel (readl s CISR) CISR s) = buf).
  { unfold list_first_entry. cbn [capture writel with_cam].
    rewrite Hq. reflexivity. }
  unfold pxa_camera_irq. rewrite Hnz, Heof. cbv zeta. rewrite !Hfirst. cbn.
  unfold pxa_dma_start_channels. cbn [active with_active
    pxa_videobuf_set_actdma with_bufs bind].
  unfold for_channels.
  match goal with
  | |- context [foldl _ ?x ?l] =>
      destruct (start_channels_regs buf l x) as (dc & dd & -> & Hin & _)
  end.
  { apply (distinct_channels_NoDup s Hd). }
  eexists. split; [reflexivity|]. cbn.
  split; [rewrite ?Hq; reflexivity|]. split; [reflexivity|].
  rewrite lookup_total_insert_eq. cbn.
  split; [reflexivity|]. split.
  { unfold readl, writel. cbn. rewrite lookup_total_insert_eq.
    rewrite lookup_total_insert_ne by discriminate.
    apply (testbit_bit_set _ 1); [lia|].
    unfold to_u32. rewrite Z.mod_pow2_bits_low by lia.
    rewrite Z.lor_spec. unfold CICR0_EOFM.
    rewrite Z.shiftl_1_l, Z.pow2_bits_true by lia.
    apply orb_true_r. }
  split; [reflexivity|]. split; [reflexivity|].
  intros i Hi. destruct (Hin i) as [H1 H2]; [apply in_seq; cbn; lia|].
  cbn in H1, H2. rewrite lookup_total_insert_eq in H2. cbn in H2.
  split; [exact H2|exact H1].
Qed.

Lemma add_tail_fields buf n : forall i s s',
  for_channels_from (add_tail_channel M buf) n i s = Done s' ->
  forall a,
    dsadr (descs s' !!! a) = dsadr (descs s !!! a) /\
    dtadr (descs s' !!! a) = dtadr (descs s !!! a) /\
    dcmd (descs s' !!! a) = dcmd (descs s !!! a).
Proof.
  induction n as [|n IH]; intros i s s' H a.
  - injection H as <-. repeat split.
  - cbn [for_channels_from] in H.
    unfold add_tail_channel at 1 in H.
    destruct (sg_cpu _) as [cpu|]; [|discriminate].
    cbn [bind] in H. apply IH with (a := a) in H.
    cbn [descs with_sg_tail with_descs] in H.
    destruct H as (-> & -> & ->).
    assert (Hset : forall (m : desc_mem) k v,
              dsadr (<[k := set_ddadr v (m !!! k)]> m !!! a)
                = dsadr (m !!! a) /\
              dtadr (<[k := set_ddadr v (m !!! k)]> m !!! a)
                = dtadr (m !!! a) /\
              dcmd (<[k := set_ddadr v (m !!! k)]> m !!! a)
                = dcmd (m !!! a)).
    { intros m k v. destruct (decide (k = a)) as [->|Hne].
      - rewrite lookup_total_insert_eq. repeat split.
      - rewrite lookup_total_insert_ne by exact Hne. repeat split. }
    destruct (sg_tail s !!! i) as [tail|].
    + destruct (Hset (<[desc_addr M cpu (sglen (dmas (bufs s !!! buf) !!! i))
                        := set_ddadr (DDADR_STOP M)
                             (descs s !!! desc_addr M cpu
                                (sglen (dmas (bufs s !!! buf) !!! i)))]>
                        (descs s)) tail
                  (sg_dma (dmas (bufs s !!! buf) !!! i)))
        as (-> & -> & ->).
      apply Hset.
    + apply Hset.
Qed.

(** X9: Linking a buffer into the chains rewrites link words only: the
    source, the target and the command of every descriptor are what the
    builder wrote. *)
Theorem pxa_dma_add_tail_buf_links_only buf s s' :
  pxa_dma_add_tail_buf M buf s = Done s' ->
  bufs s' = bufs s /\ DCSR s' = DCSR s /\ DDADR s' = DDADR s /\
  cam s' = cam s /\ capture s' = capture s /\ active s' = active s /\
  forall a,
    dsadr (descs s' !!! a) = dsadr (descs s !!! a) /\
    dtadr (descs s' !!! a) = dtadr (descs s !!! a) /\
    dcmd (descs s' !!! a) = dcmd (descs s !!! a).
Proof.
  unfold pxa_dma_add_tail_buf. intros H.
  pose proof (add_tail_fields _ _ _ _ _ H) as Hf.
  apply add_tail_frame in H as (t & m & -> & _).
  repeat (split; [reflexivity|]). exact Hf.
Qed.

Lemma pxa_videobuf_queue_frame buf s s' :
  pxa_videobuf_queue M buf s = Done s' ->
  exists t m c,
    s' = with_cam c
           (with_sg_tail t
              (with_descs m
                 (with_bufs (<[buf := set_vb_state VIDEOBUF_ACTIVE
                                        (bufs s !!! buf)]> (bufs s))
                    (with_capture (capture s ++ [buf]) s)))) /\
    (active s <> None -> c = cam s) /\
    (active s = None -> armed s').
Proof.
  unfold pxa_videobuf_queue, pxa_dma_add_tail_buf. intros H.
  destruct (for_channels_from _ _ _ _) as [s2| |] eqn:E; try discriminate.
  apply add_tail_frame in E as (t & m & -> & _).
  cbn in H. destruct (active s) as [a|] eqn:Ha; injection H as <-.
  - exists t, m, (cam s). split; [reflexivity|].
    split; [reflexivity|discriminate].
  - eexists t, m, _. split; [reflexivity|]. split; [congruence|].
    intros _.
    apply (pxa_camera_start_capture_armed
             (with_sg_tail t
                (with_descs m
                   (with_bufs (<[buf := set_vb_state VIDEOBUF_ACTIVE
                                          (bufs s !!! buf)]> (bufs s))
                      (with_capture (capture s ++ [buf]) s))))).
Qed.

(** X10: Queueing a prepared buffer returns; the buffer goes to the end of the
    queue in state [VIDEOBUF_ACTIVE], no other buffer changes, and no DMA
    register is written.  While a buffer is active the camera interface is
    not touched either; with no active buffer capture is armed. *)
Theorem pxa_videobuf_queue_spec buf s :
  prepared s buf ->
  exists s',
    pxa_videobuf_queue M buf s = Done s' /\
    capture s' = capture s ++ [buf] /\ active s' = active s /\
    DCSR s' = DCSR s /\ DDADR s' = DDADR s /\
    vb_state (bufs s' !!! buf) = VIDEOBUF_ACTIVE /\
    (forall b, b <> buf -> bufs s' !!! b = bufs s !!! b) /\
    (active s <> None -> cam s' = cam s) /\
    (active s = None -> armed s').
Proof.
  intros Hprep.
  set (s1 := with_bufs (<[buf := set_vb_state VIDEOBUF_ACTIVE
                                   (bufs s !!! buf)]> (bufs s))
               (with_capture (capture s ++ [buf]) s)).
  destruct (add_tail_turns M buf (Z.to_nat (channels s1)) 0 s1)
    as (s2 & Hrun & _).
  { intros j Hj. unfold chan_dma. subst s1. cbn.
    rewrite lookup_total_insert_eq. cbn.
    apply (Hprep j). cbn in Hj. lia. }
  assert (Hq : exists s', pxa_videobuf_queue M buf s = Done s').
  { unfold pxa_videobuf_queue, pxa_dma_add_tail_buf. cbv zeta.
    match goal with
    | |- context [for_channels_from ?f ?n ?i ?x] =>
        change (for_channels_from f n i x)
          with (for_channels_from (add_tail_channel M buf)
                  (Z.to_nat (channels s1)) 0 s1)
    end.
    rewrite Hrun. cbn [bind]. destruct (active s2); eauto. }
  destruct Hq as (s' & Hq). exists s'. split; [exact Hq|].
  destruct (pxa_videobuf_queue_frame _ _ _ Hq) as (t & m & c & -> & Hc & Ha).
  cbn. repeat (split; [reflexivity|]).
  split; [rewrite lookup_total_insert_eq; reflexivity|].
  split; [intros b Hb; apply lookup_total_insert_ne; congruence|].
  split; assumption.
Qed.

(** *** What the steps keep of the queue *)

Lemma NoDup_remove_all (x : Z) l : NoDup l -> NoDup (remove Z.eq_dec x l).
Proof.
  induction 1 as [|y l Hy Hnd IH]; cbn; [constructor|].
  destruct (Z.eq_dec x y); [exact IH|].
  constructor; [|exact IH].
  rewrite list_elem_of_In. intros Hin. apply in_remove in Hin as [Hin _].
  apply Hy. rewrite list_elem_of_In. exact Hin.
Qed.

Lemma pxa_camera_dma_irq_cases channel act_dma s :
  let sa := with_DCSR (<[channel := DCSR s !!! channel]> (DCSR s)) s in
  let s' := pxa_camera_dma_irq M channel act_dma s in
  s' = sa \/
  s' = pxa_camera_start_capture (pxa_camera_stop_capture sa) \/
  exists buf, active s = Some buf /\
    let sb := with_bufs
                (<[buf := set_active_dma
                            (Z.land (active_dma (bufs s !!! buf))
                                    (Z.lnot act_dma))
                            (bufs s !!! buf)]> (bufs s)) sa in
    s' = sb \/ s' = pxa_camera_check_link_miss M (pxa_camera_wakeup buf sb).
Proof.
  intros sa s'. subst s'. unfold pxa_camera_dma_irq. fold sa. cbv zeta.
  destruct (bit_set _ (DCSR_BUSERR M)); [left; reflexivity|].
  destruct (negb _); [left; reflexivity|].
  change (active sa) with (active s).
  destruct (active s) as [buf|] eqn:Hact; [|left; reflexivity].
  destruct (bit_set _ (DCSR_ENDINTR M)); [|left; reflexivity].
  destruct (_ && _); [right; left; reflexivity|].
  right. right. exists buf. split; [reflexivity|].
  change (bufs sa) with (bufs s). cbn [active_dma set_active_dma].
  destruct (_ =? 0); [right|left]; reflexivity.
Qed.

Lemma capture_inv_wakeup buf s :
  capture_inv s -> capture_inv (pxa_camera_wakeup buf s).
Proof.
  intros (Hnd & _ & Hst).
  destruct (pxa_camera_wakeup_frame buf s) as [Hc Hb].
  assert (Hact : active (pxa_camera_wakeup buf s)
                 = head (remove Z.eq_dec buf (capture s))).
  { destruct (remove Z.eq_dec buf (capture s)) as [|next rest] eqn:Hr.
    - destruct (pxa_camera_wakeup_last buf s Hr) as (_ & Hn & _). exact Hn.
    - rewrite (pxa_camera_wakeup_next buf s next rest Hr). reflexivity. }
  split; [rewrite Hc; apply NoDup_remove_all; exact Hnd|]. split.
  - intros b Hb'. rewrite Hc, <- Hact. exact Hb'.
  - intros b Hin. rewrite Hc in Hin. apply in_remove in Hin as [Hin Hne].
    rewrite Hb, lookup_total_insert_ne by congruence. apply Hst, Hin.
Qed.

(** A step keeps [capture_inv] when the camera interface raises its
    interrupt only while it is enabled and the queue is not empty then (what
    [queue_inv] gives): the handler makes the first queued buffer the active
    one. *)
Lemma capture_inv_step s s' :
  queue_inv M s -> capture_inv s -> step M enabled s s' -> capture_inv s'.
Proof.
  intros Hqi (Hnd & Hhead & Hst) Hstep.
  destruct Hstep as [s buf s' Hnin Hq|s r s' Hen Hirq|s channel act_dma
                     |s h Hhw].
  - apply pxa_videobuf_queue_frame in Hq as (t & m & c & -> & _).
    unfold capture_inv. cbn. split; [|split].
    + apply NoDup_app. split; [exact Hnd|]. split; [|apply NoDup_singleton].
      intros x Hx Hx'. apply list_elem_of_In in Hx.
      apply list_elem_of_singleton in Hx'. subst x. contradiction.
    + intros b Hb. specialize (Hhead b Hb).
      destruct (capture s); [discriminate|exact Hhead].
    + intros b Hin. destruct (decide (b = buf)) as [->|Hne].
      * rewrite lookup_total_insert_eq. reflexivity.
      * rewrite lookup_total_insert_ne by congruence. apply Hst.
        apply in_app_or in Hin as [Hin|[Hin|[]]]; congruence.
  - assert (Hqueued : capture s <> []).
    { intros Hempty. destruct (Hqi Hempty) as [Hoff _].
      unfold enabled in Hen. congruence. }
    unfold pxa_camera_irq in Hirq.
    destruct (readl s CISR =? 0).
    { injection Hirq as _ <-. repeat split; assumption. }
    destruct (bit_set _ CISR_EOF).
    + destruct (capture s) as [|buf q] eqn:Hq; [contradiction|].
      assert (Hfirst : list_first_entry (writel (readl s CISR) CISR s) = buf).
      { unfold list_first_entry. cbn [capture writel with_cam].
        rewrite Hq. reflexivity. }
      cbv zeta in Hirq. rewrite !Hfirst in Hirq.
      unfold pxa_dma_start_channels in Hirq. cbn in Hirq.
      injection Hirq as _ <-. unfold for_channels.
      match goal with
      | |- context [foldl _ ?x ?l] =>
          destruct (start_channels_shape buf l x) as (dc & dd & ->)
      end.
      unfold capture_inv. cbn. rewrite Hq.
      split; [exact Hnd|]. split.
      * intros b [= <-]. reflexivity.
      * intros b Hin.
        destruct (decide (b = buf)) as [->|Hne].
        -- rewrite lookup_total_insert_eq. cbn. apply Hst. exact Hin.
        -- rewrite lookup_total_insert_ne by congruence. apply Hst, Hin.
    + injection Hirq as _ <-. repeat split; assumption.
  - destruct (pxa_camera_dma_irq_cases channel act_dma s)
      as [->|[->|(buf & Hact & [->| ->])]].
    + repeat split; assumption.
    + destruct (pxa_camera_stop_capture_spec
                  (with_DCSR (<[channel := DCSR s !!! channel]> (DCSR s)) s))
        as (d & -> & _).
      split; [exact Hnd|]. split; [discriminate|exact Hst].
    + split; [exact Hnd|]. split; [exact Hhead|].
      intros b Hin. cbn. destruct (decide (b = buf)) as [->|Hne].
      * rewrite lookup_total_insert_eq. cbn. apply Hst, Hin.
      * rewrite lookup_total_insert_ne by congruence. apply Hst, Hin.
    + match goal with
      | |- capture_inv (pxa_camera_check_link_miss M ?x) =>
          destruct (pxa_camera_check_link_miss_frame M x) as (c & -> & _);
          assert (Hw : capture_inv x)
      end.
      { apply capture_inv_wakeup. split; [exact Hnd|]. split; [exact Hhead|].
        intros b Hin. cbn. destruct (decide (b = buf)) as [->|Hne].
        - rewrite lookup_total_insert_eq. cbn. apply Hst, Hin.
        - rewrite lookup_total_insert_ne by congruence. apply Hst, Hin. }
      exact Hw.
  - repeat split; assumption.
Qed.

(** X11: In every state the capture state machine reaches from idle while
    the camera interface raises its interrupt only when it is enabled, the
    active buffer, if there is one, is the first of the capture queue, no
    buffer is queued twice and every queued buffer is in state
    [VIDEOBUF_ACTIVE]. *)
Theorem reachable_active_is_first s :
  reachable M enabled s ->
  NoDup (capture s) /\
  (forall b, active s = Some b -> head (capture s) = Some b) /\
  (forall b, In b (capture s) -> vb_state (bufs s !!! b) = VIDEOBUF_ACTIVE).
Proof.
  intros H. change (capture_inv s).
  induction H as [s Hidle|s s' Hreach IH Hstep].
  - destruct Hidle as (Hq & Ha & _). unfold capture_inv. rewrite Hq, Ha.
    split; [constructor|]. split; [discriminate|intros b []].
  - apply (capture_inv_step s); [|exact IH|exact Hstep].
    apply reachable_queue_inv. exact Hreach.
Qed.

(** X12: Buffers are retired first in, first out: when the active buffer is
    the first of the queue and is queued once, the completion that clears
    its last channel bit takes it off the queue, marks it done and makes the
    next one, if any, active; the rest of the queue keeps its order and its
    buffers are not touched. *)
Theorem pxa_camera_dma_irq_fifo channel act_dma s buf rest :
  capture s = buf :: rest -> ~ In buf rest ->
  active s = Some buf ->
  bit_set (DCSR s !!! channel) (DCSR_BUSERR M) = false ->
  bit_set (DCSR s !!! channel) (DCSR_ENDINTR M) = true ->
  bit_set (readl s CISR) (overrun_mask s)
    && negb (first_is_last (capture s)) = false ->
  Z.land (active_dma (bufs s !!! buf)) (Z.lnot act_dma) = 0 ->
  let s' := pxa_camera_dma_irq M channel act_dma s in
  capture s' = rest /\
  active s' = head rest /\
  vb_state (bufs s' !!! buf) = VIDEOBUF_DONE /\
  vb_done (bufs s' !!! buf) = S (vb_done (bufs s !!! buf)) /\
  forall b, In b rest -> bufs s' !!! b = bufs s !!! b.
Proof.
  intros Hq Hni Hact Hbus Hend Hover Hmask s'.
  set (sb := with_bufs (<[buf := set_active_dma 0 (bufs s !!! buf)]> (bufs s))
               (with_DCSR (<[channel := DCSR s !!! channel]> (DCSR s)) s)).
  assert (E : s' = pxa_camera_check_link_miss M (pxa_camera_wakeup buf sb)).
  { subst s' sb. unfold pxa_camera_dma_irq. cbn.
    rewrite Hbus, (bit_set_lor _ _ _ Hend), Hend, Hact. cbn [negb].
    unfold overrun_mask, readl in Hover. unfold readl. cbn.
    rewrite Hover, Hmask. cbn [Z.eqb]. reflexivity. }
  assert (Hr : remove Z.eq_dec buf (capture sb) = rest).
  { subst sb. cbn. rewrite Hq. cbn.
    destruct (Z.eq_dec buf buf); [|contradiction].
    apply notin_remove. exact Hni. }
  destruct (pxa_camera_wakeup_frame buf sb) as [Hc Hb].
  assert (Ha : active (pxa_camera_wakeup buf sb) = head rest).
  { destruct rest as [|next rest'].
    - destruct (pxa_camera_wakeup_last buf sb Hr) as (_ & Hn & _). exact Hn.
    - rewrite (pxa_camera_wakeup_next buf sb next rest' Hr). reflexivity. }
  destruct (pxa_camera_check_link_miss_frame M (pxa_camera_wakeup buf sb))
    as (c & Hcm & _).
  rewrite E, Hcm. cbn [capture active bufs with_cam].
  rewrite Hc, Hr, Hb, Ha.
  split; [reflexivity|]. split; [reflexivity|].
  split; [rewrite lookup_total_insert_eq; reflexivity|].
  split.
  { rewrite lookup_total_insert_eq. subst sb. cbn.
    rewrite lookup_total_insert_eq. reflexivity. }
  intros b Hin. rewrite lookup_total_insert_ne by congruence.
  subst sb. cbn. apply lookup_total_insert_ne. congruence.
Qed.

End CaptureEdges.


(** *** The handlers on the sample device *)

(** The sample device with two buffers queued comes to run the first. *)
Lemma reachable_running2 : reachable pxa27x enabled running2.
Proof.
  apply (reachable_step pxa27x enabled (set_hw eof2 queued2)).
  - apply (reachable_step pxa27x enabled queued2).
    + apply (reachable_step pxa27x enabled
               (match pxa_videobuf_queue pxa27x 100 two0 with
                | Done s => s
                | _ => two0
                end)).
      * apply (reachable_step pxa27x enabled two0).
        -- apply reachable_idle. repeat split; try reflexivity.
           intros (i & _ & H). unfold channel_running in H. cbn in H.
           rewrite lookup_total_empty in H. discriminate.
        -- apply (step_queue pxa27x enabled two0 100); [intros []|].
           vm_compute. reflexivity.
      * apply (step_queue pxa27x enabled _ 101).
        -- vm_compute. intros [H|[]]. discriminate.
        -- vm_compute. reflexivity.
    + apply (step_hw pxa27x enabled queued2 eof2). split; [reflexivity|].
      intros ch H. destruct (decide (ch = 5)) as [->|Hne].
      * vm_compute in H. discriminate.
      * cbn in H. rewrite lookup_total_singleton_ne in H by congruence.
        discriminate.
  - apply (step_camera_irq pxa27x enabled (set_hw eof2 queued2) IRQ_HANDLED
             running2).
    + vm_compute. reflexivity.
    + vm_compute. reflexivity.
Defined.

Lemma pxa_camera_dma_irq_ignored_witness :
  pxa_camera_dma_irq pxa27x 5 DMA_Y idle0
  = with_DCSR (<[5 := DCSR idle0 !!! 5]> (DCSR idle0)) idle0.
Proof.
  apply (pxa_camera_dma_irq_ignored pxa27x 5 DMA_Y idle0).
  right. reflexivity.
Defined.

Lemma pxa_camera_dma_irq_overrun_last_witness :
  let s := set_hw ended0 running0 in
  let s' := pxa_camera_dma_irq pxa27x 5 DMA_Y s in
  capture s' = [] /\ active s' = None /\ all_stopped s' /\
  bit_set (readl s' CICR0) CICR0_ENB = false /\
  vb_state (bufs s' !!! 100) = VIDEOBUF_DONE /\
  vb_done (bufs s' !!! 100) = S (vb_done (bufs s !!! 100)) /\
  descs s' = descs s.
Proof.
  apply (pxa_camera_dma_irq_overrun_last pxa27x 5 DMA_Y
           (set_hw ended0 running0) 100); vm_compute; reflexivity.
Defined.

Lemma pxa_camera_check_link_miss_no_restart_witness :
  pxa_camera_check_link_miss pxa27x idle0 = idle0.
Proof.
  apply (pxa_camera_check_link_miss_no_restart pxa27x idle0).
  left. reflexivity.
Defined.

Lemma pxa_camera_irq_eof_witness :
  let s := set_hw eof0 queued0 in
  exists s',
    pxa_camera_irq pxa27x s = Done (IRQ_HANDLED, s') /\
    capture s' = capture s /\ active s' = Some 100 /\
    active_dma (bufs s' !!! 100)
      = (if channels s =? 3 then Z.lor DMA_Y (Z.lor DMA_U DMA_V)
         else DMA_Y) /\
    bit_set (readl s' CICR0) CICR0_EOFM = true /\
    descs s' = descs s /\ sg_tail s' = sg_tail s /\
    forall i : nat, (i < Z.to_nat (channels s))%nat ->
      DDADR s' !!! (dma_chans s !!! i) = sg_dma (chan_dma s 100 i) /\
      DCSR s' !!! (dma_chans s !!! i) = DCSR_RUN pxa27x.
Proof.
  apply (pxa_camera_irq_eof pxa27x (set_hw eof0 queued0) 100 []).
  - vm_compute. reflexivity.
  - vm_compute. reflexivity.
  - intros i j Hi Hj _. vm_compute in Hi, Hj. lia.
Defined.

Lemma pxa_dma_add_tail_buf_links_only_witness :
  bufs linked0 = bufs two0 /\ DCSR linked0 = DCSR two0 /\
  DDADR linked0 = DDADR two0 /\ cam linked0 = cam two0 /\
  capture linked0 = capture two0 /\ active linked0 = active two0 /\
  forall a,
    dsadr (descs linked0 !!! a) = dsadr (descs two0 !!! a) /\
    dtadr (descs linked0 !!! a) = dtadr (descs two0 !!! a) /\
    dcmd (descs linked0 !!! a) = dcmd (descs two0 !!! a).
Proof.
  apply (pxa_dma_add_tail_buf_links_only pxa27x 100 two0 linked0).
  vm_compute. reflexivity.
Defined.

Lemma pxa_videobuf_queue_spec_witness :
  exists s',
    pxa_videobuf_queue pxa27x 100 two0 = Done s' /\
    capture s' = capture two0 ++ [100] /\ active s' = active two0 /\
    DCSR s' = DCSR two0 /\ DDADR s' = DDADR two0 /\
    vb_state (bufs s' !!! 100) = VIDEOBUF_ACTIVE /\
    (forall b, b <> 100 -> bufs s' !!! b = bufs two0 !!! b) /\
    (active two0 <> None -> cam s' = cam two0) /\
    (active two0 = None -> armed s').
Proof.
  apply (pxa_videobuf_queue_spec pxa27x 100 two0).
  intros j Hj. assert (j = 0%nat) as -> by (cbn in Hj; lia).
  rewrite (proj1 two0_chains). cbn. split; [reflexivity|lia].
Defined.

(** Two buffers queued, the first one active and its transfer at its end
    with the chain of the second one loaded: the first is retired, the second
    stays queued and becomes the active one. *)
Lemma pxa_camera_dma_irq_fifo_witness :
  let s := streaming 0 0xa2001000 in
  let s' := pxa_camera_dma_irq pxa27x 5 DMA_Y s in
  capture s' = [101] /\
  active s' = head [101] /\
  vb_state (bufs s' !!! 100) = VIDEOBUF_DONE /\
  vb_done (bufs s' !!! 100) = S (vb_done (bufs s !!! 100)) /\
  forall b, In b [101] -> bufs s' !!! b = bufs s !!! b.
Proof.
  apply (pxa_camera_dma_irq_fifo pxa27x 5 DMA_Y (streaming 0 0xa2001000)
           100 [101]); try (vm_compute; reflexivity).
  intros [H|[]]. discriminate.
Defined.

(** With both sample buffers queued and the first one running. *)
Lemma reachable_active_is_first_witness :
  (capture running2 = [100; 101] /\ active running2 = Some 100) /\
  NoDup (capture running2) /\
  (forall b, active running2 = Some b -> head (capture running2) = Some b) /\
  (forall b, In b (capture running2) ->
     vb_state (bufs running2 !!! b) = VIDEOBUF_ACTIVE).
Proof.
  split; [split; vm_compute; reflexivity|].
  apply (reachable_active_is_first pxa27x running2 reachable_running2).
Defined.

(** ** Buffer sizes and clocks *)

Section Sizes.

Lemma pxa_videobuf_setup_loop_spec size : forall count : nat,
  0 <= size -> size * Z.of_nat count < 2 ^ 32 ->
  let n := pxa_videobuf_setup_loop size count in
  0 <= n <= Z.of_nat count /\
  size * n <= vid_limit * 2 ^ 20 /\
  (n = Z.of_nat count \/ vid_limit * 2 ^ 20 < size * (n + 1)).
Proof.
  change (vid_limit * 2 ^ 20) with 16777216.
  induction count as [|count IH]; intros Hs Hc.
  - cbn. lia.
  - cbn [pxa_videobuf_setup_loop].
    change (to_u32 (to_u32 (vid_limit * 1024) * 1024)) with 16777216.
    rewrite to_u32_small by nia.
    destruct (_ >? _) eqn:E.
    + apply Z.gtb_lt in E.
      destruct IH as (Hn & Hle & Hmax); [exact Hs|nia|].
      split; [lia|]. split; [exact Hle|]. right.
      destruct Hmax as [->|Hmax]; [|exact Hmax].
      replace (Z.of_nat count + 1) with (Z.of_nat (S count)) by lia. lia.
    + assert (size * Z.of_nat (S count) <= 16777216).
      { destruct (Z.gtb_spec (size * Z.of_nat (S count)) 16777216);
          [discriminate|lia]. }
      split; [lia|]. split; [assumption|]. left. reflexivity.
Qed.

(** X13: [pxa_videobuf_setup] sizes a buffer at the bytes of a frame rounded up
    to 8 and grants as many buffers as asked for (32 when none is asked
    for) or, when these exceed the limit of 16 MiB, the largest number of
    buffers that fits the limit. *)
Theorem pxa_videobuf_setup_spec fmt width height count :
  0 <= width -> 0 <= height -> 0 <= depth fmt <= 255 ->
  width * height <= INT_MAX ->
  width * height * ((depth fmt + 7) / 8) <= INT_MAX - 7 ->
  0 <= count < 2 ^ 32 ->
  let size := round_up8 (width * height * ((depth fmt + 7) / 8)) in
  let want := if count =? 0 then 32 else count in
  size * want < 2 ^ 32 ->
  exists n,
    pxa_videobuf_setup (Some fmt) width height count = Done (0, n, size) /\
    0 <= n <= want /\
    size * n <= vid_limit * 2 ^ 20 /\
    (n = want \/ vid_limit * 2 ^ 20 < size * (n + 1)).
Proof.
  intros Hw Hh Hd Hwh Hsz Hc size want Hwant.
  assert (Hbpp : 0 <= (depth fmt + 7) / 8 <= 32).
  { split; [apply Z.div_pos; lia|].
    apply Z.lt_succ_r. apply Z.div_lt_upper_bound; lia. }
  assert (Hprod : 0 <= width * height * ((depth fmt + 7) / 8)) by nia.
  assert (Hwant0 : 0 < want) by (subst want; destruct (Z.eqb_spec count 0); lia).
  assert (Hsize : 0 <= size <= INT_MAX).
  { pose proof (round_up8_bounds
                  (width * height * ((depth fmt + 7) / 8))).
    subst size. lia. }
  unfold pxa_videobuf_setup. fold want.
  assert (E : to_u32 (roundup (int_mul (int_mul width height)
                        (Z.shiftr (int_add (depth fmt) 7) 3)) 8) = size).
  { unfold int_mul, int_add. unfold INT_MAX in *.
    rewrite (to_int_small (depth fmt + 7)) by lia.
    rewrite Z.shiftr_div_pow2 by lia. change (2 ^ 3) with 8.
    rewrite (to_int_small (width * height)) by nia.
    rewrite to_int_small by lia.
    rewrite roundup_8 by (unfold INT_MAX; lia).
    apply to_u32_small. fold (round_up8 (width * height
                                           * ((depth fmt + 7) / 8))).
    fold size. lia. }
  rewrite E.
  pose proof (pxa_videobuf_setup_loop_spec size (Z.to_nat want)) as H.
  rewrite Z2Nat.id in H by lia.
  destruct H as (Hn & Hle & Hmax); [lia|exact Hwant|].
  eexists. split; [reflexivity|]. split; [exact Hn|]. split; assumption.
Qed.

End Sizes.

Lemma pxa_videobuf_setup_spec_witness :
  exists n,
    pxa_videobuf_setup (Some {| depth := 16; fourcc := 0 |}) 640 480 0
      = Done (0, n, round_up8 (640 * 480 * ((16 + 7) / 8))) /\
    0 <= n <= 32 /\
    round_up8 (640 * 480 * ((16 + 7) / 8)) * n <= vid_limit * 2 ^ 20 /\
    (n = 32 \/
     vid_limit * 2 ^ 20 < round_up8 (640 * 480 * ((16 + 7) / 8)) * (n + 1)).
Proof.
  apply (pxa_videobuf_setup_spec {| depth := 16; fourcc := 0 |} 640 480 0);
    repeat split; vm_compute; first [reflexivity | discriminate].
Defined.

Section Clocks.

Variable C : mach_camera.

(** X14: [mclk_get_divisor] returns the smallest divisor whose clock does not
    exceed the target, the target being the master clock asked for or a
    quarter of the interface clock if that is less; the divisor is at least
    1, and a master clock the interface supplies is set to the clock of
    that divisor. *)
Theorem mclk_get_divisor_spec lcdclk p :
  0 < mclk p < 2 ^ 32 -> 4 <= lcdclk < 2 ^ 31 ->
  let m := Z.min (mclk p) (lcdclk / 4) in
  exists div p',
    mclk_get_divisor C lcdclk p = Done (div, p') /\
    1 <= div /\
    2 * m * div < lcdclk <= 2 * m * (div + 1) /\
    ciclk p' = lcdclk /\
    mclk p' = (if bit_set (platform_flags p) (PXA_CAMERA_MCLK_EN C)
               then lcdclk / (2 * (div + 1)) else mclk p) /\
    lcdclk / (2 * (div + 1)) <= m.
Proof.
  intros Hm Hl m.
  assert (Hq4 : 1 <= lcdclk / 4 <= lcdclk).
  { split; [apply Z.div_le_lower_bound; lia|].
    apply Z.div_le_upper_bound; lia. }
  assert (Hq4' : 4 * (lcdclk / 4) <= lcdclk) by (apply Z.mul_div_le; lia).
  assert (Hm1 : 1 <= m <= lcdclk / 4) by lia.
  unfold mclk_get_divisor. cbn [mclk set_ciclk platform_flags].
  assert (Em : (if mclk p >? lcdclk / 4 then lcdclk / 4 else mclk p) = m).
  { subst m. destruct (Z.gtb_spec (mclk p) (lcdclk / 4)); lia. }
  rewrite Em.
  rewrite (to_u32_small (2 * m)) by lia.
  rewrite (to_u32_small (lcdclk + _)) by lia.
  rewrite (to_u32_small (lcdclk + _ - 1)) by lia.
  unfold ulong_div at 1.
  destruct (Z.eqb_spec (2 * m) 0) as [|_]; [lia|]. cbn [bind].
  set (q := (lcdclk + 2 * m - 1) / (2 * m)).
  assert (Hq : 2 * m * q <= lcdclk + 2 * m - 1 < 2 * m * (q + 1)).
  { pose proof (Z.div_mod (lcdclk + 2 * m - 1) (2 * m) ltac:(lia)) as E.
    pose proof (Z.mod_pos_bound (lcdclk + 2 * m - 1) (2 * m) ltac:(lia)).
    fold q in E. lia. }
  assert (Hq2 : 2 <= q <= lcdclk) by (split; nia).
  rewrite (to_u32_small (q - 1)) by lia.
  replace (q - 1 + 1) with q by lia.
  rewrite (to_u32_small q) by lia.
  rewrite (to_u32_small (2 * q)) by lia.
  assert (Hclk : lcdclk / (2 * q) <= m).
  { apply Z.lt_succ_r. apply Z.div_lt_upper_bound; nia. }
  exists (q - 1).
  destruct (bit_set _ _).
  - unfold ulong_div. destruct (Z.eqb_spec (2 * q) 0) as [|_]; [lia|].
    cbn [bind]. eexists. split; [reflexivity|]. cbn.
    replace (q - 1 + 1) with q by lia.
    split; [lia|]. split; [nia|]. repeat split; assumption.
  - cbn [bind]. eexists. split; [reflexivity|]. cbn.
    replace (q - 1 + 1) with q by lia.
    split; [lia|]. split; [nia|]. repeat split; assumption.
Qed.

End Clocks.


Lemma mclk_get_divisor_spec_witness :
  exists div p',
    mclk_get_divisor pxa27x_camera 104000000 host0 = Done (div, p') /\
    1 <= div /\
    2 * Z.min (mclk host0) (104000000 / 4) * div < 104000000
      <= 2 * Z.min (mclk host0) (104000000 / 4) * (div + 1) /\
    ciclk p' = 104000000 /\
    mclk p' = (if bit_set (platform_flags host0)
                    (PXA_CAMERA_MCLK_EN pxa27x_camera)
               then 104000000 / (2 * (div + 1)) else mclk host0) /\
    104000000 / (2 * (div + 1)) <= Z.min (mclk host0) (104000000 / 4).
Proof.
  apply (mclk_get_divisor_spec pxa27x_camera 104000000 host0);
    repeat split; vm_compute; first [reflexivity | discriminate].
Defined.

(** ** Attaching and detaching the camera, suspend and resume *)

Section Power.

Variable C : mach_camera.

Lemma insert_zero_lookup (m : gmap Z Z) k x :
  x = k \/ m !!! x = 0 -> <[k := 0]> m !!! x = 0.
Proof.
  intros H. destruct (decide (k = x)) as [->|Hne].
  - apply lookup_total_insert_eq.
  - rewrite lookup_total_insert_ne by exact Hne.
    destruct H as [->|H]; [contradiction|exact H].
Qed.

(** X15: A camera is attached only to a host that has none: a second one is
    refused with [-EBUSY] and nothing is written.  Attaching leaves the
    interface disabled with its ten interrupts masked and a FIFO time-out
    of more than one pixel time; the capture state machine and the DMA
    registers are not touched. *)
Theorem pxa_camera_add_device_spec icd init p s :
  let pclk := if bit_set (platform_flags p) (PXA_CAMERA_MCLK_EN C)
              then mclk p else 13000000 in
  0 < pclk -> 0 <= ciclk p < 2 ^ 32 - 1 ->
  match host_icd p with
  | Some _ => pxa_camera_add_device C icd init p s = Done (- EBUSY, p, s)
  | None =>
      exists s',
        pxa_camera_add_device C icd init p s
        = Done (init,
                (if init =? 0 then set_host_icd (Some icd) p else p), s') /\
        readl s' CICR0 = 0x3ff /\
        bit_set (readl s' CICR0) CICR0_ENB = false /\
        bit_set (readl s' CICR0) CICR0_EOFM = true /\
        ciclk p < readl s' CITOR * pclk /\
        capture s' = capture s /\ active s' = active s /\
        bufs s' = bufs s /\ descs s' = descs s /\
        DCSR s' = DCSR s /\ DDADR s' = DDADR s
  end.
Proof.
  intros pclk Hp Hc. unfold pxa_camera_add_device.
  destruct (host_icd p); [reflexivity|].
  unfold pxa_camera_activate. fold pclk.
  assert (E : forall s0,
            (if bit_set (platform_flags p) (PXA_CAMERA_MCLK_EN C)
             then recalculate_fifo_timeout p (mclk p) s0
             else recalculate_fifo_timeout p 13000000 s0)
            = recalculate_fifo_timeout p pclk s0).
  { intros s0. subst pclk. destruct (bit_set _ _); reflexivity. }
  cbv zeta. rewrite E. unfold recalculate_fifo_timeout, ulong_div.
  destruct (Z.eqb_spec pclk 0) as [|_]; [lia|]. cbn [bind].
  eexists. split; [reflexivity|].
  assert (Hq : 0 <= ciclk p / pclk <= ciclk p).
  { split; [apply Z.div_pos; lia|]. apply Z.div_le_upper_bound; nia. }
  unfold readl, writel. cbn.
  rewrite !lookup_total_insert_ne by discriminate.
  rewrite !lookup_total_insert_eq.
  split; [reflexivity|]. split; [reflexivity|]. split; [reflexivity|].
  split.
  { clearbody pclk. rewrite (to_u32_small (_ / _ + 1)) by lia.
    rewrite to_u32_small by lia.
    pose proof (Z.mul_succ_div_gt (ciclk p) pclk Hp). lia. }
  repeat split.
Qed.

(** X16: Detaching the camera leaves the interface disabled with its interrupts
    masked and every channel of the device stopped; the queue and the active
    buffer are left as they are. *)
Theorem pxa_camera_remove_device_quiet icd p s :
  host_icd p = Some icd ->
  channels s <= 3 ->
  exists p' s',
    pxa_camera_remove_device icd p s = Done (p', s') /\
    host_icd p' = None /\
    readl s' CICR0 = 0x3ff /\
    quiet s' /\
    capture s' = capture s /\ active s' = active s /\
    DDADR s' = DDADR s /\ descs s' = descs s.
Proof.
  intros Hicd Hch. unfold pxa_camera_remove_device.
  rewrite bool_decide_eq_true_2 by exact Hicd. cbn [negb].
  eexists _, _. split; [reflexivity|]. cbn.
  split; [reflexivity|].
  assert (H0 : readl (writel 1023 CICR0 s) CICR0 = 1023).
  { unfold readl, writel. cbn. rewrite lookup_total_insert_eq. reflexivity. }
  unfold readl in *. cbn in *.
  split; [exact H0|]. split; [|repeat split].
  split.
  - unfold readl. cbn. rewrite H0. reflexivity.
  - intros i Hi. cbn in *.
    assert (i = 0 \/ i = 1 \/ i = 2)%nat as [->|[->| ->]] by lia;
      repeat (apply insert_zero_lookup; first [left; reflexivity | right]).
Qed.

(** X17: Suspend and resume put the camera interface back as it was but for
    its enable bit: the words of [CICR1] to [CICR4] are those held at
    suspend, whatever the registers held in between, and so are the bits of
    [CICR0] other than enable and the end-of-frame mask.  Capture is armed
    again when a buffer is active and the camera resumed, and left disabled
    otherwise; resume starts no DMA channel. *)
Theorem pxa_camera_resume_suspend mapvld suspend resume p drcmr s h :
  (forall reg, 0 <= cam s !!! reg < 2 ^ 32) ->
  let p' := (pxa_camera_suspend suspend p s).2 in
  let r := pxa_camera_resume mapvld resume p' drcmr (set_hw h s) in
  let ret := r.1.1 in
  let s' := r.2 in
  readl s' CICR1 = readl s CICR1 /\ readl s' CICR2 = readl s CICR2 /\
  readl s' CICR3 = readl s CICR3 /\ readl s' CICR4 = readl s CICR4 /\
  (forall n, 0 <= n < 32 -> n <> 28 -> n <> 1 ->
     Z.testbit (readl s' CICR0) n = Z.testbit (readl s CICR0) n) /\
  (if (ret =? 0) && bool_decide (active s <> None) then armed s'
   else bit_set (readl s' CICR0) CICR0_ENB = false /\
        Z.testbit (readl s' CICR0) 1 = Z.testbit (readl s CICR0) 1) /\
  DCSR s' = hw_DCSR h /\ DDADR s' = hw_DDADR h /\
  capture s' = capture s /\ active s' = active s /\
  bufs s' = bufs s /\ descs s' = descs s /\ sg_tail s' = sg_tail s.
Proof.
  intros Hw p' r ret s'.
  set (s1 := writel (save_cicr p' !!! 4%nat) CICR4
               (writel (save_cicr p' !!! 3%nat) CICR3
                  (writel (save_cicr p' !!! 2%nat) CICR2
                     (writel (save_cicr p' !!! 1%nat) CICR1
                        (writel (Z.land (save_cicr p' !!! 0%nat)
                                        (Z.lnot CICR0_ENB)) CICR0
                           (set_hw h s)))))).
  set (ret0 := match host_icd p', resume with
               | Some _, Some v => v
               | _, _ => 0
               end).
  assert (Hr : ret = ret0 /\
               s' = if (ret0 =? 0) && bool_decide (active s <> None)
                    then pxa_camera_start_capture s1 else s1).
  { subst s' ret r. unfold pxa_camera_resume. cbv zeta. fold s1 ret0.
    change (active s1) with (active s).
    destruct (_ && _); split; reflexivity. }
  destruct Hr as [-> Hr]. clearbody ret0.
  assert (H1 : readl s1 CICR1 = readl s CICR1 /\
               readl s1 CICR2 = readl s CICR2 /\
               readl s1 CICR3 = readl s CICR3 /\
               readl s1 CICR4 = readl s CICR4 /\
               readl s1 CICR0
               = to_u32 (Z.land (readl s CICR0) (Z.lnot CICR0_ENB))).
  { subst s1 p'. unfold readl, writel. cbn.
    repeat (rewrite ?lookup_total_insert_eq;
            rewrite ?lookup_total_insert_ne by discriminate).
    rewrite !to_u32_small by apply Hw. repeat split. }
  destruct H1 as (E1 & E2 & E3 & E4 & E0).
  assert (Hbit : forall n, 0 <= n < 32 -> n <> 28 ->
            Z.testbit (readl s1 CICR0) n = Z.testbit (readl s CICR0) n).
  { intros n Hn Hne. rewrite E0. unfold to_u32.
    rewrite Z.mod_pow2_bits_low by lia.
    rewrite Z.land_spec, Z.lnot_spec by lia. unfold CICR0_ENB.
    rewrite Z.shiftl_1_l, Z.pow2_bits_false by lia.
    apply andb_true_r. }
  assert (Hstart : forall reg, reg <> CICR0 -> reg <> CIFR ->
            readl (pxa_camera_start_capture s1) reg = readl s1 reg).
  { intros reg H0 Hf. unfold pxa_camera_start_capture, readl, writel. cbn.
    rewrite !lookup_total_insert_ne by congruence. reflexivity. }
  rewrite Hr. destruct ((ret0 =? 0) && bool_decide (active s <> None)).
  - rewrite !Hstart by discriminate.
    split; [exact E1|]. split; [exact E2|]. split; [exact E3|].
    split; [exact E4|]. split.
    { intros n Hn H28 H1. rewrite <- (Hbit n Hn H28).
      unfold readl. rewrite cam_start_capture. unfold to_u32.
      rewrite Z.mod_pow2_bits_low by lia.
      rewrite Z.land_spec, Z.lor_spec, Z.lnot_spec by lia.
      unfold CICR0_ENB, CICR0_EOFM.
      rewrite !Z.shiftl_1_l, !Z.pow2_bits_false by lia.
      rewrite orb_false_r. apply andb_true_r. }
    split; [apply pxa_camera_start_capture_armed|]. repeat split.
  - split; [exact E1|]. split; [exact E2|]. split; [exact E3|].
    split; [exact E4|]. split.
    { intros n Hn H28 _. apply Hbit; assumption. }
    split; [|repeat split].
    split; [rewrite E0; apply bit_set_cleared|apply Hbit; lia].
Qed.

End Power.


Lemma pxa_camera_add_device_spec_witness :
  exists s',
    pxa_camera_add_device pxa27x_camera 7 0 host0 idle0
    = Done (0, (if 0 =? 0 then set_host_icd (Some 7) host0 else host0), s') /\
    readl s' CICR0 = 0x3ff /\
    bit_set (readl s' CICR0) CICR0_ENB = false /\
    bit_set (readl s' CICR0) CICR0_EOFM = true /\
    ciclk host0
      < readl s' CITOR
        * (if bit_set (platform_flags host0)
                (PXA_CAMERA_MCLK_EN pxa27x_camera)
           then mclk host0 else 13000000) /\
    capture s' = capture idle0 /\ active s' = active idle0 /\
    bufs s' = bufs idle0 /\ descs s' = descs idle0 /\
    DCSR s' = DCSR idle0 /\ DDADR s' = DDADR idle0.
Proof.
  apply (pxa_camera_add_device_spec pxa27x_camera 7 0 host0 idle0);
    repeat split; vm_compute; first [reflexivity | discriminate].
Defined.

Lemma pxa_camera_remove_device_quiet_witness :
  exists p' s',
    pxa_camera_remove_device 7 (set_host_icd (Some 7) host0) running0
    = Done (p', s') /\
    host_icd p' = None /\
    readl s' CICR0 = 0x3ff /\
    quiet s' /\
    capture s' = capture running0 /\ active s' = active running0 /\
    DDADR s' = DDADR running0 /\ descs s' = descs running0.
Proof.
  apply (pxa_camera_remove_device_quiet 7 (set_host_icd (Some 7) host0)
           running0).
  - reflexivity.
  - vm_compute. discriminate.
Defined.

Lemma pxa_camera_resume_suspend_witness :
  let s := streaming 0 1 in
  let p' := (pxa_camera_suspend None host0 s).2 in
  let r := pxa_camera_resume 0x80 None p' ∅ (set_hw eof0 s) in
  let ret := r.1.1 in
  let s' := r.2 in
  readl s' CICR1 = readl s CICR1 /\ readl s' CICR2 = readl s CICR2 /\
  readl s' CICR3 = readl s CICR3 /\ readl s' CICR4 = readl s CICR4 /\
  (forall n, 0 <= n < 32 -> n <> 28 -> n <> 1 ->
     Z.testbit (readl s' CICR0) n = Z.testbit (readl s CICR0) n) /\
  (if (ret =? 0) && bool_decide (active s <> None) then armed s'
   else bit_set (readl s' CICR0) CICR0_ENB = false /\
        Z.testbit (readl s' CICR0) 1 = Z.testbit (readl s CICR0) 1) /\
  DCSR s' = hw_DCSR eof0 /\ DDADR s' = hw_DDADR eof0 /\
  capture s' = capture s /\ active s' = active s /\
  bufs s' = bufs s /\ descs s' = descs s /\ sg_tail s' = sg_tail s.
Proof.
  apply (pxa_camera_resume_suspend 0x80 None None host0 ∅
           (streaming 0 1) eof0).
  intros reg. unfold streaming. cbn [cam].
  destruct (decide (reg = CICR0)) as [->|H0].
  - vm_compute. split; [discriminate|reflexivity].
  - rewrite lookup_total_insert_ne by congruence.
    destruct (decide (reg = CISR)) as [->|H1].
    + vm_compute. split; [discriminate|reflexivity].
    + rewrite lookup_total_singleton_ne by congruence.
      vm_compute. split; [discriminate|reflexivity].
Defined.

(** ** Formats *)

Section FormatProofs.

Variable V : v4l2.

Lemma land_lnot_ones x k :
  0 <= k -> Z.land x (Z.lnot (2 ^ k - 1)) = 2 ^ k * (x / 2 ^ k).
Proof.
  intros Hk. replace (2 ^ k - 1) with (Z.ones k)
    by (rewrite Z.ones_equiv; lia).
  rewrite <- Z.ldiff_land, Z.ldiff_ones_r by exact Hk.
  rewrite Z.shiftl_mul_pow2, Z.shiftr_div_pow2 by exact Hk. lia.
Qed.

Lemma ALIGN_4 x :
  0 <= x <= 2048 -> ALIGN x YUV422P_X_Y_ALIGN = 4 * ((x + 3) / 4).
Proof.
  intros H. unfold ALIGN, YUV422P_X_Y_ALIGN.
  rewrite to_u32_small by lia.
  change (4 - 1) with (2 ^ 2 - 1). rewrite land_lnot_ones by lia.
  reflexivity.
Qed.

Lemma IS_ALIGNED_16 x :
  0 <= x < 2 ^ 32 ->
  IS_ALIGNED (to_u32 x) YUV422P_SIZE_ALIGN = (x mod 16 =? 0).
Proof.
  intros H. unfold IS_ALIGNED. rewrite to_u32_small by exact H.
  change (YUV422P_SIZE_ALIGN - 1) with (Z.ones 4).
  rewrite Z.land_ones by lia. reflexivity.
Qed.

Lemma DIV_ROUND_UP_8 d :
  0 <= d <= 255 -> DIV_ROUND_UP d 8 = (d + 7) / 8.
Proof.
  intros H. unfold DIV_ROUND_UP, int_div, int_sub, int_add.
  rewrite (to_int_small (d + 8)) by lia.
  rewrite (to_int_small (d + 8 - 1)) by lia.
  rewrite Z.quot_div_nonneg by lia.
  replace (d + 8 - 1) with (d + 7) by lia.
  apply to_int_small.
  assert (0 <= (d + 7) / 8 <= d + 7).
  { split; [apply Z.div_pos; lia|]. apply Z.div_le_upper_bound; lia. }
  lia.
Qed.

(** X18: The geometry [pxa_camera_try_fmt] asks the camera about: a width from
    48 to 2048 that is even, a height from 32 to 2048, for the planar
    YUV422 format a number of pixels that is a multiple of 16, and the line
    and image sizes that follow from them.  A geometry that meets these
    limits is asked about as it is. *)
Theorem try_fmt_limits_spec host pix :
  0 <= pix_width pix -> 0 <= pix_height pix -> 0 <= depth host <= 255 ->
  let q := try_fmt_limits V host pix in
  48 <= pix_width q <= 2048 /\ pix_width q mod 2 = 0 /\
  32 <= pix_height q <= 2048 /\
  (fourcc host = V4L2_PIX_FMT_YUV422P V ->
     (pix_width q * pix_height q) mod 16 = 0) /\
  pix_bytesperline q = pix_width q * ((depth host + 7) / 8) /\
  pix_sizeimage q = pix_height q * pix_bytesperline q /\
  (48 <= pix_width pix <= 2048 -> pix_width pix mod 2 = 0 ->
   32 <= pix_height pix <= 2048 ->
   (fourcc host = V4L2_PIX_FMT_YUV422P V ->
      (pix_width pix * pix_height pix) mod 16 = 0) ->
   pix_width q = pix_width pix /\ pix_height q = pix_height pix).
Proof.
  intros Hw Hh Hd q. subst q. unfold try_fmt_limits. cbv zeta.
  set (h0 := pix_height pix) in *. set (w0 := pix_width pix) in *.
  set (h1 := if (if h0 <? 32 then 32 else h0) >? 2048 then 2048
             else (if h0 <? 32 then 32 else h0)).
  set (wc := if (if w0 <? 48 then 48 else w0) >? 2048 then 2048
             else (if w0 <? 48 then 48 else w0)).
  set (w1 := Z.land wc (Z.lnot 1)).
  assert (Hh1 : 32 <= h1 <= 2048 /\ (32 <= h0 <= 2048 -> h1 = h0)).
  { subst h1. destruct (Z.ltb_spec h0 32);
      match goal with |- context [?a >? ?b] => destruct (Z.gtb_spec a b) end;
      lia. }
  assert (Hwc : 48 <= wc <= 2048 /\ (48 <= w0 <= 2048 -> wc = w0)).
  { subst wc. destruct (Z.ltb_spec w0 48);
      match goal with |- context [?a >? ?b] => destruct (Z.gtb_spec a b) end;
      lia. }
  assert (Ew1 : w1 = 2 * (wc / 2)).
  { subst w1. change 1 with (2 ^ 1 - 1). rewrite land_lnot_ones by lia.
    reflexivity. }
  assert (Hw1 : 48 <= w1 <= 2048 /\ w1 mod 2 = 0 /\
                (48 <= w0 <= 2048 -> w0 mod 2 = 0 -> w1 = w0)).
  { rewrite Ew1.
    pose proof (Z.div_mod wc 2 ltac:(lia)).
    pose proof (Z.mod_pos_bound wc 2 ltac:(lia)).
    split; [lia|]. split.
    - rewrite Z.mul_comm. apply Z.mod_mul. lia.
    - intros Hr Hev. destruct Hwc as [_ Hwc]. rewrite Hwc in * by exact Hr.
      lia. }
  clearbody h1 w1. clear Ew1 Hwc wc.
  destruct Hh1 as [Hh1 Hh1'], Hw1 as (Hw1 & Hev & Hw1').
  set (yuv := fourcc host =? V4L2_PIX_FMT_YUV422P V).
  rewrite (IS_ALIGNED_16 (w1 * h1)) by nia.
  set (h2 := if yuv && negb (w1 * h1 mod 16 =? 0)
             then ALIGN h1 YUV422P_X_Y_ALIGN else h1).
  assert (Hh2 : 32 <= h2 <= 2048 /\
                (yuv = true -> (w1 * h1) mod 16 <> 0 -> h2 mod 4 = 0) /\
                ((yuv = true -> (w1 * h1) mod 16 = 0) -> h2 = h1)).
  { subst h2. destruct yuv; cbn [andb].
    - destruct (Z.eqb_spec (w1 * h1 mod 16) 0) as [E|E]; cbn [negb].
      + split; [lia|]. split; [contradiction|reflexivity].
      + rewrite ALIGN_4 by lia.
        pose proof (Z.div_mod (h1 + 3) 4 ltac:(lia)).
        pose proof (Z.mod_pos_bound (h1 + 3) 4 ltac:(lia)).
        split; [lia|]. split.
        * intros _ _. rewrite Z.mul_comm. apply Z.mod_mul. lia.
        * intros Hal. specialize (Hal eq_refl). contradiction.
    - split; [lia|]. split; [discriminate|reflexivity]. }
  destruct Hh2 as (Hh2 & Hh2a & Hh2').
  rewrite (IS_ALIGNED_16 (w1 * h2)) by nia.
  set (w2 := if yuv && negb (w1 * h2 mod 16 =? 0)
             then ALIGN w1 YUV422P_X_Y_ALIGN else w1).
  cbn [pix_width pix_height pix_bytesperline pix_sizeimage].
  assert (Hw2 : 48 <= w2 <= 2048 /\ w2 mod 2 = 0 /\
                (yuv = true -> (w2 * h2) mod 16 = 0) /\
                ((yuv = true -> (w1 * h1) mod 16 = 0) -> w2 = w1)).
  { subst w2. destruct yuv; cbn [andb].
    - destruct (Z.eqb_spec (w1 * h2 mod 16) 0) as [E|E]; cbn [negb].
      + split; [lia|]. split; [exact Hev|]. split; [intros _; exact E|].
        reflexivity.
      + rewrite ALIGN_4 by lia.
        pose proof (Z.div_mod (w1 + 3) 4 ltac:(lia)).
        pose proof (Z.mod_pos_bound (w1 + 3) 4 ltac:(lia)).
        assert (Hna : (w1 * h1) mod 16 <> 0).
        { intros Hal. rewrite Hh2' in E by (intros _; exact Hal).
          contradiction. }
        specialize (Hh2a eq_refl Hna).
        split; [lia|]. split.
        { replace (4 * ((w1 + 3) / 4)) with (2 * ((w1 + 3) / 4) * 2) by lia.
          apply Z.mod_mul. lia. }
        split.
        { intros _. apply Z.mod_divide in Hh2a as [b Hb]; [|lia].
          rewrite Hb.
          replace (4 * ((w1 + 3) / 4) * (b * 4))
            with ((w1 + 3) / 4 * b * 16) by lia.
          apply Z.mod_mul. lia. }
        intros Hal. specialize (Hal eq_refl). contradiction.
    - split; [lia|]. split; [exact Hev|]. split; [discriminate|reflexivity]. }
  destruct Hw2 as (Hw2 & Hev2 & Hal2 & Hw2').
  clearbody w2 h2.
  assert (Hbpp : 0 <= (depth host + 7) / 8 <= 32).
  { split; [apply Z.div_pos; lia|].
    apply Z.lt_succ_r. apply Z.div_lt_upper_bound; lia. }
  rewrite DIV_ROUND_UP_8 by exact Hd.
  assert (Hbpl : 0 <= w2 * ((depth host + 7) / 8) <= 65536) by nia.
  rewrite (to_u32_small (w2 * _)) by lia.
  rewrite to_u32_small by nia.
  split; [exact Hw2|]. split; [exact Hev2|]. split; [exact Hh2|].
  split.
  { intros Hy. apply Hal2. subst yuv. apply Z.eqb_eq. exact Hy. }
  split; [reflexivity|]. split; [reflexivity|].
  intros Hwr Hwe Hhr Hal.
  rewrite Hw1' in * by assumption. rewrite Hh1' in * by assumption.
  assert (Hyal : yuv = true -> (w0 * h0) mod 16 = 0).
  { intros Hy. apply Hal. subst yuv. apply Z.eqb_eq in Hy. exact Hy. }
  rewrite Hw2', Hh2' by exact Hyal. split; reflexivity.
Qed.

(** X19: [pxa_camera_try_fmt] refuses a pixel format it has no translation for
    and leaves the format as it is.  Else the camera is asked about the
    limited geometry under its own pixel format code, the answer goes back
    under the host's code, and the field order is the only thing checked: an
    order that is neither any nor none is refused with [-EINVAL] whatever
    the camera returned, any becomes none, and the return value is the
    camera's. *)
Theorem pxa_camera_try_fmt_spec xlate camera pix :
  V4L2_FIELD_ANY V <> V4L2_FIELD_NONE V ->
  let r := pxa_camera_try_fmt V xlate camera pix in
  match xlate with
  | None => r = (- EINVAL, pix)
  | Some x =>
      let ans := camera (set_pixelformat (fourcc (cam_fmt x))
                           (try_fmt_limits V (host_fmt x) pix)) in
      pix_pixelformat r.2 = fourcc (host_fmt x) /\
      pix_width r.2 = pix_width ans.2 /\
      pix_height r.2 = pix_height ans.2 /\
      pix_bytesperline r.2 = pix_bytesperline ans.2 /\
      pix_sizeimage r.2 = pix_sizeimage ans.2 /\
      if bool_decide (pix_field ans.2 = V4L2_FIELD_ANY V \/
                      pix_field ans.2 = V4L2_FIELD_NONE V)
      then r.1 = ans.1 /\ pix_field r.2 = V4L2_FIELD_NONE V
      else r.1 = - EINVAL /\ pix_field r.2 = pix_field ans.2
  end.
Proof.
  intros Hne r. subst r. unfold pxa_camera_try_fmt.
  destruct xlate as [x|]; [|reflexivity].
  cbv zeta.
  destruct (camera _) as [ret ans]. cbn [fst snd].
  cbn [pix_field set_pixelformat].
  destruct (Z.eqb_spec (pix_field ans) (V4L2_FIELD_ANY V)) as [Ea|Ea].
  - rewrite bool_decide_eq_true_2 by (left; exact Ea).
    cbn. repeat split.
  - destruct (Z.eqb_spec (pix_field ans) (V4L2_FIELD_NONE V)) as [En|En];
      cbn [negb].
    + rewrite bool_decide_eq_true_2 by (right; exact En).
      cbn. repeat split. exact En.
    + rewrite bool_decide_eq_false_2 by (intros [?|?]; contradiction).
      cbn. repeat split.
Qed.

End FormatProofs.


(** *** The sample camera and board *)

Lemma try_fmt_limits_spec_witness :
  let host := {| depth := 16; fourcc := V4L2_PIX_FMT_YUV422P videodev2 |} in
  let q := try_fmt_limits videodev2 host odd_pix in
  48 <= pix_width q <= 2048 /\ pix_width q mod 2 = 0 /\
  32 <= pix_height q <= 2048 /\
  (fourcc host = V4L2_PIX_FMT_YUV422P videodev2 ->
     (pix_width q * pix_height q) mod 16 = 0) /\
  pix_bytesperline q = pix_width q * ((depth host + 7) / 8) /\
  pix_sizeimage q = pix_height q * pix_bytesperline q /\
  (48 <= pix_width odd_pix <= 2048 -> pix_width odd_pix mod 2 = 0 ->
   32 <= pix_height odd_pix <= 2048 ->
   (fourcc host = V4L2_PIX_FMT_YUV422P videodev2 ->
      (pix_width odd_pix * pix_height odd_pix) mod 16 = 0) ->
   pix_width q = pix_width odd_pix /\ pix_height q = pix_height odd_pix).
Proof.
  apply (try_fmt_limits_spec videodev2
           {| depth := 16; fourcc := V4L2_PIX_FMT_YUV422P videodev2 |}
           odd_pix);
    repeat split; vm_compute; discriminate.
Defined.

Lemma pxa_camera_try_fmt_spec_witness :
  let x := {| cam_fmt := uyvy;
              host_fmt := {| depth := 16;
                             fourcc := V4L2_PIX_FMT_YUV422P videodev2 |};
              buswidth := 8 |} in
  let camera := fun pix : v4l2_pix_format => (0, pix) in
  let r := pxa_camera_try_fmt videodev2 (Some x) camera odd_pix in
  let ans := camera (set_pixelformat (fourcc (cam_fmt x))
                       (try_fmt_limits videodev2 (host_fmt x) odd_pix)) in
  pix_pixelformat r.2 = fourcc (host_fmt x) /\
  pix_width r.2 = pix_width ans.2 /\
  pix_height r.2 = pix_height ans.2 /\
  pix_bytesperline r.2 = pix_bytesperline ans.2 /\
  pix_sizeimage r.2 = pix_sizeimage ans.2 /\
  if bool_decide (pix_field ans.2 = V4L2_FIELD_ANY videodev2 \/
                  pix_field ans.2 = V4L2_FIELD_NONE videodev2)
  then r.1 = ans.1 /\ pix_field r.2 = V4L2_FIELD_NONE videodev2
  else r.1 = - EINVAL /\ pix_field r.2 = pix_field ans.2.
Proof.
  apply (pxa_camera_try_fmt_spec videodev2
           (Some {| cam_fmt := uyvy;
                    host_fmt := {| depth := 16;
                                   fourcc := V4L2_PIX_FMT_YUV422P
                                               videodev2 |};
                    buswidth := 8 |})
           (fun pix : v4l2_pix_format => (0, pix)) odd_pix).
  vm_compute. discriminate.
Defined.

Example sample_translations :
  pxa_camera_get_formats pxa27x_camera soc_camera videodev2 host0
    (query_bus_param camera0) uyvy true
  = (2, [ {| cam_fmt := uyvy;
             host_fmt := {| depth := 16;
                            fourcc := V4L2_PIX_FMT_YUV422P videodev2 |};
             buswidth := 8 |};
          {| cam_fmt := uyvy; host_fmt := uyvy; buswidth := 8 |} ]) /\
  (pxa_camera_set_bus_param pxa27x_camera soc_camera videodev2 camera0
     (V4L2_PIX_FMT_YUV422P videodev2) host0 idle0).1 = 0.
Proof. split; vm_compute; reflexivity. Qed.

(** ** Preparing and releasing a buffer *)

Section PrepareProofs.

Variable M : mach_dma.

Lemma update_buf_lookup buf f s :
  bufs (update_buf buf f s) !!! buf = f (bufs s !!! buf).
Proof. unfold update_buf. cbn. apply lookup_total_insert_eq. Qed.

Lemma update_buf_other buf f s b :
  b <> buf -> bufs (update_buf buf f s) !!! b = bufs s !!! b.
Proof.
  intros H. unfold update_buf. cbn. apply lookup_total_insert_ne. congruence.
Qed.

Lemma update_buf_update_buf buf f g s :
  update_buf buf f (update_buf buf g s)
  = update_buf buf (fun b => f (g b)) s.
Proof.
  unfold update_buf. cbn.
  rewrite lookup_total_insert_eq, insert_insert_eq. reflexivity.
Qed.

Lemma update_buf_ext buf f g s :
  f (bufs s !!! buf) = g (bufs s !!! buf) ->
  update_buf buf f s = update_buf buf g s.
Proof. intros H. unfold update_buf. rewrite H. reflexivity. Qed.

Lemma free_buffer_eq buf s freed d0 d1 d2 :
  dmas (bufs s !!! buf) = [d0; d1; d2] ->
  free_buffer false buf s freed
  = Done (update_buf buf
            (fun b => set_vb_state VIDEOBUF_NEEDS_INIT
                        (set_dmas [set_sg_cpu None d0; set_sg_cpu None d1;
                                   set_sg_cpu None d2] b)) s,
          freed ++ held [d0; d1; d2]).
Proof.
  intros H. unfold free_buffer. cbn [seq foldl].
  unfold free_buffer_channel at 3. rewrite H. cbn [list_lookup_total].
  change ([d0; d1; d2] !!! 0%nat) with d0.
  unfold free_buffer_channel at 2. rewrite update_buf_lookup, H.
  cbn [dmas set_dmas].
  change (<[0%nat := set_sg_cpu None d0]> [d0; d1; d2] !!! 1%nat) with d1.
  unfold free_buffer_channel at 1.
  rewrite !update_buf_lookup, H. cbn [dmas set_dmas].
  change (<[1%nat := set_sg_cpu None d1]>
            (<[0%nat := set_sg_cpu None d0]> [d0; d1; d2]) !!! 2%nat)
    with d2.
  rewrite !update_buf_update_buf. f_equal. f_equal.
  - apply update_buf_ext. rewrite H. reflexivity.
  - unfold held, dma_free_coherent. cbn [flat_map].
    destruct (sg_cpu d0), (sg_cpu d1), (sg_cpu d2); cbn;
      rewrite <- ?app_assoc; cbn; rewrite ?app_nil_r; reflexivity.
Qed.


Variable env : prepare_env.

Lemma length_3 {A} (l : list A) :
  length l = 3%nat -> exists a b c, l = [a; b; c].
Proof.
  destruct l as [|a [|b [|c [|? ?]]]]; try discriminate. eauto.
Qed.

Lemma descs_update_buf buf f s : descs (update_buf buf f s) = descs s.
Proof. reflexivity. Qed.

Lemma released_after buf s d0 d1 d2 :
  released
    (update_buf buf (set_inwork 0)
       (update_buf buf
          (fun b => set_vb_state VIDEOBUF_NEEDS_INIT
                      (set_dmas [set_sg_cpu None d0; set_sg_cpu None d1;
                                 set_sg_cpu None d2] b)) s)) buf.
Proof. unfold released. rewrite !update_buf_lookup. repeat split. Qed.

(** X20: [free_buffer] hands every block the buffer holds to
    [dma_free_coherent] once, in the order of the channels, and leaves the
    buffer without a block and in state [VIDEOBUF_NEEDS_INIT]; called in
    interrupt context it stops at its [BUG_ON]. *)
Theorem free_buffer_spec (interrupt : bool) buf s freed :
  length (dmas (bufs s !!! buf)) = 3%nat ->
  if interrupt then free_buffer interrupt buf s freed = BUG
  else
    exists s',
      free_buffer interrupt buf s freed
      = Done (s', freed ++ held (dmas (bufs s !!! buf))) /\
      vb_state (bufs s' !!! buf) = VIDEOBUF_NEEDS_INIT /\
      held (dmas (bufs s' !!! buf)) = [] /\
      length (dmas (bufs s' !!! buf)) = 3%nat /\
      (forall i : nat,
         sg_dma (dmas (bufs s' !!! buf) !!! i)
         = sg_dma (dmas (bufs s !!! buf) !!! i)) /\
      descs s' = descs s /\ capture s' = capture s /\
      active s' = active s /\
      (forall b, b <> buf -> bufs s' !!! b = bufs s !!! b).
Proof.
  intros Hlen. destruct interrupt; [reflexivity|].
  destruct (length_3 _ Hlen) as (d0 & d1 & d2 & Hd).
  rewrite (free_buffer_eq _ _ _ _ _ _ Hd), Hd.
  eexists. split; [reflexivity|]. rewrite update_buf_lookup. cbn.
  split; [reflexivity|]. split; [reflexivity|]. split; [reflexivity|].
  split; [intros [|[|[|i]]]; reflexivity|].
  repeat (split; [reflexivity|]).
  intros b Hb. apply lookup_total_insert_ne. congruence.
Qed.

Lemma held_released d0 d1 d2 :
  held [set_sg_cpu None d0; set_sg_cpu None d1; set_sg_cpu None d2] = [].
Proof. reflexivity. Qed.


Lemma prepare_fail_released ret buf g s freed r g' s' freed' :
  length (dmas (bufs s !!! buf)) = 3%nat ->
  prepare_fail env ret buf g s freed = Done (r, g', s', freed') ->
  r = ret /\ g' = g /\ released s' buf /\
  freed' = freed ++ held (dmas (bufs s !!! buf)) /\
  descs s' = descs s /\ capture s' = capture s /\ active s' = active s /\
  (forall b, b <> buf -> bufs s' !!! b = bufs s !!! b).
Proof.
  intros Hlen H. unfold prepare_fail in H.
  destruct (in_interrupt env); [discriminate|].
  destruct (length_3 _ Hlen) as (d0 & d1 & d2 & Hd).
  rewrite (free_buffer_eq _ _ _ _ _ _ Hd) in H. cbn [bind] in H.
  unfold prepare_out in H. injection H as <- <- <- <-.
  rewrite update_buf_update_buf.
  split; [reflexivity|]. split; [reflexivity|]. split.
  { unfold released. rewrite update_buf_lookup. cbn. repeat split. }
  split; [rewrite Hd; reflexivity|].
  split; [reflexivity|]. split; [reflexivity|]. split; [reflexivity|].
  intros b Hb. apply update_buf_other. exact Hb.
Qed.

Lemma init_channel_frame buf i cibr size cur s freed r cur' s' freed' :
  init_channel M env buf i cibr size cur s freed
  = Done (r, cur', s', freed') ->
  length (dmas (bufs s' !!! buf)) = length (dmas (bufs s !!! buf)) /\
  vb_state (bufs s' !!! buf) = vb_state (bufs s !!! buf) /\
  inwork (bufs s' !!! buf) = inwork (bufs s !!! buf) /\
  channels s' = channels s /\ capture s' = capture s /\
  active s' = active s /\
  (forall b, b <> buf -> bufs s' !!! b = bufs s !!! b).
Proof.
  unfold init_channel. intros H.
  destruct (pxa_init_dma_channel _ _ _ _ _ _ _ _ _) as [out| |];
    try discriminate.
  cbn [bind] in H. injection H as _ _ <- _.
  change (bufs (with_descs ?m ?x)) with (bufs x).
  rewrite update_buf_lookup. cbn. rewrite length_insert.
  repeat split. intros b Hb. apply update_buf_other. exact Hb.
Qed.

(** X21: Whenever [pxa_videobuf_prepare] fails after its check of the size of
    a user buffer, it has released the buffer: no channel holds a
    descriptor block, the state is [VIDEOBUF_NEEDS_INIT] and the buffer is
    not in work. *)
Theorem pxa_videobuf_prepare_failure field buf g s freed ret g' s' freed' :
  length (dmas (bufs s !!! buf)) = 3%nat ->
  pxa_videobuf_prepare M env field buf g s freed
  = Done (ret, g', s', freed') ->
  ret <> 0 ->
  vb_baddr g' = 0 \/ vb_size g' <= vb_bsize g' ->
  released s' buf.
Proof.
  intros Hlen H Hret Hfit. unfold pxa_videobuf_prepare in H.
  destruct (icd_current_fmt env) as [f|]; [|discriminate].
  cbv zeta in H.
  match type of H with
  | context [if ?c then update_buf buf (set_vb_state VIDEOBUF_NEEDS_INIT) _
             else _] => set (changed := c) in H
  end.
  set (g0 := if changed then _ else g) in H.
  set (s0 := if changed then _ else update_buf buf (set_inwork 1) s) in H.
  assert (Hlen0 : length (dmas (bufs s0 !!! buf)) = 3%nat).
  { subst s0. destruct changed; rewrite ?update_buf_lookup; exact Hlen. }
  clearbody s0 g0. clear changed.
  destruct (buf_fmt g0) as [fmt|]; [|discriminate].
  set (g1 := {| buf_fmt := Some fmt; vb_width := vb_width g0;
                vb_height := vb_height g0; vb_field := vb_field g0;
                vb_size := _; vb_baddr := vb_baddr g0;
                vb_bsize := vb_bsize g0 |}) in H.
  destruct (negb (vb_baddr g1 =? 0) && (vb_bsize g1 <? vb_size g1)) eqn:Hs.
  { unfold prepare_out in H. injection H as _ <- _ _.
    apply andb_true_iff in Hs as [Ha Hb].
    apply negb_true_iff, Z.eqb_neq in Ha. apply Z.ltb_lt in Hb. lia. }
  clearbody g1.
  destruct (vb_state (bufs s0 !!! buf)) eqn:Hst;
    try (injection H as <- _ _ _; contradiction).
  unfold prepare_init in H. cbv zeta in H.
  destruct (negb (iolock_ret env =? 0)).
  { apply prepare_fail_released in H; [|exact Hlen0]. apply H. }
  destruct (init_channel M env buf 0 _ _ _ _ _) as [[[[r1 c1] s1] f1]| |]
    eqn:E1; try discriminate.
  cbn [bind] in H. apply init_channel_frame in E1 as (L1 & _ & _ & Hc1 & _).
  rewrite Hlen0 in L1.
  destruct (negb (r1 =? 0)).
  { apply prepare_fail_released in H; [|exact L1]. apply H. }
  match type of H with
  | context [bind ?x _] => destruct x as [[[[r2 c2] s2] f2]| |] eqn:E2
  end; try discriminate.
  cbn [bind] in H.
  assert (L2 : length (dmas (bufs s2 !!! buf)) = 3%nat).
  { destruct (negb _) in E2.
    - apply init_channel_frame in E2 as (L2 & _). congruence.
    - injection E2 as _ _ <- _. exact L1. }
  destruct (negb (r2 =? 0)).
  { unfold prepare_fail_u in H.
    apply prepare_fail_released in H; [|exact L2]. apply H. }
  match type of H with
  | context [bind ?x _] => destruct x as [[[[r3 c3] s3] f3]| |] eqn:E3
  end; try discriminate.
  cbn [bind] in H.
  assert (L3 : length (dmas (bufs s3 !!! buf)) = 3%nat).
  { destruct (negb _) in E3.
    - apply init_channel_frame in E3 as (L3 & _). congruence.
    - injection E3 as _ _ <- _. exact L2. }
  destruct (negb (r3 =? 0)).
  { unfold prepare_fail_v, prepare_fail_u in H.
    apply prepare_fail_released in H; [|exact L3]. apply H. }
  injection H as <- _ _ _. contradiction.
Qed.


(** The frame size [pxa_videobuf_prepare] works with. *)
Lemma pxa_videobuf_prepare_eq field buf g s freed f :
  icd_current_fmt env = Some f ->
  let changed :=
    negb (bool_decide (buf_fmt g = Some f))
    || negb (vb_width g =? icd_width env)
    || negb (vb_height g =? icd_height env)
    || negb (vb_field g =? field) in
  let size :=
    to_u32 (to_u32 (icd_width env * icd_height env)
            * to_u32 (Z.shiftr (int_add (depth (fmt_at env f)) 7) 3)) in
  let g1 := {| buf_fmt := Some f; vb_width := icd_width env;
               vb_height := icd_height env; vb_field := field;
               vb_size := size; vb_baddr := vb_baddr g;
               vb_bsize := vb_bsize g |} in
  let s1 := update_buf buf
              (fun b => if changed
                        then set_vb_state VIDEOBUF_NEEDS_INIT
                               (set_inwork 1 b)
                        else set_inwork 1 b) s in
  pxa_videobuf_prepare M env field buf g s freed
  = if negb (vb_baddr g =? 0) && (vb_bsize g <? size)
    then prepare_out (- EINVAL) buf g1 s1 freed
    else match vb_state (bufs s1 !!! buf) with
         | VIDEOBUF_NEEDS_INIT => prepare_init M env buf g1 s1 freed
         | _ => Done (0, g1,
                      pxa_videobuf_set_actdma buf
                        (update_buf buf (set_inwork 0) s1), freed)
         end.
Proof.
  intros Hf changed size g1 s1. unfold pxa_videobuf_prepare. rewrite Hf.
  cbv zeta. fold changed.
  assert (Hg : (if changed
                then {| buf_fmt := Some f; vb_width := icd_width env;
                        vb_height := icd_height env; vb_field := field;
                        vb_size := vb_size g; vb_baddr := vb_baddr g;
                        vb_bsize := vb_bsize g |}
                else g)
               = {| buf_fmt := Some f; vb_width := icd_width env;
                    vb_height := icd_height env; vb_field := field;
                    vb_size := vb_size g; vb_baddr := vb_baddr g;
                    vb_bsize := vb_bsize g |}).
  { subst changed.
    destruct (bool_decide_reflect (buf_fmt g = Some f)) as [E1|]; cbn [negb orb];
      [|reflexivity].
    destruct (Z.eqb_spec (vb_width g) (icd_width env)) as [E2|]; cbn [negb orb];
      [|reflexivity].
    destruct (Z.eqb_spec (vb_height g) (icd_height env)) as [E3|];
      cbn [negb orb]; [|reflexivity].
    destruct (Z.eqb_spec (vb_field g) field) as [E4|]; cbn [negb orb];
      [|reflexivity].
    destruct g; cbn in *; subst; reflexivity. }
  rewrite Hg. cbn [buf_fmt vb_width vb_height vb_field vb_baddr vb_bsize
                   vb_size].
  fold size. fold g1.
  assert (Hs : (if changed
                then update_buf buf (set_vb_state VIDEOBUF_NEEDS_INIT)
                       (update_buf buf (set_inwork 1) s)
                else update_buf buf (set_inwork 1) s) = s1).
  { subst s1. destruct changed; [apply update_buf_update_buf|reflexivity]. }
  rewrite Hs. reflexivity.
Qed.

(** X22: A user buffer that is too small for the frame: [-EINVAL], with the
    buffer out of work again and no descriptor block built, released or
    linked. *)
Theorem pxa_videobuf_prepare_too_small field buf g s freed f :
  icd_current_fmt env = Some f ->
  let size :=
    to_u32 (to_u32 (icd_width env * icd_height env)
            * to_u32 (Z.shiftr (int_add (depth (fmt_at env f)) 7) 3)) in
  vb_baddr g <> 0 -> vb_bsize g < size ->
  exists g' s',
    pxa_videobuf_prepare M env field buf g s freed
    = Done (- EINVAL, g', s', freed) /\
    vb_size g' = size /\
    inwork (bufs s' !!! buf) = 0 /\
    dmas (bufs s' !!! buf) = dmas (bufs s !!! buf) /\
    descs s' = descs s /\ capture s' = capture s /\ active s' = active s /\
    sg_tail s' = sg_tail s /\
    (forall b, b <> buf -> bufs s' !!! b = bufs s !!! b).
Proof.
  intros Hf size Hb Hs.
  rewrite (pxa_videobuf_prepare_eq field buf g s freed f Hf). cbv zeta.
  fold size.
  destruct (Z.eqb_spec (vb_baddr g) 0) as [|_]; [contradiction|].
  destruct (Z.ltb_spec (vb_bsize g) size) as [_|]; [|lia].
  cbn [negb andb]. unfold prepare_out. rewrite update_buf_update_buf.
  eexists _, _. split; [reflexivity|]. cbn [vb_size].
  rewrite update_buf_lookup.
  split; [reflexivity|]. split; [reflexivity|].
  split; [destruct (_ || _); reflexivity|].
  repeat (split; [reflexivity|]).
  intros b Hne. apply update_buf_other. exact Hne.
Qed.

(** X23: A buffer that is prepared already, for the format and the size the
    camera still has, is not built again: its chains and the descriptor
    memory stay as they are, nothing is released, and the buffer leaves with
    every plane outstanding. *)
Theorem pxa_videobuf_prepare_again field buf g s freed f :
  icd_current_fmt env = Some f ->
  buf_fmt g = Some f -> vb_width g = icd_width env ->
  vb_height g = icd_height env -> vb_field g = field ->
  vb_state (bufs s !!! buf) <> VIDEOBUF_NEEDS_INIT ->
  vb_baddr g = 0 \/ vb_size g <= vb_bsize g ->
  vb_size g =
    to_u32 (to_u32 (icd_width env * icd_height env)
            * to_u32 (Z.shiftr (int_add (depth (fmt_at env f)) 7) 3)) ->
  exists s',
    pxa_videobuf_prepare M env field buf g s freed = Done (0, g, s', freed) /\
    vb_state (bufs s' !!! buf) = vb_state (bufs s !!! buf) /\
    dmas (bufs s' !!! buf) = dmas (bufs s !!! buf) /\
    inwork (bufs s' !!! buf) = 0 /\
    active_dma (bufs s' !!! buf)
      = (if channels s =? 3 then Z.lor DMA_Y (Z.lor DMA_U DMA_V)
         else DMA_Y) /\
    descs s' = descs s /\ capture s' = capture s /\ active s' = active s /\
    sg_tail s' = sg_tail s /\
    (forall b, b <> buf -> bufs s' !!! b = bufs s !!! b).
Proof.
  intros Hf E1 E2 E3 E4 Hst Hfit Hsize.
  rewrite (pxa_videobuf_prepare_eq field buf g s freed f Hf). cbv zeta.
  rewrite <- Hsize.
  assert (Hc : negb (bool_decide (buf_fmt g = Some f))
               || negb (vb_width g =? icd_width env)
               || negb (vb_height g =? icd_height env)
               || negb (vb_field g =? field) = false).
  { rewrite bool_decide_eq_true_2 by exact E1.
    rewrite E2, E3, E4, !Z.eqb_refl. reflexivity. }
  rewrite Hc.
  assert (Hchk : negb (vb_baddr g =? 0) && (vb_bsize g <? vb_size g) = false).
  { destruct Hfit as [->|Hle]; [reflexivity|].
    destruct (Z.ltb_spec (vb_bsize g) (vb_size g)); [lia|].
    apply andb_false_r. }
  rewrite Hchk. rewrite update_buf_lookup. cbn [vb_state set_inwork].
  assert (Hg : {| buf_fmt := Some f; vb_width := icd_width env;
                   vb_height := icd_height env; vb_field := field;
                   vb_size := vb_size g; vb_baddr := vb_baddr g;
                   vb_bsize := vb_bsize g |} = g).
  { destruct g; cbn in *; subst; reflexivity. }
  rewrite Hg.
  exists (pxa_videobuf_set_actdma buf
            (update_buf buf (set_inwork 0)
               (update_buf buf (fun b => set_inwork 1 b) s))).
  split.
  { destruct (vb_state (bufs s !!! buf)); try reflexivity. contradiction. }
  unfold pxa_videobuf_set_actdma. cbn.
  rewrite !lookup_total_insert_eq. cbn.
  repeat (split; [reflexivity|]).
  intros b Hne. rewrite !lookup_total_insert_ne by congruence. reflexivity.
Qed.

(** X24: A fresh buffer of one plane: [pxa_videobuf_prepare] hands the whole
    frame, [width * height] times the bytes of a pixel, to the chain builder
    for channel 0 and stores what it builds; the buffer leaves in state
    [VIDEOBUF_PREPARED], out of work, with the Y plane outstanding and a
    chain that [pxa_videobuf_queue] accepts. *)
Theorem pxa_videobuf_prepare_plane field buf g s freed f base :
  icd_current_fmt env = Some f ->
  vb_state (bufs s !!! buf) = VIDEOBUF_NEEDS_INIT ->
  sg_cpu (dmas (bufs s !!! buf) !!! 0%nat) = None ->
  (0 < length (dmas (bufs s !!! buf)))%nat ->
  channels s = 1 ->
  vb_baddr g = 0 ->
  iolock_ret env = 0 ->
  alloc env 0%nat = Some base ->
  0 <= icd_width env -> 0 <= icd_height env ->
  0 <= depth (fmt_at env f) <= 255 ->
  let size := icd_width env * icd_height env
              * ((depth (fmt_at env f) + 7) / 8) in
  icd_width env * icd_height env <= INT_MAX ->
  size <= INT_MAX ->
  0 < iolock_sglen env <= INT_MAX ->
  iolock_sglist env <> [] ->
  Forall seg_ok (take (Z.to_nat (iolock_sglen env)) (iolock_sglist env)) ->
  size <= total_len (take (Z.to_nat (iolock_sglen env))
                          (iolock_sglist env)) ->
  block_ok M base (iolock_sglen env) ->
  exists out g' s',
    pxa_init_dma_channel M (res_start env) (Some base)
      (dmas (bufs s !!! buf) !!! 0%nat) (descs s) (iolock_sglen env) CIBR0
      size {| sg_first := iolock_sglist env; sg_first_ofs := 0 |}
    = Done out /\
    pxa_videobuf_prepare M env field buf g s freed
    = Done (0, g', s', freed) /\
    vb_size g' = size /\
    vb_state (bufs s' !!! buf) = VIDEOBUF_PREPARED /\
    inwork (bufs s' !!! buf) = 0 /\
    active_dma (bufs s' !!! buf) = DMA_Y /\
    dmas (bufs s' !!! buf) !!! 0%nat = out_dma out /\
    descs s' = out_mem out /\
    prepared s' buf /\
    capture s' = capture s /\ active s' = active s /\
    sg_tail s' = sg_tail s /\
    (forall b, b <> buf -> bufs s' !!! b = bufs s !!! b).
Proof.
  intros Hf Hst Hcpu Hlen Hch Hb Hio Hal Hw Hh Hd size Hwh Hsz Hn Hsg Hok
    Hcov Hblk.
  assert (Hbpp : 0 <= (depth (fmt_at env f) + 7) / 8 <= 32).
  { split; [apply Z.div_pos; lia|].
    apply Z.lt_succ_r. apply Z.div_lt_upper_bound; lia. }
  assert (Hsize0 : 0 <= size) by (subst size; nia).
  assert (Esize :
    to_u32 (to_u32 (icd_width env * icd_height env)
            * to_u32 (Z.shiftr (int_add (depth (fmt_at env f)) 7) 3))
    = size).
  { unfold int_add, INT_MAX in *.
    rewrite (to_int_small (_ + 7)) by lia.
    rewrite Z.shiftr_div_pow2 by lia. change (2 ^ 3) with 8.
    rewrite (to_u32_small (_ / 8)) by lia.
    rewrite (to_u32_small (icd_width env * icd_height env)) by nia.
    apply to_u32_small. fold size. lia. }
  destruct (pxa_init_dma_channel_spec M (res_start env) base
              (dmas (bufs s !!! buf) !!! 0%nat) (descs s) (iolock_sglen env)
              CIBR0 size
              {| sg_first := iolock_sglist env; sg_first_ofs := 0 |})
    as (out & Hrun & Hret & Hdma & Hcpu' & Hlen' & Hrange & _);
    try assumption.
  { split; [cbn; lia|]. cbn. intros s0 Hs0.
    destruct (iolock_sglist env) as [|x l]; [contradiction|].
    injection Hs0 as <-.
    destruct (Z.to_nat (iolock_sglen env)) eqn:En; [lia|].
    cbn in Hok. apply Forall_cons in Hok as [Hx _]. unfold seg_ok in Hx.
    lia. }
  { unfold INT_MAX in *. lia. }
  { cbn. lia. }
  assert (Hst1 : forall c : bool,
            vb_state (if c
                      then set_vb_state VIDEOBUF_NEEDS_INIT
                             (set_inwork 1 (bufs s !!! buf))
                      else set_inwork 1 (bufs s !!! buf))
            = VIDEOBUF_NEEDS_INIT).
  { intros []; [reflexivity|exact Hst]. }
  exists out. eexists _, _. split; [exact Hrun|]. split.
  { rewrite (pxa_videobuf_prepare_eq field buf g s freed f Hf). cbv zeta.
    rewrite Esize, Hb. cbn [Z.eqb negb andb].
    rewrite update_buf_lookup, Hst1.
    unfold prepare_init. cbv zeta. rewrite Hio. cbn [Z.eqb negb].
    cbn [vb_size]. rewrite (to_int_small size) by (unfold INT_MAX in *; lia).
    change (channels (update_buf buf ?f0 s)) with (channels s).
    rewrite Hch. change (1 =? 3) with false. cbv iota.
    unfold init_channel at 1. rewrite update_buf_lookup, Hal.
    change (descs (update_buf buf ?f0 s)) with (descs s).
    match goal with
    | |- context [dmas (if ?c then ?a else ?b)] =>
        replace (dmas (if c then a else b)) with (dmas (bufs s !!! buf))
          by (destruct c; reflexivity)
    end.
    rewrite Hcpu, Hrun. cbn [bind]. rewrite Hret.
    cbn [Z.eqb negb bind]. reflexivity. }
  cbn [vb_size]. split; [reflexivity|].
  unfold pxa_videobuf_set_actdma.
  rewrite !update_buf_update_buf.
  change (channels (update_buf buf ?f0 ?x)) with (channels x).
  change (channels (with_descs ?m ?x)) with (channels x).
  change (channels (update_buf buf ?f0 ?x)) with (channels x).
  rewrite Hch. change (1 =? 3) with false. cbv iota.
  cbn [bufs with_bufs with_descs update_buf].
  rewrite !lookup_total_insert_eq.
  cbn [vb_state inwork active_dma dmas set_active_dma set_inwork
       set_vb_state set_dmas].
  assert (Hd0 : forall c : bool,
            <[0%nat := out_dma out]>
              (dmas (if c
                     then set_vb_state VIDEOBUF_NEEDS_INIT
                            (set_inwork 1 (bufs s !!! buf))
                     else set_inwork 1 (bufs s !!! buf))) !!! 0%nat
            = out_dma out).
  { intros c. apply list_lookup_total_insert_eq.
    destruct c; exact Hlen. }
  split; [reflexivity|]. split; [reflexivity|]. split; [reflexivity|].
  split; [apply Hd0|]. split; [reflexivity|].
  split.
  { intros j Hj. cbn in Hj. rewrite Hch in Hj.
    assert (j = 0%nat) as -> by lia.
    unfold chan_dma. cbn [bufs with_bufs].
    rewrite lookup_total_insert_eq.
    cbn [dmas set_active_dma set_inwork set_vb_state set_dmas].
    rewrite Hd0, Hcpu', Hdma, Hlen'.
    destruct Hblk as (Hs0 & Hb0 & Hb1).
    split; [reflexivity|]. split; [nia|lia]. }
  repeat (split; [reflexivity|]).
  intros b Hne. rewrite !lookup_total_insert_ne by congruence.
  reflexivity.
Qed.


Ltac buf_simpl :=
  repeat first
    [ progress cbn [bufs descs with_descs dmas set_inwork set_dmas
                    set_vb_state]
    | rewrite update_buf_lookup ].

Lemma pxa_init_dma_channel_built res alloc0 d mem n cibr size cur out :
  pxa_init_dma_channel M res alloc0 d mem n cibr size cur = Done out ->
  match alloc0 with
  | Some base => out_ret out = 0 /\ sg_cpu (out_dma out) = Some base /\
                 sg_dma (out_dma out) = base
  | None => out_ret out = - ENOMEM /\ sg_cpu (out_dma out) = None /\
            out_mem out = mem /\ out_cursor out = cur
  end.
Proof.
  unfold pxa_init_dma_channel. intros H.
  destruct (calculate_dma_sglen _ _ _ _) as [k| |]; try discriminate.
  cbn [bind] in H. destruct alloc0 as [base|].
  - destruct (pxa_init_dma_channel_loop _ _ _ _ _ _ _ _ _ _ _ _)
      as [e| |]; try discriminate.
    cbn [bind] in H.
    destruct (_ <=? _); [destruct (sg_next _); try discriminate|];
      cbn [bind] in H; injection H as <-; repeat split.
  - injection H as <-. repeat split.
Qed.

Lemma fresh_in_work (b : pxa_buffer) (c : bool) :
  vb_state b = VIDEOBUF_NEEDS_INIT ->
  (if c then set_vb_state VIDEOBUF_NEEDS_INIT (set_inwork 1 b)
   else set_inwork 1 b) = set_inwork 1 b.
Proof.
  intros H. destruct c; [|reflexivity].
  destruct b; cbn in *; subst; reflexivity.
Qed.

(** X25: When the allocation for the V plane fails after the chains of the Y
    and U planes were built, [pxa_videobuf_prepare] returns [-ENOMEM] with
    the buffer released, and it has handed the blocks of both built chains
    to [dma_free_coherent] twice: once on the way out, and once more in
    [free_buffer]. *)
Theorem pxa_videobuf_prepare_enomem_v field buf g s freed f d0 d1 d2 oy ou
    ov :
  icd_current_fmt env = Some f ->
  in_interrupt env = false ->
  vb_state (bufs s !!! buf) = VIDEOBUF_NEEDS_INIT ->
  dmas (bufs s !!! buf) = [d0; d1; d2] ->
  sg_cpu d0 = None -> sg_cpu d1 = None -> sg_cpu d2 = None ->
  channels s = 3 -> vb_baddr g = 0 -> iolock_ret env = 0 ->
  let size :=
    to_int (to_u32 (to_u32 (icd_width env * icd_height env)
                    * to_u32 (Z.shiftr
                                (int_add (depth (fmt_at env f)) 7) 3))) in
  int_div size 4 <> 0 ->
  alloc env 0%nat <> None -> alloc env 1%nat <> None ->
  alloc env 2%nat = None ->
  pxa_init_dma_channel M (res_start env) (alloc env 0%nat) d0 (descs s)
    (iolock_sglen env) CIBR0 (int_div size 2)
    {| sg_first := iolock_sglist env; sg_first_ofs := 0 |} = Done oy ->
  pxa_init_dma_channel M (res_start env) (alloc env 1%nat) d1 (out_mem oy)
    (iolock_sglen env) CIBR1 (int_div size 4) (out_cursor oy) = Done ou ->
  pxa_init_dma_channel M (res_start env) None d2 (out_mem ou)
    (iolock_sglen env) CIBR2 (int_div size 4) (out_cursor ou) = Done ov ->
  exists g' s',
    pxa_videobuf_prepare M env field buf g s freed
    = Done (- ENOMEM, g', s',
            freed ++ [sg_dma (out_dma ou); sg_dma (out_dma oy);
                      sg_dma (out_dma oy); sg_dma (out_dma ou)]) /\
    released s' buf /\
    descs s' = out_mem ou.
Proof.
  intros Hf Hint Hst Hd H0 H1 H2 Hch Hb Hio size Hq Ha0 Ha1 Ha2 Hy Hu Hv.
  assert (Esz : to_int
                  (to_u32 (to_u32 (icd_width env * icd_height env)
                           * to_u32 (Z.shiftr
                                       (int_add (depth (fmt_at env f)) 7)
                                       3))) = size) by reflexivity.
  clearbody size.
  pose proof (pxa_init_dma_channel_built _ _ _ _ _ _ _ _ _ Hy) as By.
  pose proof (pxa_init_dma_channel_built _ _ _ _ _ _ _ _ _ Hu) as Bu.
  pose proof (pxa_init_dma_channel_built _ _ _ _ _ _ _ _ _ Hv) as Bv.
  destruct (alloc env 0%nat) as [y|] eqn:Ey; [|contradiction].
  destruct (alloc env 1%nat) as [u|] eqn:Eu; [|contradiction].
  destruct By as (Ry & Cy & Dy), Bu as (Ru & Cu & Du),
    Bv as (Rv & Cv & Mv & _).
  rewrite (pxa_videobuf_prepare_eq field buf g s freed f Hf). cbv zeta.
  rewrite Hb. cbn [Z.eqb negb andb].
  match goal with
  | |- context [update_buf buf ?F s] =>
      rewrite (update_buf_ext buf F (set_inwork 1) s)
        by (apply fresh_in_work; exact Hst)
  end.
  rewrite update_buf_lookup. cbn [vb_state set_inwork]. rewrite Hst.
  unfold prepare_init. cbv zeta. rewrite Hio. cbn [Z.eqb negb].
  cbn [vb_size]. rewrite Esz.
  change (channels (update_buf buf ?f0 s)) with (channels s).
  rewrite Hch. change (3 =? 3) with true. cbv iota.
  (* Y *)
  unfold init_channel at 1. rewrite update_buf_lookup.
  cbn [dmas set_inwork]. rewrite Hd.
  change ([d0; d1; d2] !!! 0%nat) with d0. rewrite H0, Ey.
  change (descs (update_buf buf ?f0 s)) with (descs s).
  rewrite Hy. cbn [bind]. rewrite Ry. cbn [Z.eqb negb].
  destruct (Z.eqb_spec (int_div size 4) 0) as [|_]; [contradiction|].
  cbn [negb].
  (* U *)
  unfold init_channel at 1.
  buf_simpl. rewrite Hd.
  change (<[0%nat := out_dma oy]> [d0; d1; d2] !!! 1%nat) with d1.
  rewrite H1, Eu, Hu. cbn [bind]. rewrite Ru. cbn [Z.eqb negb].
  (* V *)
  unfold init_channel at 1.
  buf_simpl. rewrite Hd.
  change (<[1%nat := out_dma ou]> (<[0%nat := out_dma oy]> [d0; d1; d2])
          !!! 2%nat) with d2.
  rewrite H2, Ha2, Hv. cbn [bind]. rewrite Rv.
  change (negb (- ENOMEM =? 0)) with true. cbv iota.
  (* fail_v, fail_u, fail *)
  unfold prepare_fail_v, prepare_fail_u, prepare_fail. rewrite Hint.
  buf_simpl. rewrite Hd.
  change (<[2%nat:=out_dma ov]>
            (<[1%nat:=out_dma ou]> (<[0%nat:=out_dma oy]> [d0; d1; d2])))
    with [out_dma oy; out_dma ou; out_dma ov].
  change ([out_dma oy; out_dma ou; out_dma ov] !!! 1%nat) with (out_dma ou).
  change ([out_dma oy; out_dma ou; out_dma ov] !!! 0%nat) with (out_dma oy).
  rewrite (free_buffer_eq buf _ _ (out_dma oy) (out_dma ou) (out_dma ov)).
  2:{ buf_simpl. rewrite Hd.
      change (<[2%nat:=out_dma ov]>
                (<[1%nat:=out_dma ou]>
                   (<[0%nat:=out_dma oy]> [d0; d1; d2])))
        with [out_dma oy; out_dma ou; out_dma ov].
      reflexivity. }
  cbn [bind]. unfold prepare_out, dma_free_coherent.
  assert (Hfr : ((freed ++ [sg_dma (out_dma ou)]) ++ [sg_dma (out_dma oy)])
                ++ held [out_dma oy; out_dma ou; out_dma ov]
                = freed ++ [sg_dma (out_dma ou); sg_dma (out_dma oy);
                            sg_dma (out_dma oy); sg_dma (out_dma ou)]).
  { unfold held. cbn [flat_map]. rewrite Cy, Cu, Cv. cbn [app].
    rewrite <- !app_assoc. reflexivity. }
  rewrite Hfr. eexists _, _. split; [reflexivity|]. split.
  - apply released_after.
  - rewrite !descs_update_buf. cbn [descs with_descs]. exact Mv.
Qed.

End PrepareProofs.

(** *** Preparing the sample frame *)

Lemma free_buffer_spec_witness :
  exists s',
    free_buffer false 100 two0 []
    = Done (s', [] ++ held (dmas (bufs two0 !!! 100))) /\
    vb_state (bufs s' !!! 100) = VIDEOBUF_NEEDS_INIT /\
    held (dmas (bufs s' !!! 100)) = [] /\
    length (dmas (bufs s' !!! 100)) = 3%nat /\
    (forall i : nat,
       sg_dma (dmas (bufs s' !!! 100) !!! i)
       = sg_dma (dmas (bufs two0 !!! 100) !!! i)) /\
    descs s' = descs two0 /\ capture s' = capture two0 /\
    active s' = active two0 /\
    (forall b, b <> 100 -> bufs s' !!! b = bufs two0 !!! b).
Proof.
  apply (free_buffer_spec false 100 two0 []). vm_compute. reflexivity.
Defined.

Lemma pxa_videobuf_prepare_failure_witness : released failed0.1.2 100.
Proof.
  apply (pxa_videobuf_prepare_failure pxa27x env_nomem 1 100 (geometry0 0 0)
           (fresh 1) [] failed0.1.1.1 failed0.1.1.2 failed0.1.2 failed0.2).
  - vm_compute. reflexivity.
  - vm_compute. reflexivity.
  - vm_compute. discriminate.
  - left. vm_compute. reflexivity.
Defined.

Lemma pxa_videobuf_prepare_too_small_witness :
  exists g' s',
    pxa_videobuf_prepare pxa27x env0 1 100 (geometry0 0x40000000 100)
      (fresh 1) []
    = Done (- EINVAL, g', s', []) /\
    vb_size g'
    = to_u32 (to_u32 (icd_width env0 * icd_height env0)
              * to_u32 (Z.shiftr (int_add (depth (fmt_at env0 200)) 7) 3)) /\
    inwork (bufs s' !!! 100) = 0 /\
    dmas (bufs s' !!! 100) = dmas (bufs (fresh 1) !!! 100) /\
    descs s' = descs (fresh 1) /\ capture s' = capture (fresh 1) /\
    active s' = active (fresh 1) /\ sg_tail s' = sg_tail (fresh 1) /\
    (forall b, b <> 100 -> bufs s' !!! b = bufs (fresh 1) !!! b).
Proof.
  apply (pxa_videobuf_prepare_too_small pxa27x env0 1 100
           (geometry0 0x40000000 100) (fresh 1) [] 200).
  - reflexivity.
  - vm_compute. discriminate.
  - vm_compute. reflexivity.
Defined.

Lemma pxa_videobuf_prepare_again_witness :
  exists s',
    pxa_videobuf_prepare pxa27x env0 1 100 (geometry0 0 0) two0 []
    = Done (0, geometry0 0 0, s', []) /\
    vb_state (bufs s' !!! 100) = vb_state (bufs two0 !!! 100) /\
    dmas (bufs s' !!! 100) = dmas (bufs two0 !!! 100) /\
    inwork (bufs s' !!! 100) = 0 /\
    active_dma (bufs s' !!! 100)
      = (if channels two0 =? 3 then Z.lor DMA_Y (Z.lor DMA_U DMA_V)
         else DMA_Y) /\
    descs s' = descs two0 /\ capture s' = capture two0 /\
    active s' = active two0 /\ sg_tail s' = sg_tail two0 /\
    (forall b, b <> 100 -> bufs s' !!! b = bufs two0 !!! b).
Proof.
  apply (pxa_videobuf_prepare_again pxa27x env0 1 100 (geometry0 0 0) two0
           [] 200); try reflexivity.
  - vm_compute. discriminate.
  - left. reflexivity.
Defined.

Lemma pxa_videobuf_prepare_plane_witness :
  exists out g' s',
    pxa_init_dma_channel pxa27x (res_start env0) (Some 0xa2000000)
      (dmas (bufs (fresh 1) !!! 100) !!! 0%nat) (descs (fresh 1))
      (iolock_sglen env0) CIBR0
      (icd_width env0 * icd_height env0
       * ((depth (fmt_at env0 200) + 7) / 8))
      {| sg_first := iolock_sglist env0; sg_first_ofs := 0 |}
    = Done out /\
    pxa_videobuf_prepare pxa27x env0 1 100 (geometry0 0 0) (fresh 1) []
    = Done (0, g', s', []) /\
    vb_size g'
    = icd_width env0 * icd_height env0
      * ((depth (fmt_at env0 200) + 7) / 8) /\
    vb_state (bufs s' !!! 100) = VIDEOBUF_PREPARED /\
    inwork (bufs s' !!! 100) = 0 /\
    active_dma (bufs s' !!! 100) = DMA_Y /\
    dmas (bufs s' !!! 100) !!! 0%nat = out_dma out /\
    descs s' = out_mem out /\
    prepared s' 100 /\
    capture s' = capture (fresh 1) /\ active s' = active (fresh 1) /\
    sg_tail s' = sg_tail (fresh 1) /\
    (forall b, b <> 100 -> bufs s' !!! b = bufs (fresh 1) !!! b).
Proof.
  apply (pxa_videobuf_prepare_plane pxa27x env0 1 100 (geometry0 0 0)
           (fresh 1) [] 200 0xa2000000);
    first [ sample_side
          | vm_compute; reflexivity
          | vm_compute; discriminate
          | vm_compute; lia
          | split; vm_compute; first [reflexivity | discriminate] ].
Defined.

Lemma pxa_videobuf_prepare_enomem_v_witness :
  exists g' s',
    pxa_videobuf_prepare pxa27x env0 1 100 (geometry0 0 0) (fresh 3) []
    = Done (- ENOMEM, g', s',
            [] ++ [sg_dma (out_dma plane_u); sg_dma (out_dma plane_y);
                   sg_dma (out_dma plane_y); sg_dma (out_dma plane_u)]) /\
    released s' 100 /\
    descs s' = out_mem plane_u.
Proof.
  apply (pxa_videobuf_prepare_enomem_v pxa27x env0 1 100 (geometry0 0 0)
           (fresh 3) [] 200 no_dma no_dma no_dma plane_y plane_u plane_v);
    try (vm_compute; reflexivity); vm_compute; discriminate.
Defined.

(** ** Bus parameters and format translations *)

Section BusParamProofs.

Variable C : mach_camera.
Variable SF : socam.
Variable V : v4l2.

Lemma test_platform_param_ret p width :
  (test_platform_param C SF p width).1
  = if buswidth_supported C p width then 0 else - EINVAL.
Proof.
  unfold test_platform_param, buswidth_supported.
  destruct (width =? 10) eqn:E10.
  { apply Z.eqb_eq in E10. subst width. cbn [Z.eqb Pos.eqb].
    destruct (bit_set _ (PXA_CAMERA_DATAWIDTH_10 C)); reflexivity. }
  destruct (width =? 9) eqn:E9.
  { apply Z.eqb_eq in E9. subst width. cbn [Z.eqb Pos.eqb].
    destruct (bit_set _ (PXA_CAMERA_DATAWIDTH_9 C)); reflexivity. }
  destruct (width =? 8) eqn:E8.
  { destruct (bit_set _ (PXA_CAMERA_DATAWIDTH_8 C)); reflexivity. }
  reflexivity.
Qed.

(** X26: [pxa_camera_try_bus_param] accepts a bus width exactly when
    [buswidth_supported] does and the flags of the camera are compatible
    with those of the host for that width; else it returns [-EINVAL]. *)
Theorem pxa_camera_try_bus_param_spec p camera_flags width :
  pxa_camera_try_bus_param C SF p camera_flags width
  = if buswidth_supported C p width
       && negb (soc_camera_bus_param_compatible SF camera_flags
                  (test_platform_param C SF p width).2 =? 0)
    then 0 else - EINVAL.
Proof.
  unfold pxa_camera_try_bus_param.
  pose proof (test_platform_param_ret p width) as H.
  destruct (test_platform_param C SF p width) as [ret flags].
  cbn [fst snd] in *. rewrite H.
  destruct (buswidth_supported C p width); cbn [andb]; [|reflexivity].
  cbn [Z.ltb Z.compare]. destruct (negb _); reflexivity.
Qed.

Lemma buswidth_supported_width p d :
  buswidth_supported C p d = true -> d = 8 \/ d = 9 \/ d = 10.
Proof.
  unfold buswidth_supported.
  destruct (Z.eqb_spec d 8); [auto|].
  destruct (Z.eqb_spec d 9); [auto|].
  destruct (Z.eqb_spec d 10); [auto|discriminate].
Qed.

(** X27: The two passes of [pxa_camera_get_formats] agree: the pass with
    [xlate] at [NULL] counts what the other pass writes.  At most two
    translations are offered for a camera format; each takes the camera
    format as it is, over the bus width the format requires, which the
    board supports; the host format is the camera format itself or, for
    UYVY, the planar format of the driver. *)
Theorem pxa_camera_get_formats_spec p camera_flags fmt :
  let counted := pxa_camera_get_formats C SF V p camera_flags fmt false in
  let filled := pxa_camera_get_formats C SF V p camera_flags fmt true in
  counted = (filled.1, []) /\
  Z.of_nat (length filled.2) = filled.1 /\
  0 <= filled.1 <= 2 /\
  Forall (fun x =>
            cam_fmt x = fmt /\
            buswidth x = required_buswidth V fmt /\
            buswidth_supported C p (buswidth x) = true /\
            (host_fmt x = fmt \/
             fourcc fmt = V4L2_PIX_FMT_UYVY V /\
             host_fmt x = {| depth := 16;
                             fourcc := V4L2_PIX_FMT_YUV422P V |}))
         filled.2.
Proof.
  unfold pxa_camera_get_formats. cbv zeta.
  change (int_add (int_add 0 1) 1) with 2. change (int_add 0 1) with 1.
  destruct (buswidth_supported C p (required_buswidth V fmt)) eqn:Hs;
    cbn [negb].
  2:{ cbn. repeat split; try lia. constructor. }
  destruct (_ <? 0).
  { cbn. repeat split; try lia. constructor. }
  destruct (Z.eqb_spec (fourcc fmt) (V4L2_PIX_FMT_UYVY V)) as [Eu|Eu].
  { cbn. repeat split; try lia.
    apply Forall_cons; split; [|apply Forall_cons; split; [|constructor]].
    - cbn. split; [reflexivity|]. split; [reflexivity|].
      split; [exact Hs|]. right. split; [exact Eu|reflexivity].
    - cbn. split; [reflexivity|]. split; [reflexivity|].
      split; [exact Hs|]. left. reflexivity. }
  destruct (packed V (fourcc fmt)) eqn:Hp.
  { cbn. repeat split; try lia.
    apply Forall_cons; split; [|constructor].
    cbn. split; [reflexivity|]. split; [reflexivity|].
    split; [exact Hs|]. left. reflexivity. }
  cbn. repeat split; try lia.
  apply Forall_cons; split; [|constructor].
  assert (Hw : depth fmt = required_buswidth V fmt).
  { unfold required_buswidth. rewrite Hp. reflexivity. }
  cbn. split; [reflexivity|]. split; [exact Hw|].
  split; [rewrite Hw; exact Hs|]. left. reflexivity.
Qed.

Lemma bit_set_testbit y n :
  0 <= n -> bit_set y (Z.shiftl 1 n) = Z.testbit y n.
Proof.
  intros Hn. destruct (Z.testbit y n) eqn:E.
  - apply testbit_bit_set; assumption.
  - unfold bit_set. rewrite Z.shiftl_1_l.
    replace (Z.land y (2 ^ n)) with 0; [reflexivity|].
    symmetry. apply Z.bits_inj'. intros m Hm.
    rewrite Z.land_spec, Z.bits_0.
    destruct (Z.eq_dec m n) as [->|Hne].
    + rewrite E. reflexivity.
    + rewrite Z.pow2_bits_false by lia. apply andb_false_r.
Qed.

(** X28: [pxa_camera_set_bus_param] either fails with a negative value and
    leaves the registers of the camera interface as they are, or returns 0
    with three channels for the planar YUV422 format and one for any other,
    the enable bit of [CICR0] as it was, every interrupt of the interface
    masked and its DMA requests enabled.  It touches neither the queue, nor
    the buffers, nor the DMA registers. *)
Theorem pxa_camera_set_bus_param_spec icd pixfmt p s :
  let r := pxa_camera_set_bus_param C SF V icd pixfmt p s in
  (r.1 = 0 \/
   r.1 < 0 /\ cam r.2 = cam s /\
   (channels r.2 = channels s \/ channels r.2 = 1)) /\
  (r.1 = 0 ->
   channels r.2 = (if pixfmt =? V4L2_PIX_FMT_YUV422P V then 3 else 1) /\
   bit_set (readl r.2 CICR0) CICR0_ENB = bit_set (readl s CICR0) CICR0_ENB /\
   bit_set (readl r.2 CICR0) CICR0_DMAEN = true /\
   (forall n, 0 <= n < 10 -> Z.testbit (readl r.2 CICR0) n = true) /\
   readl r.2 CICR2 = 0) /\
  capture r.2 = capture s /\ active r.2 = active s /\ bufs r.2 = bufs s /\
  descs r.2 = descs s /\ sg_tail r.2 = sg_tail s /\
  DCSR r.2 = DCSR s /\ DDADR r.2 = DDADR s /\ dma_chans r.2 = dma_chans s.
Proof.
  intros r. subst r. unfold pxa_camera_set_bus_param.
  pose proof (test_platform_param_ret p (cam_buswidth icd)) as Hret.
  destruct (test_platform_param C SF p (cam_buswidth icd)) as [ret flags].
  cbn [fst snd] in Hret.
  destruct (Z.ltb_spec ret 0) as [Hneg|Hpos].
  { cbn [fst snd]. split; [right; auto|].
    split; [intros ->; lia|repeat split]. }
  destruct (Z.eqb_spec (soc_camera_bus_param_compatible SF
                          (query_bus_param icd) flags) 0) as [_|_].
  { cbn [fst snd]. split; [right; unfold EINVAL; repeat split; auto; lia|].
    split; [unfold EINVAL; discriminate|repeat split]. }
  cbv zeta.
  match goal with
  | |- context [set_bus_param icd ?f] => generalize (set_bus_param icd f)
  end.
  intros sret. destruct (Z.ltb_spec sret 0) as [Hs|Hs].
  { cbn [fst snd]. split; [right; repeat split; auto|].
    split; [intros ->; lia|repeat split]. }
  match goal with
  | |- context [if ?a =? ?b then (4, 64) else _] =>
      generalize (if a =? b then (4, 64)
                  else if a =? SOCAM_DATAWIDTH_9 SF then (3, 32) else (2, 0))
  end.
  intros [dw bpp].
  set (s1 := if bit_set (readl (with_channels 1 s) CICR0) CICR0_ENB
             then writel (Z.land (readl (with_channels 1 s) CICR0)
                                 (Z.lnot CICR0_ENB)) CICR0
                         (with_channels 1 s)
             else with_channels 1 s).
  match goal with
  | |- context [to_u32 (Z.lor (Z.lor (CICR1_PPL_VAL ?x) bpp) dw)] =>
      generalize (to_u32 (Z.lor (Z.lor (CICR1_PPL_VAL x) bpp) dw))
  end.
  intros cicr1.
  assert (Hs1 : capture s1 = capture s /\ active s1 = active s /\
                bufs s1 = bufs s /\ descs s1 = descs s /\
                sg_tail s1 = sg_tail s /\ DCSR s1 = DCSR s /\
                DDADR s1 = DDADR s /\ dma_chans s1 = dma_chans s /\
                channels s1 = 1).
  { subst s1. destruct (bit_set _ _); repeat split. }
  clearbody s1.
  match goal with
  | |- context [let '(s0, c) := ?sel in _] =>
      assert (Hsel : exists c,
                sel = (with_channels
                         (if pixfmt =? V4L2_PIX_FMT_YUV422P V then 3 else 1)
                         s1, c))
  end.
  { destruct (pixfmt =? V4L2_PIX_FMT_YUV422P V); [eauto|].
    assert (Es : s1 = with_channels 1 s1).
    { destruct Hs1 as (_ & _ & _ & _ & _ & _ & _ & _ & Hc).
      destruct s1; cbn in *; subst; reflexivity. }
    assert (Hpair : forall c : Z, exists c',
              (s1, c) = (with_channels 1 s1, c')).
    { intros c. exists c. f_equal. exact Es. }
    destruct (_ || _); [apply Hpair|].
    destruct (pixfmt =? V4L2_PIX_FMT_RGB555 V); [apply Hpair|].
    destruct (pixfmt =? V4L2_PIX_FMT_RGB565 V); apply Hpair. }
  destruct Hsel as (c1 & ->).
  match goal with
  | |- context [writel ?v CICR4 _] => generalize v
  end.
  intros cicr4.
  match goal with
  | |- context [writel (Z.lor (CICR3_LPF_VAL ?a) ?b) CICR3 _] =>
      generalize (Z.lor (CICR3_LPF_VAL a) b)
  end.
  intros cicr3.
  set (mode := if bit_set (platform_flags p) (PXA_CAMERA_MASTER C)
               then CICR0_SIM_MP else Z.lor CICR0_SL_CAP_EN CICR0_SIM_SP).
  assert (Hmode : forall n, n <> 29 -> n <> 24 -> Z.testbit mode n = false).
  { intros n H29 H24. subst mode. destruct (bit_set _ _).
    - apply Z.bits_0.
    - rewrite Z.lor_spec. unfold CICR0_SL_CAP_EN, CICR0_SIM_SP.
      destruct (Z_lt_le_dec n 0) as [Hn|Hn].
      + rewrite !Z.testbit_neg_r by lia. reflexivity.
      + rewrite !Z.shiftl_1_l, !Z.pow2_bits_false by lia. reflexivity. }
  clearbody mode.
  destruct Hs1 as (H1 & H2 & H3 & H4 & H5 & H6 & H7 & H8 & H9).
  cbn [fst snd].
  split; [left; reflexivity|].
  split; [intros _|cbn; repeat split; assumption].
  split; [reflexivity|].
  assert (Hc0 : readl (with_channels 1 s) CICR0 = readl s CICR0)
    by reflexivity.
  rewrite Hc0.
  assert (Hr0 : forall x rest,
            readl (writel x CICR0 rest) CICR0 = to_u32 x).
  { intros x rest. unfold readl, writel. cbn.
    apply lookup_total_insert_eq. }
  rewrite Hr0.
  assert (Hbit : forall n, 0 <= n < 32 ->
            Z.testbit
              (to_u32 (Z.lor (Z.lor (Z.land (readl s CICR0) CICR0_ENB) mode)
                             (Z.lor CICR0_DMAEN CICR0_IRQ_MASK))) n
            = (Z.testbit (readl s CICR0) n && (n =? 28))
              || Z.testbit mode n || (n =? 31) || (n <? 10)).
  { intros n Hn. unfold to_u32. rewrite Z.mod_pow2_bits_low by lia.
    rewrite !Z.lor_spec, Z.land_spec.
    change CICR0_IRQ_MASK with (Z.ones 10).
    unfold CICR0_ENB, CICR0_DMAEN. rewrite !Z.shiftl_1_l.
    rewrite (Z.pow2_bits_eqb 28), (Z.pow2_bits_eqb 31) by lia.
    rewrite Z.testbit_ones_nonneg by lia.
    rewrite (Z.eqb_sym 28), (Z.eqb_sym 31).
    destruct (n <? 10), (n =? 31), (n =? 28), (Z.testbit mode n),
      (Z.testbit (readl s CICR0) n); reflexivity. }
  split.
  { unfold CICR0_ENB. rewrite !bit_set_testbit by lia.
    rewrite Hbit by lia. rewrite Hmode by lia. cbn.
    rewrite andb_true_r, !orb_false_r. reflexivity. }
  split.
  { unfold CICR0_DMAEN. rewrite bit_set_testbit by lia.
    rewrite Hbit by lia. cbn. rewrite orb_true_r. reflexivity. }
  split.
  { intros n Hn. rewrite Hbit by lia.
    destruct (Z.ltb_spec n 10); [|lia]. apply orb_true_r. }
  unfold readl, writel. cbn.
  rewrite !lookup_total_insert_ne by discriminate.
  rewrite lookup_total_insert_eq. reflexivity.
Qed.

End BusParamProofs.


(** *** The sample board on the bus *)

Lemma pxa_camera_try_bus_param_spec_witness :
  pxa_camera_try_bus_param pxa27x_camera soc_camera host0
    (query_bus_param camera0) 8
  = if buswidth_supported pxa27x_camera host0 8
       && negb (soc_camera_bus_param_compatible soc_camera
                  (query_bus_param camera0)
                  (test_platform_param pxa27x_camera soc_camera host0 8).2
                =? 0)
    then 0 else - EINVAL.
Proof.
  apply (pxa_camera_try_bus_param_spec pxa27x_camera soc_camera host0
           (query_bus_param camera0) 8).
Defined.

Lemma pxa_camera_get_formats_spec_witness :
  let counted := pxa_camera_get_formats pxa27x_camera soc_camera videodev2
                   host0 (query_bus_param camera0) uyvy false in
  let filled := pxa_camera_get_formats pxa27x_camera soc_camera videodev2
                  host0 (query_bus_param camera0) uyvy true in
  counted = (filled.1, []) /\
  Z.of_nat (length filled.2) = filled.1 /\
  0 <= filled.1 <= 2 /\
  Forall (fun x =>
            cam_fmt x = uyvy /\
            buswidth x = required_buswidth videodev2 uyvy /\
            buswidth_supported pxa27x_camera host0 (buswidth x) = true /\
            (host_fmt x = uyvy \/
             fourcc uyvy = V4L2_PIX_FMT_UYVY videodev2 /\
             host_fmt x = {| depth := 16;
                             fourcc := V4L2_PIX_FMT_YUV422P videodev2 |}))
         filled.2.
Proof.
  apply (pxa_camera_get_formats_spec pxa27x_camera soc_camera videodev2
           host0 (query_bus_param camera0) uyvy).
Defined.

Lemma pxa_camera_set_bus_param_spec_witness :
  let pixfmt := V4L2_PIX_FMT_YUV422P videodev2 in
  let r := pxa_camera_set_bus_param pxa27x_camera soc_camera videodev2
             camera0 pixfmt host0 idle0 in
  (r.1 = 0 \/
   r.1 < 0 /\ cam r.2 = cam idle0 /\
   (channels r.2 = channels idle0 \/ channels r.2 = 1)) /\
  (r.1 = 0 ->
   channels r.2
     = (if pixfmt =? V4L2_PIX_FMT_YUV422P videodev2 then 3 else 1) /\
   bit_set (readl r.2 CICR0) CICR0_ENB
     = bit_set (readl idle0 CICR0) CICR0_ENB /\
   bit_set (readl r.2 CICR0) CICR0_DMAEN = true /\
   (forall n, 0 <= n < 10 -> Z.testbit (readl r.2 CICR0) n = true) /\
   readl r.2 CICR2 = 0) /\
  capture r.2 = capture idle0 /\ active r.2 = active idle0 /\
  bufs r.2 = bufs idle0 /\ descs r.2 = descs idle0 /\
  sg_tail r.2 = sg_tail idle0 /\
  DCSR r.2 = DCSR idle0 /\ DDADR r.2 = DDADR idle0 /\
  dma_chans r.2 = dma_chans idle0.
Proof.
  apply (pxa_camera_set_bus_param_spec pxa27x_camera soc_camera videodev2
           camera0 (V4L2_PIX_FMT_YUV422P videodev2) host0 idle0).
Defined.


(** ** Formats and rectangles: the pixel clock of the camera *)

Section SenseProofs.

Variable C : mach_camera.
Variable SF : socam.

Lemma recalculate_fifo_timeout_spec p pclk s :
  0 <= ciclk p < 2 ^ 32 - 1 -> 0 < pclk ->
  exists s',
    recalculate_fifo_timeout p pclk s = Done s' /\
    ciclk p < readl s' CITOR * pclk /\
    (forall reg, reg <> CITOR -> readl s' reg = readl s reg) /\
    channels s' = channels s /\ capture s' = capture s /\
    active s' = active s /\ bufs s' = bufs s /\ descs s' = descs s /\
    DCSR s' = DCSR s /\ DDADR s' = DDADR s.
Proof.
  intros Hc Hp. unfold recalculate_fifo_timeout, ulong_div.
  destruct (Z.eqb_spec pclk 0) as [|_]; [lia|]. cbn [bind].
  eexists. split; [reflexivity|].
  assert (Hq : 0 <= ciclk p / pclk <= ciclk p).
  { split; [apply Z.div_pos; lia|]. apply Z.div_le_upper_bound; nia. }
  split.
  { unfold readl, writel. cbn. rewrite lookup_total_insert_eq.
    rewrite (to_u32_small (_ / _ + 1)) by lia.
    rewrite to_u32_small by lia.
    pose proof (Z.mul_succ_div_gt (ciclk p) pclk Hp). lia. }
  split; [|repeat split].
  intros reg Hne. unfold readl, writel. cbn.
  apply lookup_total_insert_ne. congruence.
Qed.

(** X29: [pxa_camera_set_fmt] with a translation at hand: the camera is given
    the local [sense] only on a board that latches data on the pixel clock.
    A camera that fails is reported as it is and nothing changes.  A camera
    that reports a pixel clock above a quarter of the interface clock is
    refused with [-EIO], with the current format and the time-out as they
    were; else the time-out is set to more than one pixel time of the new
    clock, and the current format and bus width become those of the
    translation when the camera returned 0. *)
Theorem pxa_camera_set_fmt_spec x op p current s :
  let sense0 := {| sense_flags := 0; master_clock := mclk p;
                   pixel_clock_max := ciclk p / 4; pixel_clock := 0 |} in
  let ans := if bit_set (platform_flags p) (PXA_CAMERA_PCLK_EN C)
             then op (fourcc (cam_fmt x)) (Some sense0)
             else ((op (fourcc (cam_fmt x)) None).1, sense0) in
  let changed := (0 <=? ans.1)
                 && bit_set (sense_flags ans.2)
                            (SOCAM_SENSE_PCLK_CHANGED SF) in
  0 <= ciclk p < 2 ^ 32 - 1 ->
  (changed = true -> 0 < pixel_clock ans.2) ->
  exists r,
    pxa_camera_set_fmt C SF (Some x) op p current s = Done r /\
    if changed && (pixel_clock ans.2 >? pixel_clock_max ans.2)
    then r = (- EIO, current, s)
    else
      r.1.1 = ans.1 /\
      r.1.2 = (if ans.1 =? 0 then (buswidth x, Some (host_fmt x))
               else current) /\
      if changed
      then ciclk p < readl r.2 CITOR * pixel_clock ans.2 /\
           (forall reg, reg <> CITOR -> readl r.2 reg = readl s reg) /\
           channels r.2 = channels s /\ capture r.2 = capture s /\
           active r.2 = active s
      else r.2 = s.
Proof.
  intros sense0 ans changed Hc Hp. unfold pxa_camera_set_fmt.
  fold sense0. fold ans. subst changed.
  destruct ans as [ret sense]. cbn [fst snd] in *.
  destruct (Z.ltb_spec ret 0) as [Hneg|Hpos].
  { destruct (Z.leb_spec 0 ret); [lia|]. cbn [andb bind].
    eexists. split; [reflexivity|]. cbn.
    destruct (Z.eqb_spec ret 0); [lia|]. repeat split. }
  destruct (Z.leb_spec 0 ret); [|lia]. cbn [andb] in *.
  destruct (bit_set _ _).
  - destruct (pixel_clock sense >? pixel_clock_max sense).
    + cbn [bind]. eexists. split; reflexivity.
    + destruct (recalculate_fifo_timeout_spec p (pixel_clock sense) s Hc
                  (Hp eq_refl))
        as (s' & -> & Ht & Hreg & Hch & Hq & Ha & _).
      cbn [bind]. eexists. split; [reflexivity|]. cbn.
      repeat split; assumption.
  - cbn [bind]. eexists. split; [reflexivity|]. cbn. repeat split.
Qed.

(** X30: [pxa_camera_set_crop]: the same check of the pixel clock.  The value
    the camera returned is reported unless the camera raised its pixel clock
    above a quarter of the interface clock, which gives [-EIO] and leaves
    the time-out as it was. *)
Theorem pxa_camera_set_crop_spec op p s :
  let sense0 := {| sense_flags := 0; master_clock := mclk p;
                   pixel_clock_max := ciclk p / 4; pixel_clock := 0 |} in
  let ans := if bit_set (platform_flags p) (PXA_CAMERA_PCLK_EN C)
             then op (Some sense0) else ((op None).1, sense0) in
  let changed := (0 <=? ans.1)
                 && bit_set (sense_flags ans.2)
                            (SOCAM_SENSE_PCLK_CHANGED SF) in
  0 <= ciclk p < 2 ^ 32 - 1 ->
  (changed = true -> 0 < pixel_clock ans.2) ->
  exists r,
    pxa_camera_set_crop C SF op p s = Done r /\
    if changed && (pixel_clock ans.2 >? pixel_clock_max ans.2)
    then r = (- EIO, s)
    else
      r.1 = ans.1 /\
      if changed
      then ciclk p < readl r.2 CITOR * pixel_clock ans.2 /\
           (forall reg, reg <> CITOR -> readl r.2 reg = readl s reg) /\
           channels r.2 = channels s /\ capture r.2 = capture s /\
           active r.2 = active s
      else r.2 = s.
Proof.
  intros sense0 ans changed Hc Hp. unfold pxa_camera_set_crop.
  fold sense0. fold ans. subst changed.
  destruct ans as [ret sense]. cbn [fst snd] in *.
  destruct (Z.ltb_spec ret 0) as [Hneg|Hpos].
  { destruct (Z.leb_spec 0 ret); [lia|]. cbn [andb bind].
    eexists. split; [reflexivity|]. cbn. repeat split. }
  destruct (Z.leb_spec 0 ret); [|lia]. cbn [andb] in *.
  destruct (bit_set _ _).
  - destruct (pixel_clock sense >? pixel_clock_max sense).
    + cbn [bind]. eexists. split; reflexivity.
    + destruct (recalculate_fifo_timeout_spec p (pixel_clock sense) s Hc
                  (Hp eq_refl))
        as (s' & -> & Ht & Hreg & Hch & Hq & Ha & _).
      cbn [bind]. eexists. split; [reflexivity|]. cbn.
      repeat split; assumption.
  - cbn [bind]. eexists. split; [reflexivity|]. cbn. repeat split.
Qed.

End SenseProofs.

Lemma pxa_camera_set_fmt_spec_witness :
  let x := {| cam_fmt := uyvy; host_fmt := uyvy; buswidth := 8 |} in
  let op := fun _ : Z => camera_clock 30000000 in
  let sense0 := {| sense_flags := 0; master_clock := mclk host0;
                   pixel_clock_max := ciclk host0 / 4; pixel_clock := 0 |} in
  let ans := if bit_set (platform_flags host0)
                  (PXA_CAMERA_PCLK_EN pxa27x_camera)
             then op (fourcc (cam_fmt x)) (Some sense0)
             else ((op (fourcc (cam_fmt x)) None).1, sense0) in
  let changed := (0 <=? ans.1)
                 && bit_set (sense_flags ans.2)
                            (SOCAM_SENSE_PCLK_CHANGED soc_camera) in
  exists r,
    pxa_camera_set_fmt pxa27x_camera soc_camera (Some x) op host0 (0, None)
      idle0 = Done r /\
    if changed && (pixel_clock ans.2 >? pixel_clock_max ans.2)
    then r = (- EIO, (0, None), idle0)
    else
      r.1.1 = ans.1 /\
      r.1.2 = (if ans.1 =? 0 then (buswidth x, Some (host_fmt x))
               else (0, None)) /\
      if changed
      then ciclk host0 < readl r.2 CITOR * pixel_clock ans.2 /\
           (forall reg, reg <> CITOR -> readl r.2 reg = readl idle0 reg) /\
           channels r.2 = channels idle0 /\ capture r.2 = capture idle0 /\
           active r.2 = active idle0
      else r.2 = idle0.
Proof.
  apply (pxa_camera_set_fmt_spec pxa27x_camera soc_camera
           {| cam_fmt := uyvy; host_fmt := uyvy; buswidth := 8 |}
           (fun _ : Z => camera_clock 30000000) host0 (0, None) idle0).
  - vm_compute. split; [discriminate|reflexivity].
  - intros _. vm_compute. reflexivity.
Defined.

Lemma pxa_camera_set_crop_spec_witness :
  let op := camera_clock 20000000 in
  let sense0 := {| sense_flags := 0; master_clock := mclk host0;
                   pixel_clock_max := ciclk host0 / 4; pixel_clock := 0 |} in
  let ans := if bit_set (platform_flags host0)
                  (PXA_CAMERA_PCLK_EN pxa27x_camera)
             then op (Some sense0) else ((op None).1, sense0) in
  let changed := (0 <=? ans.1)
                 && bit_set (sense_flags ans.2)
                            (SOCAM_SENSE_PCLK_CHANGED soc_camera) in
  exists r,
    pxa_camera_set_crop pxa27x_camera soc_camera op host0 idle0 = Done r /\
    if changed && (pixel_clock ans.2 >? pixel_clock_max ans.2)
    then r = (- EIO, idle0)
    else
      r.1 = ans.1 /\
      if changed
      then ciclk host0 < readl r.2 CITOR * pixel_clock ans.2 /\
           (forall reg, reg <> CITOR -> readl r.2 reg = readl idle0 reg) /\
           channels r.2 = channels idle0 /\ capture r.2 = capture idle0 /\
           active r.2 = active idle0
      else r.2 = idle0.
Proof.
  apply (pxa_camera_set_crop_spec pxa27x_camera soc_camera
           (camera_clock 20000000) host0 idle0).
  - vm_compute. split; [discriminate|reflexivity].
  - intros _. vm_compute. reflexivity.
Defined.
